(** * Yaco: a shallow embedding of [Yaco/__init__.py]

    [Yaco] is a [dict] subclass with attribute access and
    auto-vivification; [PolyYaco] stacks several [Yaco] objects and
    serves reads from a cached merge of the stack.

    Python objects are mutable and shared, so every [Yaco] object lives
    in a store and is named by its address.  Methods are state
    transformers that either return a value or raise; the store reached
    when an exception escapes is kept, as in Python. *)

From Stdlib Require Import ZArith Lia Ascii.
From stdpp Require Import base option list strings gmap.

#[global] Set Warnings "-clear-no-such-hyp,-level-tolerance".

Open Scope string_scope.
Open Scope list_scope.

(** ** Values *)

Abbreviation addr := nat.

(** The values YAML round-trips (null, booleans, integers, strings,
    lists, mappings) plus references to [Yaco] objects.  A plain [dict]
    and a [list] are carried by value; a [Yaco] is carried by
    reference.  The identity of a list, which Python has, is not
    followed. *)
Inductive scalar : Type :=
| SNone
| SBool (b : bool)
| SInt (z : Z)
| SStr (s : string).

#[warnings="-register-all"]
Inductive value : Type :=
| VScalar (c : scalar)
| VList (l : list value)
| VDict (d : list (string * value))
| VYaco (a : addr).

Abbreviation VNone := (VScalar SNone).
Abbreviation VBool b := (VScalar (SBool b)).
Abbreviation VInt z := (VScalar (SInt z)).
Abbreviation VStr s := (VScalar (SStr s)).

(** The contents of a dictionary, in insertion order. *)
Abbreviation dict := (list (string * value)).

(** ** Dictionary primitives ([dict.get], [dict.__setitem__], ...) *)

Section dict_ops.
Context {V : Type}.

Fixpoint dict_get (k : string) (d : list (string * V)) : option V :=
  match d with
  | [] => None
  | (k', v) :: r => if String.eqb k k' then Some v else dict_get k r
  end.

(** [d[k] = v]: overwrite in place when the key exists, else append. *)
Fixpoint dict_set (k : string) (v : V) (d : list (string * V))
  : list (string * V) :=
  match d with
  | [] => [(k, v)]
  | (k', v') :: r =>
      if String.eqb k k' then (k', v) :: r else (k', v') :: dict_set k v r
  end.

Fixpoint dict_del (k : string) (d : list (string * V)) : list (string * V) :=
  match d with
  | [] => []
  | (k', v') :: r =>
      if String.eqb k k' then r else (k', v') :: dict_del k r
  end.

Definition dict_has (k : string) (d : list (string * V)) : bool :=
  match dict_get k d with Some _ => true | None => false end.

Definition dict_keys (d : list (string * V)) : list string := map fst d.

Definition nonempty (d : list V) : bool :=
  match d with [] => false | _ => true end.
End dict_ops.

(** ** The object store *)

(** Cell [a] holds the entries of the [Yaco] object at address [a].
    Allocation appends a cell, so addresses are never reused. *)
Abbreviation store := (list dict).

Definition cell (h : store) (a : addr) : dict := default [] (h !! a).

Definition put_cell (h : store) (a : addr) (d : dict) : store := <[a := d]> h.

(** ** Exceptions and the state monad *)

Inductive exn : Type :=
| KeyError
| TypeError
| AttributeError
| IndexError
| RecursionError
| IOError
| ImportError
| YacoNotADirectory
| ValueError
| SystemExit
| NotModelled
| Error (msg : string).

Inductive outcome (A : Type) : Type :=
| Ok (x : A)
| Raise (e : exn).
Arguments Ok {A} x.
Arguments Raise {A} e.

Definition M (S A : Type) : Type := S -> outcome A * S.

Definition ret {S A} (x : A) : M S A := fun s => (Ok x, s).
Definition raise {S A} (e : exn) : M S A := fun s => (Raise e, s).
Definition bind {S A B} (m : M S A) (f : A -> M S B) : M S B :=
  fun s => match m s with
           | (Ok x, s') => f x s'
           | (Raise e, s') => (Raise e, s')
           end.
Definition gets {S A} (f : S -> A) : M S A := fun s => (Ok (f s), s).
Definition modify {S} (f : S -> S) : M S unit := fun s => (Ok tt, f s).

Declare Scope py_scope.
Delimit Scope py_scope with py.
Notation "x <- m ;; k" := (bind m (fun x => k))
  (at level 100, m at next level, right associativity) : py_scope.
Notation "m ;;; k" := (bind m (fun _ => k))
  (at level 100, right associativity) : py_scope.
Open Scope py_scope.

(** [for x in l: body x], left to right, stopping at the first raise. *)
Definition for_each {S A} (l : list A) (body : A -> M S unit) : M S unit :=
  (fix loop (l : list A) : M S unit :=
     match l with
     | [] => ret tt
     | x :: r => body x ;;; loop r
     end) l.

(** [[f x for x in l]]. *)
Definition map_each {S A B} (l : list A) (f : A -> M S B) : M S (list B) :=
  (fix loop (l : list A) : M S (list B) :=
     match l with
     | [] => ret []
     | x :: r => y <- f x ;; ys <- loop r ;; ret (y :: ys)
     end) l.

(** A loop that threads an accumulator. *)
Definition fold_each {S A B} (l : list A) (init : B) (body : B -> A -> M S B)
  : M S B :=
  (fix loop (l : list A) (acc : B) : M S B :=
     match l with
     | [] => ret acc
     | x :: r => acc' <- body acc x ;; loop r acc'
     end) l init.

(** ** Python truthiness and type tests *)

Definition scalar_truthy (c : scalar) : bool :=
  match c with
  | SNone => false
  | SBool b => b
  | SInt z => negb (Z.eqb z 0)
  | SStr s => negb (String.eqb s "")
  end.

Definition truthy (h : store) (v : value) : bool :=
  match v with
  | VScalar c => scalar_truthy c
  | VList l => nonempty l
  | VDict d => nonempty d
  | VYaco a => nonempty (cell h a)
  end.

(** [isinstance(v, dict)]: [Yaco] subclasses [dict]. *)
Definition is_dict (v : value) : bool :=
  match v with VDict _ | VYaco _ => true | _ => false end.

Definition is_Yaco (v : value) : bool :=
  match v with VYaco _ => true | _ => false end.

Definition is_list (v : value) : bool :=
  match v with VList _ => true | _ => false end.

(** [s.split(sep, 1)] as a pair; [None] when [sep in s] is false. *)
Fixpoint split_first (sep : ascii) (s : string) : option (string * string) :=
  match s with
  | EmptyString => None
  | String c r =>
      if Ascii.eqb c sep then Some (EmptyString, r)
      else match split_first sep r with
           | Some (k1, k2) => Some (String c k1, k2)
           | None => None
           end
  end.

(** [k1, k2 = key.split('.', 1)]. *)
Definition split_dot (key : string) : option (string * string) :=
  split_first "."%char key.

Definition has_char (c : ascii) (s : string) : bool :=
  match split_first c s with Some _ => true | None => false end.

(** ['.' in key]. *)
Definition has_dot (key : string) : bool := has_char "."%char key.

(** ** Attribute reads *)

(** What an attribute read [x.key] gives: a member of the class of
    [x] (a method, named by its name), or the value that the
    [__getattr__] of the class returns. *)
Inductive attribute : Type :=
| Member (name : string)
| Item (v : value).

(** A name that begins with two underscores. *)
Definition special (key : string) : bool := String.prefix "__" key.

(** ** The [Yaco] class *)

Module Yaco.

(** [Yaco()]: a new, empty object. *)
Definition new_empty : M store addr :=
  fun h => (Ok (List.length h), h ++ [[]]).

(** [super(Yaco, self).get(key, None)]. *)
Definition old_value (self : addr) (key : string) : M store value :=
  gets (fun h => default VNone (dict_get key (cell h self))).

(** [super(Yaco, self).__setitem__(key, value)]. *)
Definition dict_setitem (self : addr) (key : string) (v : value) : M store unit :=
  modify (fun h => put_cell h self (dict_set key v (cell h self))).

(** [key in self]. *)
Definition __contains__ (self : addr) (key : string) : M store bool :=
  gets (fun h => dict_has key (cell h self)).

Definition has_key := __contains__.

Definition __getattr__ (self : addr) (key : string) : M store value :=
  fun h =>
    match dict_get key (cell h self) with
    | Some v => (Ok v, h)
    | None =>
        (rv <- new_empty ;;
         dict_setitem self key (VYaco rv) ;;;
         ret (VYaco rv)) h
    end.

(** The methods the class body of [Yaco] defines under ordinary
    names. *)
Definition methods : list string :=
  ["has_key"; "simple"; "_list_parser"; "soft_update"; "update"; "copy";
   "load"; "pretty"; "get_data"; "dump"; "save"].

(** The methods [dict] brings under ordinary names. *)
Definition dict_methods : list string :=
  ["clear"; "copy"; "fromkeys"; "get"; "items"; "keys"; "pop"; "popitem";
   "setdefault"; "update"; "values"].

(** [key] names an attribute that the class provides. *)
Definition member (key : string) : bool :=
  bool_decide (key ∈ methods ++ dict_methods).

(** [self.key], an attribute read.  Python looks the name up on the
    class first and calls [__getattr__] only when that finds nothing:
    the name of a method gives the method and never reaches
    [__getattr__].  A [Yaco] keeps nothing in its instance dictionary,
    since [__setattr__] stores every assignment as an entry.  Which
    names that begin with two underscores the built-in classes define
    is the interpreter's business and is not followed here. *)
Definition __getattribute__ (self : addr) (key : string) : M store attribute :=
  if special key then raise NotModelled
  else if member key then ret (Member key)
  else v <- __getattr__ self key ;; ret (Item v).

(** [__delattr__], also bound to [__delitem__]. *)
Definition __delattr__ (self : addr) (name : string) : M store unit :=
  fun h =>
    match dict_get name (cell h self) with
    | Some _ => (Ok tt, put_cell h self (dict_del name (cell h self)))
    | None => (Raise KeyError, h)
    end.

(** [__getitem__]: [x[k2]] on the value found under [k1] is again
    [Yaco.__getitem__] when that value is a [Yaco]; a plain [dict] is
    indexed literally; anything else cannot be indexed by a string.
    The remainder [k2] is shorter than [key], so [String.length key]
    bounds the recursion. *)
Fixpoint getitem_rec (n : nat) (self : addr) (key : string) : M store value :=
  match split_dot key with
  | None => __getattr__ self key
  | Some (k1, k2) =>
      x <- __getattr__ self k1 ;;
      match x with
      | VYaco a =>
          match n with
          | O => raise RecursionError
          | S n' => getitem_rec n' a k2
          end
      | VDict d =>
          match dict_get k2 d with
          | Some v => ret v
          | None => raise KeyError
          end
      | _ => raise TypeError
      end
  end.

Definition __getitem__ (self : addr) (key : string) : M store value :=
  getitem_rec (String.length key) self key.

(** [data.items()]; only a mapping has it. *)
Definition items_of (data : value) : M store dict :=
  match data with
  | VDict d => ret d
  | VYaco a => gets (fun h => cell h a)
  | _ => raise AttributeError
  end.

(** [Yaco(data)] for a mapping [data], given the [update] to run on
    the new object. *)
Definition construct (upd : addr -> value -> M store unit) (data : value)
  : M store value :=
  a <- new_empty ;; upd a data ;;; ret (VYaco a).

(** One step of [_list_parser]'s loop: a mapping becomes a new [Yaco],
    a list is parsed recursively, anything else is left alone. *)
Fixpoint parse_item (mk : value -> M store value) (item : value)
  : M store value :=
  match item with
  | VDict _ | VYaco _ => mk item
  | VList l => l' <- map_each l (parse_item mk) ;; ret (VList l')
  | _ => ret item
  end.

(** [_list_parser]: every mapping in the list, at any list depth,
    becomes a new [Yaco].  The source assigns the new objects into the
    list it was given and returns that same list, so that the caller
    and the object end up holding one list.  A list is a value here:
    the parsed list is a new one and the caller's is as it was.  The
    contents agree with the source; who else sees them does not, for a
    list that holds mappings.  What is stated about objects that stay
    apart or unchanged is therefore stated for lists that hold no
    mapping. *)
Definition list_parser_with (mk : value -> M store value)
  (old_list : list value) : M store (list value) :=
  map_each old_list (parse_item mk).

(** The body of the loop of [update] for one entry of [data]; [upd]
    is [update] itself, for the nested calls. *)
Definition update_entry (upd : addr -> value -> M store unit) (self : addr)
  (kv : string * value) : M store unit :=
  let key := kv.1 in
  let value := kv.2 in
  old <- old_value self key ;;
  old_true <- gets (fun h => truthy h old) ;;
  if is_dict value then
    match old with
    | VYaco o =>
        if old_true then upd o value
        else v <- construct upd value ;; dict_setitem self key v
    | _ => v <- construct upd value ;; dict_setitem self key v
    end
  else
    match value with
    | VList l =>
        new_value <- list_parser_with (construct upd) l ;;
        dict_setitem self key (VList new_value)
    | _ => dict_setitem self key value
    end.

(** [update].  [fuel] bounds the depth of nested calls; Python raises
    [RecursionError] when its own bound is hit. *)
Fixpoint update (fuel : nat) (self : addr) (data : value) : M store unit :=
  match fuel with
  | O => raise RecursionError
  | S f =>
      nonempty <- gets (fun h => truthy h data) ;;
      if negb nonempty then ret tt else
      items <- items_of data ;;
      for_each items (update_entry (update f) self)
  end.

Definition _list_parser (fuel : nat) (old_list : list value)
  : M store (list value) :=
  list_parser_with (construct (update fuel)) old_list.

(** The body of the loop of [soft_update] for one entry of [data]. *)
Definition soft_update_entry (soft upd : addr -> value -> M store unit)
  (self : addr) (kv : string * value) : M store unit :=
  let key := kv.1 in
  let value := kv.2 in
  old <- old_value self key ;;
  old_true <- gets (fun h => truthy h old) ;;
  if is_dict value then
    (match old with
     | VYaco o => if old_true then soft o value else ret tt
     | _ => ret tt
     end) ;;;
    still_true <- gets (fun h => truthy h old) ;;
    if still_true then ret tt
    else v <- construct upd value ;; dict_setitem self key v
  else
    match value with
    | VList l =>
        if old_true then ret tt
        else new_value <- list_parser_with (construct upd) l ;;
             dict_setitem self key (VList new_value)
    | _ =>
        if old_true then ret tt else dict_setitem self key value
    end.

(** [soft_update]. *)
Fixpoint soft_update (fuel : nat) (self : addr) (data : value) : M store unit :=
  match fuel with
  | O => raise RecursionError
  | S f =>
      nonempty <- gets (fun h => truthy h data) ;;
      if negb nonempty then ret tt else
      items <- items_of data ;;
      for_each items (soft_update_entry (soft_update f) (update f) self)
  end.

(** [Yaco(data)] for a mapping; a text blob goes through the YAML
    codec, which is outside this development. *)
Definition __init__ (fuel : nat) (data : value) : M store addr :=
  match data with
  | VDict _ | VYaco _ =>
      a <- new_empty ;; update fuel a data ;;; ret a
  | _ => raise (Error "cannot parse")
  end.

Definition __setattr__ (fuel : nat) (self : addr) (key : string) (value : value)
  : M store unit :=
  old <- old_value self key ;;
  if is_dict value then
    match old with
    | VYaco o => update fuel o value
    | _ =>
        if is_Yaco value then dict_setitem self key value
        else a <- __init__ fuel value ;; dict_setitem self key (VYaco a)
    end
  else
    match value with
    | VList l =>
        new_value <- _list_parser fuel l ;;
        dict_setitem self key (VList new_value)
    | _ => dict_setitem self key value
    end.

(** [__setitem__]: with a dot in the key, [self.__getattr__(k1)[k2] =
    value] assigns into whatever is found under [k1]. *)
Fixpoint setitem_rec (n : nat) (fuel : nat) (self : addr) (key : string)
  (value : value) : M store unit :=
  match split_dot key with
  | None => __setattr__ fuel self key value
  | Some (k1, k2) =>
      x <- __getattr__ self k1 ;;
      match x with
      | VYaco a =>
          match n with
          | O => raise RecursionError
          | S n' => setitem_rec n' fuel a k2 value
          end
      | VDict d => dict_setitem self k1 (VDict (dict_set k2 value d))
      | _ => raise TypeError
      end
  end.

Definition __setitem__ (fuel : nat) (self : addr) (key : string) (value : value)
  : M store unit :=
  setitem_rec (String.length key) fuel self key value.

(** [k in s] for two strings: substring test. *)
Fixpoint str_in (k s : string) : bool :=
  String.prefix k s ||
  match s with
  | EmptyString => false
  | String _ r => str_in k r
  end.

(** [k in _priv]: membership in a list compares with [==], in a
    mapping looks at the keys, in a string searches a substring; other
    values are not iterable. *)
Definition key_in (k : string) (priv : value) : M store bool :=
  match priv with
  | VList l =>
      ret (existsb (fun x => match x with
                             | VStr s => String.eqb k s
                             | _ => false
                             end) l)
  | VDict d => ret (dict_has k d)
  | VYaco a => gets (fun h => dict_has k (cell h a))
  | VStr s => ret (str_in k s)
  | _ => raise TypeError
  end.

(** [k and k[0] == '_']. *)
Definition is_private (k : string) : bool :=
  match k with
  | String c _ => Ascii.eqb c "_"%char
  | EmptyString => false
  end.

(** [check_data] of [get_data], given the [get_data] to run on nested
    objects. *)
Fixpoint check_data_with (gd : addr -> M store dict) (v : value)
  : M store value :=
  match v with
  | VYaco a => d <- gd a ;; ret (VDict d)
  | VList l => l' <- map_each l (check_data_with gd) ;; ret (VList l')
  | _ => ret v
  end.

(** [get_data].  [self[k]] is [__getitem__], so it is a read through
    the store like any other. *)
Fixpoint get_data (fuel : nat) (self : addr) : M store dict :=
  match fuel with
  | O => raise RecursionError
  | S f =>
      _priv <- gets (fun h =>
                 default (VList []) (dict_get "_private" (cell h self))) ;;
      keys <- gets (fun h => dict_keys (cell h self)) ;;
      fold_each keys [] (fun data k =>
        excluded <- key_in k _priv ;;
        if excluded then ret data
        else if is_private k then ret data
        else item <- __getitem__ self k ;;
             v <- check_data_with (get_data f) item ;;
             ret (dict_set k v data))
  end.

Definition check_data (fuel : nat) : value -> M store value :=
  check_data_with (get_data fuel).

(** [simple]: [_returnSimple] applied to [self]. *)
Fixpoint _returnSimple (fuel : nat) (item : value) : M store value :=
  match fuel with
  | O => raise RecursionError
  | S f =>
      match item with
      | VStr _ | VBool _ | VInt _ => ret item
      | VList l => l' <- map_each l (_returnSimple f) ;; ret (VList l')
      | VDict d =>
          d' <- map_each d (fun kv =>
                  v <- _returnSimple f kv.2 ;; ret (kv.1, v)) ;;
          ret (VDict (fold_left (fun acc kv => dict_set kv.1 kv.2 acc) d' []))
      | VYaco a =>
          keys <- gets (fun h => dict_keys (cell h a)) ;;
          d' <- map_each keys (fun k =>
                  x <- __getitem__ a k ;;
                  v <- _returnSimple f x ;; ret (k, v)) ;;
          ret (VDict (fold_left (fun acc kv => dict_set kv.1 kv.2 acc) d' []))
      | VNone => ret (VStr "None")
      end
  end.

Definition simple (fuel : nat) (self : addr) : M store value :=
  _returnSimple fuel (VYaco self).

End Yaco.

(** ** Files and bundled resources *)

(** The YAML codec, the file system and the resource lookup are
    collaborators of the program.  A file is known by the document the
    codec reads from it; an empty file reads as [None].  [dirs] says
    which paths are directories, [writable] which paths [open(path,
    'w')] can create or truncate.  [packages] says which packages can be
    imported; of such a package, a bundled resource is known by its
    document and a resource directory by the documents of its matching
    resources, in load order.  File names are taken as already
    expanded.  The interpreter is Python 3: mappings keep their
    insertion order, and where the source asks for the version the
    Python 3 branch is followed. *)
Record filesystem : Type := Filesystem {
  files : gmap string value;
  dirs : string -> bool;
  writable : string -> bool;
  packages : string -> bool;
  resources : string -> string -> option value;
  resource_dirs : string -> string -> option (list value)
}.

Record world : Type := World {
  heap : store;
  disk : filesystem
}.

Definition set_heap (w : world) (h : store) : world :=
  {| heap := h; disk := disk w |}.

Definition write_file (path : string) (doc : value) (w : world) : world :=
  {| heap := heap w;
     disk := {| files := <[path := doc]> (files (disk w));
                dirs := dirs (disk w);
                writable := writable (disk w);
                packages := packages (disk w);
                resources := resources (disk w);
                resource_dirs := resource_dirs (disk w) |} |}.

(** Run a method of a [Yaco] object inside a larger state. *)
Definition on_heap {A} (m : M store A) : M world A :=
  fun w => let r := m (heap w) in (r.1, set_heap w r.2).

Definition isfile (path : string) : M world bool :=
  gets (fun w => bool_decide (is_Some (files (disk w) !! path))).

Definition isdir (path : string) : M world bool :=
  gets (fun w => dirs (disk w) path).

(** [open(to_file, 'w', 0, encoding='utf-8')].  Python 3 opens the
    file first, which creates or truncates it, and then refuses
    unbuffered text I/O with [ValueError]: the [with] block is not
    entered.  A path that cannot be opened raises [OSError], which
    Python 3 also calls [IOError], and nothing is touched. *)
Definition open_unbuffered_text (to_file : string) : M world unit :=
  ok <- gets (fun w => writable (disk w) to_file) ;;
  if ok then modify (write_file to_file VNone) ;;; raise ValueError
  else raise IOError.

(** [yaml.load(open(from_file))]. *)
Definition read_yaml (from_file : string) : M world value :=
  fun w => match files (disk w) !! from_file with
           | Some doc => (Ok doc, w)
           | None => (Raise IOError, w)
           end.

Module YacoIO.

(** [Yaco.load(from_file, leaf)]. *)
Definition load (fuel : nat) (self : addr) (from_file : string)
  (leaf : option string) : M world unit :=
  data <- read_yaml from_file ;;
  match leaf with
  | None | Some EmptyString => on_heap (Yaco.update fuel self data)
  | Some l =>
      x <- on_heap (Yaco.__getitem__ self l) ;;
      match x with
      | VYaco a => on_heap (Yaco.update fuel a data)
      | _ => raise AttributeError
      end
  end.

(** [Yaco.save(to_file)]: [get_data] runs for the local [data], and
    then the file is opened.  The opening raises, so [self.dump()] is
    never reached and nothing of the object gets into the file. *)
Definition save (fuel : nat) (self : addr) (to_file : string) : M world unit :=
  on_heap (Yaco.get_data fuel self) ;;;
  open_unbuffered_text to_file.

(** [pkg_resources] imports the package before it looks anything up
    in it. *)
Definition import_package (pkg_name : string) : M world unit :=
  found <- gets (fun w => packages (disk w) pkg_name) ;;
  if found then ret tt else raise ImportError.

(** [YacoPkgDir(pkg_name, path, pattern)]. *)
Definition YacoPkgDir (fuel : nat) (pkg_name path : string) : M world addr :=
  import_package pkg_name ;;;
  found <- gets (fun w => resource_dirs (disk w) pkg_name path) ;;
  match found with
  | None => raise YacoNotADirectory
  | Some docs =>
      self <- on_heap Yaco.new_empty ;;
      for_each docs (fun doc =>
        y <- on_heap Yaco.new_empty ;;
        on_heap (Yaco.update fuel y doc) ;;;
        on_heap (Yaco.update fuel self (VYaco y))) ;;;
      ret self
  end.

(** [location.rsplit('/', 1)]. *)
Definition rsplit_slash (location : string) : option (string * string) :=
  match split_first "/"%char (String.rev location) with
  | Some (b, a) => Some (String.rev a, String.rev b)
  | None => None
  end.

(** [YacoPkg(pkg_name, location)] with a location given.  Of what
    [resource_string] can raise, only [IOError] -- the resource is not
    in the package -- is turned into [sys.exit(-1)]; the [ImportError]
    of a package that cannot be imported passes through. *)
Definition YacoPkg (fuel : nat) (pkg_name location : string) : M world addr :=
  match (if has_char "*"%char location then rsplit_slash location else None) with
  | Some (path, pattern) =>
      config <- YacoPkgDir fuel pkg_name path ;;
      self <- on_heap Yaco.new_empty ;;
      on_heap (Yaco.update fuel self (VYaco config)) ;;;
      ret self
  | None =>
      import_package pkg_name ;;;
      found <- gets (fun w => resources (disk w) pkg_name location) ;;
      match found with
      | None => raise SystemExit
      | Some config =>
          self <- on_heap Yaco.new_empty ;;
          on_heap (Yaco.update fuel self config) ;;;
          ret self
      end
  end.

End YacoIO.

(** ** The [PolyYaco] class *)

(** The class of a layer object; [PolyYaco.save] dispatches on it. *)
Inductive klass : Type := KYaco | KYacoDir | KYacoPkg.

Record layer : Type := Layer { cls : klass; obj : addr }.

(** The instance attributes the class assigns to itself. [None] is
    Python's [None]. *)
Record instance : Type := Instance {
  _PolyYaco_base : option value;
  _PolyYaco_rawfiles : list string;
  _PolyYaco_filenames : list string;
  _PolyYaco_yacs : list layer;
  _PolyYaco_dirty : bool;
  _PolyYaco_merged : option addr
}.

Record state : Type := State {
  env : world;
  this : instance
}.

Module PolyYaco.

Definition on_world {A} (m : M world A) : M state A :=
  fun s => let r := m (env s) in (r.1, {| env := r.2; this := this s |}).

Definition on_store {A} (m : M store A) : M state A := on_world (on_heap m).

Definition set_this (f : instance -> instance) : M state unit :=
  modify (fun s => {| env := env s; this := f (this s) |}).

Definition set_dirty (b : bool) (i : instance) : instance :=
  {| _PolyYaco_base := _PolyYaco_base i;
     _PolyYaco_rawfiles := _PolyYaco_rawfiles i;
     _PolyYaco_filenames := _PolyYaco_filenames i;
     _PolyYaco_yacs := _PolyYaco_yacs i;
     _PolyYaco_dirty := b;
     _PolyYaco_merged := _PolyYaco_merged i |}.

Definition set_merged (m : option addr) (i : instance) : instance :=
  {| _PolyYaco_base := _PolyYaco_base i;
     _PolyYaco_rawfiles := _PolyYaco_rawfiles i;
     _PolyYaco_filenames := _PolyYaco_filenames i;
     _PolyYaco_yacs := _PolyYaco_yacs i;
     _PolyYaco_dirty := _PolyYaco_dirty i;
     _PolyYaco_merged := m |}.

(** [self._PolyYaco_filenames = []; self._PolyYaco_yacs = []]. *)
Definition clear_layers (i : instance) : instance :=
  {| _PolyYaco_base := _PolyYaco_base i;
     _PolyYaco_rawfiles := _PolyYaco_rawfiles i;
     _PolyYaco_filenames := [];
     _PolyYaco_yacs := [];
     _PolyYaco_dirty := _PolyYaco_dirty i;
     _PolyYaco_merged := _PolyYaco_merged i |}.

(** [self._PolyYaco_filenames.append(filename);
    self._PolyYaco_yacs.append(content)]. *)
Definition append_layer (filename : string) (content : layer) (i : instance)
  : instance :=
  {| _PolyYaco_base := _PolyYaco_base i;
     _PolyYaco_rawfiles := _PolyYaco_rawfiles i;
     _PolyYaco_filenames := _PolyYaco_filenames i ++ [filename];
     _PolyYaco_yacs := _PolyYaco_yacs i ++ [content];
     _PolyYaco_dirty := _PolyYaco_dirty i;
     _PolyYaco_merged := _PolyYaco_merged i |}.

(** [key[:9] == '_PolyYaco']. *)
Definition reserved (key : string) : bool :=
  String.eqb (String.substring 0 9 key) "_PolyYaco".

(** The body of the loop of [load] for one entry of the source list:
    the layer it resolves to, or [None] when there is nothing to load.
    A directory is not followed: [YacoDir] decides between a rescan and
    its cache file by their modification times, which the file system
    here does not have. *)
Definition resolve (fuel : nat) (filename : string) : M state (option layer) :=
  if String.eqb (String.substring 0 6 filename) "pkg://" then
    let base := String.substring 6 (String.length filename - 6) filename in
    match split_first "/"%char base with
    | None => raise ValueError
    | Some (pkg, loc) =>
        content <- on_world (YacoIO.YacoPkg fuel pkg loc) ;;
        ret (Some (Layer KYacoPkg content))
    end
  else
    d <- on_world (isdir filename) ;;
    if d then raise NotModelled
    else
      f <- on_world (isfile filename) ;;
      if f then
        content <- on_store Yaco.new_empty ;;
        on_world (YacoIO.load fuel content filename None) ;;;
        ret (Some (Layer KYaco content))
      else ret None.

(** The first part of [load]: the flag, the empty stack, and the base
    layer when a base was given. *)
Definition load_base (fuel : nat) : M state unit :=
  set_this (set_dirty true) ;;;
  set_this clear_layers ;;;
  set_this (set_merged None) ;;;
  base <- gets (fun s => _PolyYaco_base (this s)) ;;
  match base with
  | Some b =>
      set_this (fun i =>
        {| _PolyYaco_base := _PolyYaco_base i;
           _PolyYaco_rawfiles := _PolyYaco_rawfiles i;
           _PolyYaco_filenames := _PolyYaco_filenames i ++ ["_base"];
           _PolyYaco_yacs := _PolyYaco_yacs i;
           _PolyYaco_dirty := _PolyYaco_dirty i;
           _PolyYaco_merged := _PolyYaco_merged i |}) ;;;
      a <- on_store (Yaco.__init__ fuel b) ;;
      set_this (fun i =>
        {| _PolyYaco_base := _PolyYaco_base i;
           _PolyYaco_rawfiles := _PolyYaco_rawfiles i;
           _PolyYaco_filenames := _PolyYaco_filenames i;
           _PolyYaco_yacs := _PolyYaco_yacs i ++ [Layer KYaco a];
           _PolyYaco_dirty := _PolyYaco_dirty i;
           _PolyYaco_merged := _PolyYaco_merged i |})
  | None => ret tt
  end.

(** The loop of [load] over the source list. *)
Definition load_sources (fuel : nat) (names : list string) : M state unit :=
  for_each names (fun filename =>
    r <- resolve fuel filename ;;
    match r with
    | Some content => set_this (append_layer filename content)
    | None => ret tt
    end).

Definition load (fuel : nat) : M state unit :=
  load_base fuel ;;;
  rawfiles <- gets (fun s => _PolyYaco_rawfiles (this s)) ;;
  load_sources fuel rawfiles.

(** [PolyYaco(name, files, base)], with [files] given. *)
Definition __init__ (fuel : nat) (files : list string) (base : option value)
  (w : world) : outcome unit * state :=
  load fuel {| env := w;
               this := {| _PolyYaco_base := base;
                          _PolyYaco_rawfiles := files;
                          _PolyYaco_filenames := [];
                          _PolyYaco_yacs := [];
                          _PolyYaco_dirty := false;
                          _PolyYaco_merged := None |} |}.

(** [_getTop]: the last file name and the last layer, or [(None, None)]. *)
Definition _getTop : M state (option string * option layer) :=
  fun s =>
    match last (_PolyYaco_yacs (this s)) with
    | None => (Ok (None, None), s)
    | Some cyc =>
        match last (_PolyYaco_filenames (this s)) with
        | Some cfn => (Ok (Some cfn, Some cyc), s)
        | None => (Raise IndexError, s)
        end
    end.

(** [save]: [cyc.save(cfn)] is [Yaco.save] for a [Yaco] or a [YacoPkg];
    [YacoDir.save] takes no file name, so the call itself fails. *)
Definition save (fuel : nat) : M state unit :=
  top <- _getTop ;;
  let is_base := match top.1 with
                 | Some cfn => String.eqb cfn "_base"
                 | None => false
                 end in
  if is_base then raise (Error "Cannot save to 'base' configuration") else
  match top.2, top.1 with
  | Some cyc, Some cfn =>
      match cls cyc with
      | KYacoDir => raise TypeError
      | _ => on_world (YacoIO.save fuel (obj cyc) cfn)
      end
  | _, _ => raise AttributeError
  end.

Definition merge (fuel : nat) : M state (option addr) :=
  dirty <- gets (fun s => _PolyYaco_dirty (this s)) ;;
  if negb dirty then gets (fun s => _PolyYaco_merged (this s)) else
  y <- on_store Yaco.new_empty ;;
  yacs <- gets (fun s => _PolyYaco_yacs (this s)) ;;
  for_each yacs (fun yy => on_store (Yaco.update fuel y (VYaco (obj yy)))) ;;;
  set_this (set_merged (Some y)) ;;;
  set_this (set_dirty false) ;;;
  ret (Some y).

(** [__setattr__], also bound to [__setitem__].  An assignment to a
    reserved name stays on the instance and reaches no layer; which
    Python value it stores is not followed here. *)
Definition __setattr__ (fuel : nat) (key : string) (value : value)
  : M state unit :=
  if reserved key then raise NotModelled else
  set_this (set_dirty true) ;;;
  top <- _getTop ;;
  match top.2 with
  | Some cyc => on_store (Yaco.__setattr__ fuel (obj cyc) key value)
  | None => raise AttributeError
  end.

Definition __setitem__ := __setattr__.

(** [__getattr__], also bound to [__getitem__]. *)
Definition __getattr__ (fuel : nat) (key : string) : M state value :=
  if reserved key then raise NotModelled else
  m <- merge fuel ;;
  match m with
  | Some y => on_store (Yaco.__getattr__ y key)
  | None => raise AttributeError
  end.

Definition __getitem__ := __getattr__.

(** The methods the class body of [PolyYaco] defines under ordinary
    names; [object] brings none. *)
Definition methods : list string :=
  ["load"; "_getTop"; "save"; "merge"; "simple"; "has_key"; "get"].

Definition member (key : string) : bool := bool_decide (key ∈ methods).

(** [cfg.key], an attribute read: the name of a method gives the
    method, and only a name the class does not provide reaches
    [__getattr__].  The reserved names live in the instance
    dictionary. *)
Definition __getattribute__ (fuel : nat) (key : string) : M state attribute :=
  if reserved key then raise NotModelled
  else if special key then raise NotModelled
  else if member key then ret (Member key)
  else v <- __getattr__ fuel key ;; ret (Item v).

Definition __contains__ (fuel : nat) (key : string) : M state bool :=
  m <- merge fuel ;;
  match m with
  | Some y => on_store (Yaco.__contains__ y key)
  | None => raise AttributeError
  end.

Definition has_key := __contains__.

(** [rv == {}]. *)
Definition eq_empty_dict (h : store) (rv : value) : bool :=
  match rv with
  | VDict d => negb (nonempty d)
  | VYaco a => negb (nonempty (cell h a))
  | _ => false
  end.

Definition get (fuel : nat) (key : string) (default : value) : M state value :=
  fun s =>
    match __getattr__ fuel key s with
    | (Raise KeyError, s') => (Ok default, s')
    | (Raise e, s') => (Raise e, s')
    | (Ok rv, s') =>
        if eq_empty_dict (heap (env s')) rv then (Ok default, s')
        else (Ok rv, s')
    end.

Definition simple (fuel : nat) : M state value :=
  m <- merge fuel ;;
  match m with
  | Some y => on_store (Yaco.simple fuel y)
  | None => raise AttributeError
  end.

End PolyYaco.

(** ** Objects read as trees *)

(** What the store holds below an address, unfolded: a [Yaco] object
    becomes the tree of its entries.  The unfolding is used to state
    what a method does to the contents of an object whose sub-objects
    are not shared. *)
#[warnings="-register-all"]
Inductive tree : Type :=
| TScalar (c : scalar)
| TList (l : list tree)
| TDict (d : list (string * tree))
| TYaco (d : list (string * tree)).

Abbreviation tdict := (list (string * tree)).

Definition is_tdict (t : tree) : bool :=
  match t with TDict _ | TYaco _ => true | _ => false end.

Definition ttruthy (t : tree) : bool :=
  match t with
  | TScalar c => scalar_truthy c
  | TList l => nonempty l
  | TDict d | TYaco d => nonempty d
  end.

Definition titems (t : tree) : tdict :=
  match t with TDict d | TYaco d => d | _ => [] end.

(** [rep h v t F]: in store [h] the value [v] unfolds to the tree [t],
    and [F] is the set of objects the unfolding passes through, each of
    them exactly once. *)
Inductive rep (h : store) : value -> tree -> gset addr -> Prop :=
| rep_scalar c : rep h (VScalar c) (TScalar c) ∅
| rep_list_nil : rep h (VList []) (TList []) ∅
| rep_list_cons v t l tl F1 F2 :
    rep h v t F1 -> rep h (VList l) (TList tl) F2 -> F1 ## F2 ->
    rep h (VList (v :: l)) (TList (t :: tl)) (F1 ∪ F2)
| rep_dict_nil : rep h (VDict []) (TDict []) ∅
| rep_dict_cons k v t d td F1 F2 :
    rep h v t F1 -> rep h (VDict d) (TDict td) F2 -> F1 ## F2 ->
    rep h (VDict ((k, v) :: d)) (TDict ((k, t) :: td)) (F1 ∪ F2)
| rep_yaco a td F :
    a < List.length h -> NoDup (dict_keys (cell h a)) ->
    rep h (VDict (cell h a)) (TDict td) F -> a ∉ F ->
    rep h (VYaco a) (TYaco td) ({[a]} ∪ F).

(** Nesting depth of a tree. *)
Fixpoint depth (t : tree) : nat :=
  match t with
  | TScalar _ => 0
  | TList l => S (foldr (fun x n => Nat.max (depth x) n) 0 l)
  | TDict d | TYaco d => S (foldr (fun kv n => Nat.max (depth kv.2) n) 0 d)
  end.

(** [update] and [_list_parser] on trees, computed together: for a
    mapping [data], the first component merges [data] into the entries
    of an object and the second is [Yaco(data)]; for a list the second
    component is the parsed list. *)
Fixpoint tconv (data : tree) : (tdict -> tdict) * tree :=
  match data with
  | TScalar _ => (fun self => self, data)
  | TList l => (fun self => self, TList (map (fun x => (tconv x).2) l))
  | TDict items | TYaco items =>
      let upd :=
        (fix loop (items : tdict) (self : tdict) : tdict :=
           match items with
           | [] => self
           | kv :: r =>
               loop r
                 (match is_tdict kv.2, dict_get kv.1 self with
                  | true, Some (TYaco (e :: od)) =>
                      dict_set kv.1 (TYaco ((tconv kv.2).1 (e :: od))) self
                  | _, _ => dict_set kv.1 (tconv kv.2).2 self
                  end)
           end) items in
      (upd, TYaco (upd []))
  end.

Definition tupdate (data : tree) (self : tdict) : tdict := (tconv data).1 self.

Definition tparse (item : tree) : tree := (tconv item).2.

(** One entry of [data] merged into [self]. *)
Definition tstep (key : string) (value : tree) (self : tdict) : tdict :=
  match is_tdict value, dict_get key self with
  | true, Some (TYaco (e :: od)) =>
      dict_set key (TYaco (tupdate value (e :: od))) self
  | _, _ => dict_set key (tparse value) self
  end.

(** A read of [k] on [self] auto-vivifies: it returns a new empty
    object, that object is what [self] now holds under [k], [k in self]
    is true, and reading again returns the same object and changes
    nothing. *)
Definition vivifies (read : addr -> string -> M store value)
  (h : store) (self : addr) (k : string) : Prop :=
  exists n h',
    read self k h = (Ok (VYaco n), h') /\
    cell h' n = [] /\
    dict_get k (cell h' self) = Some (VYaco n) /\
    Yaco.__contains__ self k h' = (Ok true, h') /\
    read self k h' = (Ok (VYaco n), h').

(** The same for the attribute read [self.k], which gives the object
    as an [Item]. *)
Definition attr_vivifies (h : store) (self : addr) (k : string) : Prop :=
  exists n h',
    Yaco.__getattribute__ self k h = (Ok (Item (VYaco n)), h') /\
    cell h' n = [] /\
    dict_get k (cell h' self) = Some (VYaco n) /\
    Yaco.__contains__ self k h' = (Ok true, h') /\
    Yaco.__getattribute__ self k h' = (Ok (Item (VYaco n)), h').

(** [frame h h' F F']: what a method that works on the objects [F]
    may do to the store: it allocates, the objects it ends up with are
    those it had or new ones, and every other object is left alone. *)
Definition frame (h h' : store) (F F' : gset addr) : Prop :=
  List.length h <= List.length h' /\
  (forall a, a ∈ F' -> a ∈ F \/ List.length h <= a) /\
  (forall a, a < List.length h -> a ∉ F -> h' !! a = h !! a).

(** [upd] behaves as [update] on every object whose sub-objects are
    not shared, for data nested at most [n] deep: it returns normally
    and the object then unfolds to [tupdate] of what it unfolded to. *)
Definition refines_update (upd : addr -> value -> M store unit) (n : nat)
  : Prop :=
  forall h self td F data dt Fd,
    rep h (VYaco self) (TYaco td) F ->
    rep h data dt Fd ->
    is_tdict dt = true ->
    F ## Fd ->
    depth dt <= n ->
    exists h' F',
      upd self data h = (Ok tt, h') /\
      rep h' (VYaco self) (TYaco (tupdate dt td)) F' /\
      frame h h' F F'.

(** What [update] leaves under a key of [data] whose value is [v],
    when the object held [old] there. *)
Definition tmerged (v : tree) (old : option tree) : tree :=
  match is_tdict v, old with
  | true, Some (TYaco (e :: od)) => TYaco (tupdate v (e :: od))
  | _, _ => tparse v
  end.

(** No plain [dict] anywhere in the tree: every mapping is a [Yaco]. *)
Fixpoint all_nodes (t : tree) : bool :=
  match t with
  | TScalar _ => true
  | TList l => forallb all_nodes l
  | TDict _ => false
  | TYaco d => forallb (fun kv => all_nodes kv.2) d
  end.

(** A value that holds no reference, read as a tree. *)
Fixpoint tree_of (v : value) : tree :=
  match v with
  | VScalar c => TScalar c
  | VList l => TList (map tree_of l)
  | VDict d => TDict (map (fun kv => (kv.1, tree_of kv.2)) d)
  | VYaco _ => TYaco []
  end.

(** No [Yaco] anywhere in the value: scalars, lists and plain mappings
    only. *)
Fixpoint plain (v : value) : bool :=
  match v with
  | VScalar _ => true
  | VList l => forallb plain l
  | VDict d => forallb (fun kv => plain kv.2) d
  | VYaco _ => false
  end.

(** Every value held by the entries is free of plain [dict]s. *)
Definition all_nodes_dict (d : tdict) : bool :=
  forallb (fun kv => all_nodes kv.2) d.

(** The merge of a stack of layers, lowest first, on trees. *)
Definition tmerge (ts : list tree) : tdict :=
  fold_left (fun acc t => tupdate t acc) ts [].

(** Layer [l] is an object without sharing that unfolds to [t], and
    the fuel covers its nesting. *)
Definition layer_rep (fuel : nat) (h : store) (l : layer) (t : tree) : Prop :=
  exists Fl, rep h (VYaco (obj l)) t Fl /\ depth t <= fuel.

(** The state with another store. *)
Definition with_heap (s : state) (h : store) : state :=
  {| env := set_heap (env s) h; this := this s |}.

(** [soft_update] on trees: an entry of [data] is merged into the
    [Yaco] found under its key when that one is not empty, is dropped
    when anything else truthy is found there, and is stored otherwise. *)
Fixpoint tsoft (data : tree) : tdict -> tdict :=
  match data with
  | TDict items | TYaco items =>
      (fix loop (items : tdict) (self : tdict) : tdict :=
         match items with
         | [] => self
         | kv :: r =>
             loop r
               (match is_tdict kv.2, dict_get kv.1 self with
                | true, Some (TYaco (e :: od)) =>
                    dict_set kv.1 (TYaco (tsoft kv.2 (e :: od))) self
                | _, old =>
                    if ttruthy (default (TScalar SNone) old) then self
                    else dict_set kv.1 (tparse kv.2) self
                end)
         end) items
  | _ => fun self => self
  end.

Definition tsoft_step (key : string) (value : tree) (self : tdict) : tdict :=
  match is_tdict value, dict_get key self with
  | true, Some (TYaco (e :: od)) =>
      dict_set key (TYaco (tsoft value (e :: od))) self
  | _, old =>
      if ttruthy (default (TScalar SNone) old) then self
      else dict_set key (tparse value) self
  end.

(** What [soft_update] leaves under a key of [data] whose value is
    [v], when the object held [old] there. *)
Definition tsofted (v : tree) (old : option tree) : option tree :=
  match is_tdict v, old with
  | true, Some (TYaco (e :: od)) => Some (TYaco (tsoft v (e :: od)))
  | _, _ =>
      if ttruthy (default (TScalar SNone) old) then old
      else Some (tparse v)
  end.

(** [soft] behaves as [soft_update] on every object whose sub-objects
    are not shared, for data nested at most [n] deep. *)
Definition refines_soft (soft : addr -> value -> M store unit) (n : nat)
  : Prop :=
  forall h self td F data dt Fd,
    rep h (VYaco self) (TYaco td) F ->
    rep h data dt Fd ->
    is_tdict dt = true ->
    F ## Fd ->
    depth dt <= n ->
    exists h' F',
      soft self data h = (Ok tt, h') /\
      rep h' (VYaco self) (TYaco (tsoft dt td)) F' /\
      frame h h' F F'.

(** The exclusion list of an object: what it holds under [_private],
    or the empty list. *)
Definition tpriv (d : tdict) : tree := default (TList []) (dict_get "_private" d).

(** [k in _priv] on trees. *)
Definition tkey_in (k : string) (priv : tree) : bool :=
  match priv with
  | TList l =>
      existsb (fun x => match x with
                        | TScalar (SStr s) => String.eqb k s
                        | _ => false
                        end) l
  | TDict d | TYaco d => dict_has k d
  | TScalar (SStr s) => Yaco.str_in k s
  | TScalar _ => false
  end.

(** Values that [in] accepts on its right. *)
Definition iterable (priv : tree) : bool :=
  match priv with
  | TScalar (SStr _) | TList _ | TDict _ | TYaco _ => true
  | TScalar _ => false
  end.

(** [get_data] and [check_data] on trees. *)
Fixpoint texport (t : tree) : value :=
  match t with
  | TScalar c => VScalar c
  | TList l => VList (map texport l)
  | TDict _ => VDict []
  | TYaco d =>
      VDict ((fix loop (entries : tdict) (data : dict) : dict :=
                match entries with
                | [] => data
                | kv :: r =>
                    loop r
                      (if tkey_in kv.1 (tpriv d) then data
                       else if Yaco.is_private kv.1 then data
                       else dict_set kv.1 (texport kv.2) data)
                end) d [])
  end.

Definition texport_step (priv : tree) (data : dict) (kv : string * tree) : dict :=
  if tkey_in kv.1 priv then data
  else if Yaco.is_private kv.1 then data
  else dict_set kv.1 (texport kv.2) data.

(** The objects [get_data] goes through without raising: every
    mapping is a [Yaco], every exclusion list can be searched, and no
    exported key holds a dot. *)
Fixpoint exportable (t : tree) : bool :=
  match t with
  | TScalar _ => true
  | TList l => forallb exportable l
  | TDict _ => false
  | TYaco d =>
      iterable (tpriv d) &&
      forallb (fun kv =>
                 tkey_in kv.1 (tpriv d) || Yaco.is_private kv.1 ||
                 (negb (has_dot kv.1) && exportable kv.2)) d
  end.

(** [stripped v t]: the export [v] of [t] holds, at every depth, only
    keys of the object it comes from that neither start with [_] nor
    are named in that object's exclusion list. *)
Fixpoint stripped (v : value) (t : tree) {struct v} : bool :=
  match v, t with
  | VScalar c, TScalar c' => true
  | VList l, TList tl =>
      (fix go (l : list value) (tl : list tree) : bool :=
         match l, tl with
         | [], [] => true
         | x :: l', tx :: tl' => stripped x tx && go l' tl'
         | _, _ => false
         end) l tl
  | VDict d, TYaco td =>
      forallb (fun kv =>
                 negb (Yaco.is_private kv.1) &&
                 negb (tkey_in kv.1 (tpriv td)) &&
                 match dict_get kv.1 td with
                 | Some tv => stripped kv.2 tv
                 | None => false
                 end) d
  | _, _ => false
  end.

(** [gd] behaves as [get_data] on every object whose sub-objects are
    not shared and that is nested at most [n] deep: it returns the
    export of the tree and leaves the store as it was. *)
Definition refines_get_data (gd : addr -> M store dict) (n : nat) : Prop :=
  forall h self t F,
    rep h (VYaco self) t F ->
    exportable t = true ->
    depth t <= n ->
    exists d, gd self h = (Ok d, h) /\ VDict d = texport t.

(** The body of the loop of [get_data], with [gd] for [get_data] on
    nested objects and [_priv] already read. *)
Definition get_data_entry (gd : addr -> M store dict) (self : addr)
  (_priv : value) (data : dict) (k : string) : M store dict :=
  excluded <- Yaco.key_in k _priv ;;
  if excluded then ret data
  else if Yaco.is_private k then ret data
  else item <- Yaco.__getitem__ self k ;;
       v <- Yaco.check_data_with gd item ;;
       ret (dict_set k v data).

(** No [Yaco] of the tree has a key twice. *)
Fixpoint tnodup (t : tree) : bool :=
  match t with
  | TScalar _ => true
  | TList l => forallb tnodup l
  | TDict d => forallb (fun kv => tnodup kv.2) d
  | TYaco d =>
      bool_decide (NoDup (dict_keys d)) && forallb (fun kv => tnodup kv.2) d
  end.

(** [merge] reflects the layers: a scalar that the last layer holds
    under a key is what the object returned by [merge] holds there. *)
Definition merge_reflects (fuel : nat) (s : state) : Prop :=
  forall top k c,
    last (_PolyYaco_yacs (this s)) = Some top ->
    dict_get k (cell (heap (env s)) (obj top)) = Some (VScalar c) ->
    exists y s',
      PolyYaco.merge fuel s = (Ok (Some y), s') /\
      dict_get k (cell (heap (env s')) y) = Some (VScalar c).

(** A [PolyYaco] over the base [{a:1, b:2}] and one file holding
    [{a:18}], as [__init__] leaves it. *)
Definition example_world : world :=
  {| heap := [];
     disk := {| files := {[ "/etc/app.yaml" := VDict [("a", VInt 18)] ]};
                dirs := fun _ => false;
                writable := fun _ => true;
                packages := fun pkg => String.eqb pkg "Yaco";
                resources := fun _ _ => None;
                resource_dirs := fun _ _ => None |} |}.

Definition example_state : state :=
  (PolyYaco.__init__ 3 ["/etc/app.yaml"]
     (Some (VDict [("a", VInt 1); ("b", VInt 2)])) example_world).2.

(** A method of [PolyYaco] that never clears the flag once it is set. *)
Definition keeps_dirty {A} (m : M state A) : Prop :=
  forall s, _PolyYaco_dirty (this s) = true ->
            _PolyYaco_dirty (this (m s).2) = true.

(** A name that is neither a bundled-resource locator nor a
    directory nor a file that exists. *)
Definition missing (fs : filesystem) (filename : string) : bool :=
  negb (String.eqb (String.substring 0 6 filename) "pkg://") &&
  negb (dirs fs filename) &&
  negb (bool_decide (is_Some (files fs !! filename))).

(** Methods that leave the files alone. *)
Definition keeps_disk_w {A} (m : M world A) : Prop :=
  forall w, disk (m w).2 = disk w.

Definition keeps_disk {A} (m : M state A) : Prop :=
  forall s, disk (env (m s).2) = disk (env s).

(** A source that is not there: a missing file or directory, or a
    bundled-resource locator that names no resource. *)
Definition absent (fs : filesystem) (filename : string) : bool :=
  if String.eqb (String.substring 0 6 filename) "pkg://" then
    match split_first "/"%char
            (String.substring 6 (String.length filename - 6) filename) with
    | Some (pkg, loc) =>
        negb (packages fs pkg) ||
        match (if has_char "*"%char loc then YacoIO.rsplit_slash loc else None) with
        | Some (path, _) =>
            match resource_dirs fs pkg path with Some _ => false | None => true end
        | None =>
            match resources fs pkg loc with Some _ => false | None => true end
        end
    | None => true
    end
  else missing fs filename.

(** [load] skips what is not there: with no base and a source list of
    absent sources only it returns normally, with no layer. *)
Definition load_skips_absent (fuel : nat) (s : state) : Prop :=
  _PolyYaco_base (this s) = None ->
  Forall (fun filename => absent (disk (env s)) filename = true)
         (_PolyYaco_rawfiles (this s)) ->
  (PolyYaco.load fuel s).1 = Ok tt /\
  _PolyYaco_yacs (this (PolyYaco.load fuel s).2) = [].

(** ** Further definitions *)

Module YacoMore.

(** [copy]: [Yaco(self)]. *)
Definition copy (fuel : nat) (self : addr) : M store addr :=
  Yaco.__init__ fuel (VYaco self).

(** [__delitem__ = __delattr__]. *)
Definition __delitem__ := Yaco.__delattr__.

(** [dump]: the YAML text of [get_data], known by the document it
    parses to. *)
Definition dump (fuel : nat) (self : addr) : M world value :=
  data <- on_heap (Yaco.get_data fuel self) ;; ret (VDict data).

(** [save(to_file, doNotSave)]: the keys named in [doNotSave] are
    deleted from the local [data], which is not used again; then the
    file is opened, and the opening raises before [self.dump()] is
    reached. *)
Definition save (fuel : nat) (self : addr) (to_file : string)
  (doNotSave : list string) : M world unit :=
  data <- on_heap (Yaco.get_data fuel self) ;;
  let data :=
    fold_left (fun data k =>
                 if existsb (String.eqb k) doNotSave then dict_del k data
                 else data) (dict_keys data) data in
  open_unbuffered_text to_file.

End YacoMore.

(** ** The [YacoFile] class *)

Module YacoFile.

(** [self._filename]: the attribute lives among the entries of the
    object, where [Yaco.__setattr__] put it. *)
Definition filename_of (self : addr) : M world string :=
  fn <- on_heap (Yaco.__getattr__ self "_filename") ;;
  match fn with
  | VStr s => ret s
  | _ => raise NotModelled
  end.

Definition load (fuel : nat) (self : addr) : M world unit :=
  fn <- filename_of self ;; YacoIO.load fuel self fn None.

Definition save (fuel : nat) (self : addr) : M world unit :=
  fn <- filename_of self ;; YacoIO.save fuel self fn.

(** [YacoFile(filename)]. *)
Definition __init__ (fuel : nat) (filename : string) : M world addr :=
  self <- on_heap Yaco.new_empty ;;
  on_heap (Yaco.__setattr__ fuel self "_filename" (VStr filename)) ;;;
  load fuel self ;;;
  ret self.

End YacoFile.

(** Data as YAML hands it over and takes it back without loss through
    a [Yaco]: no [Yaco] inside, no key twice in a mapping, no key that
    starts with [_] or holds a dot. *)
Fixpoint clean (v : value) : bool :=
  match v with
  | VScalar _ => true
  | VList l => forallb clean l
  | VDict d =>
      bool_decide (NoDup (dict_keys d)) &&
      forallb (fun kv => negb (Yaco.is_private kv.1) && negb (has_dot kv.1) &&
                         clean kv.2) d
  | VYaco _ => false
  end.

(** Lists that hold scalars and lists of scalars only. *)
Fixpoint scalars_only (t : tree) : bool :=
  match t with
  | TScalar _ => true
  | TList l => forallb scalars_only l
  | TDict _ | TYaco _ => false
  end.

(** No mapping inside a list, at any depth.  [_list_parser] rewrites
    a list in place and returns the same list object, so a list that
    holds mappings is changed for whoever else holds it; lists are
    carried by value here, and what an operation leaves alone is stated
    for trees of this shape. *)
Fixpoint lists_flat (t : tree) : bool :=
  match t with
  | TScalar _ => true
  | TList l => forallb scalars_only l
  | TDict d | TYaco d => forallb (fun kv => lists_flat kv.2) d
  end.

(** The dotted key can be assigned through: no proper prefix of the
    path leads to a scalar, a list or a plain [dict]. *)
Fixpoint settable (n : nat) (key : string) (td : tdict) : bool :=
  match split_dot key with
  | None => true
  | Some (k1, k2) =>
      match dict_get k1 td with
      | None => true
      | Some (TYaco sub) =>
          match n with
          | O => false
          | S n' => settable n' k2 sub
          end
      | Some _ => false
      end
  end.

(** The first segment of a dotted key. *)
Definition head_key (key : string) : string :=
  match split_dot key with
  | Some (k1, _) => k1
  | None => key
  end.

(** A source that [load] reads as one file when it is there: not a
    bundled-resource locator, not a directory, and holding a mapping
    without [Yaco]s in it that the fuel covers. *)
Definition file_source (fuel : nat) (fs : filesystem) (filename : string) : Prop :=
  String.eqb (String.substring 0 6 filename) "pkg://" = false /\
  dirs fs filename = false /\
  forall doc, files fs !! filename = Some doc ->
              plain doc = true /\ is_dict doc = true /\
              depth (tree_of doc) <= fuel.

(** The sources that are there, each with its document, in the order
    of the source list. *)
Definition source_docs (fs : filesystem) (names : list string)
  : list (string * value) :=
  omap (fun f => match files fs !! f with
                 | Some doc => Some (f, doc)
                 | None => None
                 end) names.

(** The names and the trees of the layers that [load] builds from a
    base and from file sources. *)
Definition expected_names (base : option value) (fs : filesystem)
  (names : list string) : list string :=
  match base with Some _ => ["_base"] | None => [] end ++
  map fst (source_docs fs names).

Definition expected_trees (base : option value) (fs : filesystem)
  (names : list string) : list tree :=
  match base with Some b => [tparse (tree_of b)] | None => [] end ++
  map (fun fd => tparse (tree_of fd.2)) (source_docs fs names).

(** The base given to the constructor is a mapping without [Yaco]s
    that the fuel covers. *)
Definition base_ok (fuel : nat) (base : option value) : Prop :=
  match base with
  | Some b => plain b = true /\ is_dict b = true /\ depth (tree_of b) <= fuel
  | None => True
  end.

(** The lists of the base hold no mapping, at any depth.  [Yaco(base)]
    hands such lists on as they are; a list that holds mappings it
    rewrites in place, so that the base itself would come to hold the
    objects of the layer and, with them, what is written to them
    later. *)
Definition base_lists_flat (base : option value) : Prop :=
  match base with
  | Some b => lists_flat (tree_of b) = true
  | None => True
  end.

(** [simple] on trees: every mapping becomes a plain [dict] with all
    its keys, [None] becomes the text ["None"], other scalars stay. *)
Fixpoint tsimple (t : tree) : value :=
  match t with
  | TScalar SNone => VStr "None"
  | TScalar c => VScalar c
  | TList l => VList (map tsimple l)
  | TDict d | TYaco d =>
      VDict (fold_left (fun acc kv => dict_set kv.1 kv.2 acc)
               (map (fun kv => (kv.1, tsimple kv.2)) d) [])
  end.

(** No key of the tree holds a dot. *)
Fixpoint nodots (t : tree) : bool :=
  match t with
  | TScalar _ => true
  | TList l => forallb nodots l
  | TDict d | TYaco d =>
      forallb (fun kv => negb (has_dot kv.1) && nodots kv.2) d
  end.

(** No mapping of the tree, plain or [Yaco], has a key twice. *)
Fixpoint keys_once (t : tree) : bool :=
  match t with
  | TScalar _ => true
  | TList l => forallb keys_once l
  | TDict d | TYaco d =>
      bool_decide (NoDup (dict_keys d)) && forallb (fun kv => keys_once kv.2) d
  end.

(** * Properties *)

(** ** Dictionaries *)

Section dict_facts.
Context {V : Type}.
Implicit Types (d : list (string * V)) (k : string) (v : V).

Lemma dict_get_set_eq k v d : dict_get k (dict_set k v d) = Some v.
Proof.
  induction d as [|[k' v'] d IH]; simpl.
  - by rewrite String.eqb_refl.
  - destruct (String.eqb k k') eqn:E; simpl; rewrite E; done.
Qed.

Lemma dict_get_set_ne k k' v d :
  k <> k' -> dict_get k' (dict_set k v d) = dict_get k' d.
Proof.
  intros Hne. induction d as [|[k0 v0] d IH]; simpl.
  - destruct (String.eqb k' k) eqn:E; [|done].
    apply String.eqb_eq in E. congruence.
  - destruct (String.eqb k k0) eqn:E; simpl.
    + apply String.eqb_eq in E. subst k0.
      destruct (String.eqb k' k) eqn:E'; [|done].
      apply String.eqb_eq in E'. congruence.
    + by rewrite IH.
Qed.

Lemma dict_set_same k v d : dict_get k d = Some v -> dict_set k v d = d.
Proof.
  induction d as [|[k' v'] d IH]; simpl; [done|].
  destruct (String.eqb k k') eqn:E.
  - by intros [= ->].
  - intros H. by rewrite IH.
Qed.

Lemma dict_get_None_keys k d : dict_get k d = None <-> k ∉ dict_keys d.
Proof.
  induction d as [|[k' v'] d IH]; simpl.
  - split; [intros _; apply not_elem_of_nil | done].
  - destruct (String.eqb k k') eqn:E.
    + apply String.eqb_eq in E. subst. split; [done|].
      intros H. exfalso. apply H. left.
    + apply String.eqb_neq in E. rewrite IH, not_elem_of_cons. tauto.
Qed.

Lemma dict_get_Some_keys k v d : dict_get k d = Some v -> k ∈ dict_keys d.
Proof.
  intros H. destruct (decide (k ∈ dict_keys d)) as [|Hn]; [done|].
  apply dict_get_None_keys in Hn. congruence.
Qed.

Lemma dict_keys_set k v d :
  dict_keys (dict_set k v d) =
  if dict_has k d then dict_keys d else dict_keys d ++ [k].
Proof.
  unfold dict_has. induction d as [|[k' v'] d IH]; simpl; [done|].
  destruct (String.eqb k k') eqn:E; simpl; [done|].
  rewrite IH. by destruct (dict_get k d).
Qed.

Lemma NoDup_dict_set k v d :
  NoDup (dict_keys d) -> NoDup (dict_keys (dict_set k v d)).
Proof.
  intros Hd. rewrite dict_keys_set. unfold dict_has.
  destruct (dict_get k d) eqn:E; [done|].
  apply dict_get_None_keys in E.
  apply NoDup_app. split_and!; [done| |apply NoDup_singleton].
  intros x Hx Hx'. apply list_elem_of_singleton in Hx'. by subst.
Qed.

Lemma dict_has_set_eq k v d : dict_has k (dict_set k v d) = true.
Proof. unfold dict_has. by rewrite dict_get_set_eq. Qed.

Lemma nonempty_dict_set k v d : nonempty (dict_set k v d) = true.
Proof.
  destruct d as [|[k' v'] d]; simpl; [done|]. by destruct (String.eqb k k').
Qed.
End dict_facts.

(** ** The store *)

Lemma cell_put_eq h a d : a < List.length h -> cell (put_cell h a d) a = d.
Proof.
  intros H. unfold cell, put_cell. by rewrite list_lookup_insert_eq.
Qed.

Lemma cell_put_ne h a b d : a <> b -> cell (put_cell h a d) b = cell h b.
Proof.
  intros H. unfold cell, put_cell. by rewrite list_lookup_insert_ne.
Qed.

Lemma length_put_cell h a d : List.length (put_cell h a d) = List.length h.
Proof. apply length_insert. Qed.

Lemma cell_alloc h a : cell (h ++ [[]]) a = cell h a.
Proof.
  unfold cell. destruct (decide (a < List.length h)) as [Hlt|Hge].
  - by rewrite lookup_app_l.
  - rewrite (lookup_ge_None_2 h) by lia.
    destruct (decide (a = List.length h)) as [->|Hne].
    + by rewrite list_lookup_middle.
    + rewrite lookup_ge_None_2; [done|]. rewrite length_app. simpl. lia.
Qed.

(** ** Reading a key of a [Yaco] *)

Lemma getattr_present h self k v :
  dict_get k (cell h self) = Some v ->
  Yaco.__getattr__ self k h = (Ok v, h).
Proof. intros H. unfold Yaco.__getattr__. by rewrite H. Qed.

Lemma getattr_absent h self k :
  dict_get k (cell h self) = None ->
  Yaco.__getattr__ self k h =
  (Ok (VYaco (List.length h)),
   put_cell (h ++ [[]]) self
     (dict_set k (VYaco (List.length h)) (cell h self))).
Proof.
  intros H. unfold Yaco.__getattr__. rewrite H.
  unfold bind, Yaco.new_empty, Yaco.dict_setitem, modify, ret. simpl.
  by rewrite cell_alloc.
Qed.

Lemma getitem_nodot self k :
  has_dot k = false -> Yaco.__getitem__ self k = Yaco.__getattr__ self k.
Proof.
  unfold has_dot, has_char, Yaco.__getitem__, split_dot. intros H.
  destruct (String.length k); simpl; unfold split_dot;
    by destruct (split_first "." k).
Qed.

Lemma getattr_vivifies h self k :
  self < List.length h -> dict_get k (cell h self) = None ->
  vivifies Yaco.__getattr__ h self k.
Proof.
  intros Hself Hk.
  set (n := List.length h).
  set (h' := put_cell (h ++ [[]]) self (dict_set k (VYaco n) (cell h self))).
  assert (Hn : cell h' n = []).
  { unfold h'. rewrite cell_put_ne by (unfold n; lia).
    rewrite cell_alloc. unfold cell, n. by rewrite lookup_ge_None_2. }
  assert (Hs : cell h' self = dict_set k (VYaco n) (cell h self)).
  { unfold h'. rewrite cell_put_eq; [done|]. rewrite length_app. lia. }
  exists n, h'. split_and!.
  - by apply getattr_absent.
  - done.
  - by rewrite Hs, dict_get_set_eq.
  - unfold Yaco.__contains__, gets. by rewrite Hs, dict_has_set_eq.
  - apply getattr_present. by rewrite Hs, dict_get_set_eq.
Qed.

(** An attribute read of a name the class does not provide is a call
    of [__getattr__]. *)
Lemma getattribute_hook self k h :
  special k = false -> Yaco.member k = false ->
  Yaco.__getattribute__ self k h =
  (match (Yaco.__getattr__ self k h).1 with
   | Ok v => Ok (Item v)
   | Raise e => Raise e
   end, (Yaco.__getattr__ self k h).2).
Proof.
  intros Hs Hm. unfold Yaco.__getattribute__. rewrite Hs, Hm. unfold bind.
  by destruct (Yaco.__getattr__ self k h) as [[v|e] h'].
Qed.

Lemma getattribute_member self k h :
  special k = false -> Yaco.member k = true ->
  Yaco.__getattribute__ self k h = (Ok (Member k), h).
Proof. intros Hs Hm. unfold Yaco.__getattribute__. by rewrite Hs, Hm. Qed.

(** C2 (as amended): a read of an absent key [k] -- an attribute read
    when [k] is not the name of a method of the class and does not
    begin with two underscores, an index read when [k] holds no dot, or
    a call of [__getattr__] -- returns a new empty [Yaco], stores that
    very object under [k], makes [k in n] true, and a second read
    returns the identical object; the read returns normally.  An
    attribute read of the name of a method gives the method and stores
    nothing. *)
Theorem C2_auto_vivification h self k :
  self < List.length h -> dict_get k (cell h self) = None ->
  (special k = false -> Yaco.member k = false -> attr_vivifies h self k) /\
  (has_dot k = false -> vivifies Yaco.__getitem__ h self k) /\
  vivifies Yaco.__getattr__ h self k /\
  (special k = false -> Yaco.member k = true ->
   Yaco.__getattribute__ self k h = (Ok (Member k), h)).
Proof.
  intros Hself Hk. split_and!.
  - intros Hs Hm.
    destruct (getattr_vivifies h self k Hself Hk)
      as (n & h' & Hread & Hn & Hstored & Hin & Hagain).
    exists n, h'. split_and!; try done.
    + by rewrite (getattribute_hook _ _ _ Hs Hm), Hread.
    + by rewrite (getattribute_hook _ _ _ Hs Hm), Hagain.
  - intros Hdot. unfold vivifies. rewrite (getitem_nodot _ _ Hdot).
    by apply getattr_vivifies.
  - by apply getattr_vivifies.
  - intros Hs Hm. by apply getattribute_member.
Qed.

Lemma C2_auto_vivification_witness :
  0 < List.length [[("a", VInt 1)]] /\
  dict_get "b" (cell [[("a", VInt 1)]] 0) = None /\
  special "b" = false /\
  Yaco.member "b" = false /\
  has_dot "b" = false /\
  attr_vivifies [[("a", VInt 1)]] 0 "b" /\
  vivifies Yaco.__getitem__ [[("a", VInt 1)]] 0 "b" /\
  dict_get "items" (cell [[("a", VInt 1)]] 0) = None /\
  Yaco.member "items" = true /\
  Yaco.__getattribute__ 0 "items" [[("a", VInt 1)]] =
    (Ok (Member "items"), [[("a", VInt 1)]]).
Proof.
  assert (H0 : 0 < List.length [[("a", VInt 1)]]) by (simpl; lia).
  destruct (C2_auto_vivification [[("a", VInt 1)]] 0 "b" H0 eq_refl)
    as (Hattr & Hindex & _ & _).
  destruct (C2_auto_vivification [[("a", VInt 1)]] 0 "items" H0 eq_refl)
    as (_ & _ & _ & Hmember).
  split_and!;
    first [reflexivity | exact H0 | by apply Hattr | by apply Hindex | by apply Hmember].
Defined.

(** C2 (as stated) fails for index access with a dotted key: on an
    empty object, [n["a.b"]] returns an empty [Yaco] but stores it as
    [b] under a new [a], and ["a.b" in n] stays false.  It fails for
    attribute access with the name of a method: on an empty object
    [n.keys] is the method [keys] of [dict]; no object is made and
    ["keys" in n] stays false. *)
Lemma C2_absent_key_counterexample :
  0 < List.length [[] : dict] /\
  dict_get "a.b" (cell [[]] 0) = None /\
  ~ vivifies Yaco.__getitem__ [[]] 0 "a.b" /\
  dict_get "keys" (cell [[]] 0) = None /\
  ~ attr_vivifies [[]] 0 "keys" /\
  Yaco.__getattribute__ 0 "keys" [[]] = (Ok (Member "keys"), [[]]) /\
  Yaco.__contains__ 0 "keys" [[]] = (Ok false, [[]]).
Proof.
  split_and!; [simpl; lia | reflexivity | | reflexivity | | reflexivity | reflexivity].
  - intros (n & h' & Hread & _ & Hstored & _).
    vm_compute in Hread. injection Hread as <- <-.
    vm_compute in Hstored. discriminate.
  - intros (n & h' & Hread & _). vm_compute in Hread. discriminate.
Qed.

(** ** The unfolding of the store into trees *)

Lemma rep_bound h v t F : rep h v t F -> forall a, a ∈ F -> a < List.length h.
Proof.
  induction 1; intros x;
    rewrite ?elem_of_union, ?elem_of_singleton, ?elem_of_empty;
    intuition (subst; auto).
Qed.

(** Only the objects of the footprint matter. *)
Lemma rep_stable h h' v t F :
  rep h v t F ->
  (forall a, a ∈ F -> h' !! a = h !! a) ->
  rep h' v t F.
Proof.
  induction 1; intros Hsame.
  - constructor.
  - constructor.
  - constructor; [apply IHrep1|apply IHrep2|done]; set_solver.
  - constructor.
  - constructor; [apply IHrep1|apply IHrep2|done]; set_solver.
  - assert (Ha : h' !! a = h !! a) by (apply Hsame; set_solver).
    assert (Hc : cell h' a = cell h a) by (unfold cell; by rewrite Ha).
    constructor.
    + apply lookup_lt_is_Some. rewrite Ha. by apply lookup_lt_is_Some.
    + by rewrite Hc.
    + rewrite Hc. apply IHrep. set_solver.
    + done.
Qed.

Lemma rep_footprint_eq h v t F F' : rep h v t F -> F = F' -> rep h v t F'.
Proof. by intros H <-. Qed.

Lemma rep_scalar_inv h c t F :
  rep h (VScalar c) t F -> t = TScalar c /\ F = ∅.
Proof. by inversion 1. Qed.

Lemma rep_list_nil_inv h t F : rep h (VList []) t F -> t = TList [] /\ F = ∅.
Proof. by inversion 1. Qed.

Lemma rep_list_cons_inv h v l t F :
  rep h (VList (v :: l)) t F ->
  exists tv tl F1 F2,
    t = TList (tv :: tl) /\ F = F1 ∪ F2 /\ F1 ## F2 /\
    rep h v tv F1 /\ rep h (VList l) (TList tl) F2.
Proof. inversion 1; subst. by eauto 10. Qed.

Lemma rep_dict_nil_inv h t F : rep h (VDict []) t F -> t = TDict [] /\ F = ∅.
Proof. by inversion 1. Qed.

Lemma rep_dict_cons_inv h k v d t F :
  rep h (VDict ((k, v) :: d)) t F ->
  exists tv td F1 F2,
    t = TDict ((k, tv) :: td) /\ F = F1 ∪ F2 /\ F1 ## F2 /\
    rep h v tv F1 /\ rep h (VDict d) (TDict td) F2.
Proof. inversion 1; subst. by eauto 10. Qed.

Lemma rep_yaco_inv h a t F :
  rep h (VYaco a) t F ->
  exists td F0,
    t = TYaco td /\ F = {[a]} ∪ F0 /\ a ∉ F0 /\ a < List.length h /\
    NoDup (dict_keys (cell h a)) /\ rep h (VDict (cell h a)) (TDict td) F0.
Proof. inversion 1; subst. by eauto 10. Qed.

Lemma rep_dict_shape h d t F : rep h (VDict d) t F -> exists td, t = TDict td.
Proof. inversion 1; eauto. Qed.

Lemma rep_dict_nonempty h d td F :
  rep h (VDict d) (TDict td) F -> nonempty td = nonempty d.
Proof. inversion 1; done. Qed.

Lemma rep_dict_keys h d td F :
  rep h (VDict d) (TDict td) F -> dict_keys td = dict_keys d.
Proof.
  revert td F. induction d as [|[k v] d IH]; intros td F H.
  - apply rep_dict_nil_inv in H as [[= ->] _]. done.
  - apply rep_dict_cons_inv in H as (tv & td' & F1 & F2 & [= ->] & _ & _ & _ & H).
    simpl. f_equal. eauto.
Qed.

(** Looking at one key of a dictionary: the footprint splits into the
    part of the value found there and the rest, and the entry can be
    replaced by any value whose footprint stays off the rest. *)
Lemma rep_dict_focus h d td F k :
  rep h (VDict d) (TDict td) F ->
  exists Fv Fr,
    F = Fv ∪ Fr /\ Fv ## Fr /\
    match dict_get k d with
    | Some v => exists t, dict_get k td = Some t /\ rep h v t Fv
    | None => dict_get k td = None /\ Fv = ∅
    end /\
    forall h' v' t' Fv',
      rep h' v' t' Fv' -> Fv' ## Fr ->
      (forall a, a ∈ Fr -> h' !! a = h !! a) ->
      rep h' (VDict (dict_set k v' d)) (TDict (dict_set k t' td)) (Fv' ∪ Fr).
Proof.
  revert td F. induction d as [|[k0 v0] d IH]; intros td F H.
  - apply rep_dict_nil_inv in H as [[= ->] ->].
    exists ∅, ∅. split_and!; [set_solver|set_solver|done|].
    intros h' v' t' Fv' Hv' _ _. simpl.
    eapply rep_footprint_eq; [apply rep_dict_cons; [exact Hv'|constructor|]|];
      set_solver.
  - apply rep_dict_cons_inv in H
      as (tv & td' & F1 & F2 & [= ->] & -> & Hd12 & Hv0 & Hd).
    simpl. destruct (String.eqb k k0) eqn:E.
    + exists F1, F2. split_and!; [done|done|by eauto|].
      intros h' v' t' Fv' Hv' Hdisj Hsame.
      constructor; [done| |done]. eapply rep_stable; eauto.
    + destruct (IH _ _ Hd) as (Fv & Fr & -> & Hdj & Hget & Hset).
      exists Fv, (F1 ∪ Fr). split_and!; [set_solver|set_solver|done|].
      intros h' v' t' Fv' Hv' Hdisj Hsame.
      eapply rep_footprint_eq;
        [apply rep_dict_cons;
           [eapply (rep_stable h h'); [exact Hv0|]
           |apply Hset; [exact Hv'| |]|]|];
        set_solver.
Qed.

(** ** Running a method *)

Lemma bind_ok {S A B} (m : M S A) (f : A -> M S B) s x s' :
  m s = (Ok x, s') -> bind m f s = f x s'.
Proof. unfold bind. by intros ->. Qed.

Lemma bind_raise {S A B} (m : M S A) (f : A -> M S B) s e s' :
  m s = (Raise e, s') -> bind m f s = (Raise e, s').
Proof. unfold bind. by intros ->. Qed.

Lemma for_each_cons {S A} (x : A) (r : list A) (body : A -> M S unit) :
  for_each (x :: r) body = bind (body x) (fun _ => for_each r body).
Proof. reflexivity. Qed.

Lemma map_each_cons {S A B} (x : A) (r : list A) (f : A -> M S B) :
  map_each (x :: r) f =
  bind (f x) (fun y => bind (map_each r f) (fun ys => ret (y :: ys))).
Proof. reflexivity. Qed.

(** ** Frames *)

Lemma frame_refl h F : frame h h F F.
Proof. unfold frame. by auto. Qed.

Lemma frame_trans h1 h2 h3 F1 F2 F3 :
  frame h1 h2 F1 F2 -> frame h2 h3 F2 F3 -> frame h1 h3 F1 F3.
Proof.
  intros (Hl1 & Hf1 & Hs1) (Hl2 & Hf2 & Hs2). split_and!.
  - lia.
  - intros a Ha. destruct (Hf2 a Ha) as [H|H]; [|right; lia].
    destruct (Hf1 a H); [by left|by right].
  - intros a Ha Hn. rewrite Hs2; [by apply Hs1|lia|].
    intros H. destruct (Hf1 a H); [done|lia].
Qed.

Lemma frame_alloc h : frame h (h ++ [[]]) ∅ {[List.length h]}.
Proof.
  split_and!.
  - rewrite length_app. lia.
  - intros a Ha. apply elem_of_singleton in Ha. right. lia.
  - intros a Ha _. by apply lookup_app_l.
Qed.

(** A footprint in the old store does not meet what a frame adds. *)
Lemma frame_disjoint h h' F F' G :
  frame h h' F F' -> F ## G -> (forall a, a ∈ G -> a < List.length h) -> F' ## G.
Proof.
  intros (_ & Hf & _) Hd Hb a Ha Hg.
  destruct (Hf a Ha) as [H|H]; [by apply (Hd a)|].
  specialize (Hb a Hg). lia.
Qed.

Lemma frame_keeps h h' F F' v t G :
  frame h h' F F' -> rep h v t G -> F ## G -> rep h' v t G.
Proof.
  intros (_ & _ & Hs) Hr Hd. eapply rep_stable; [done|].
  intros a Ha. apply Hs; [by eapply rep_bound|]. intros H. by apply (Hd a).
Qed.

(** ** Equations of the tree functions *)

Lemma tupdate_nil self : tupdate (TDict []) self = self.
Proof. reflexivity. Qed.

Lemma tupdate_cons key value r self :
  tupdate (TDict ((key, value) :: r)) self =
  tupdate (TDict r) (tstep key value self).
Proof.
  unfold tupdate, tstep. simpl.
  destruct value; simpl; try reflexivity;
    destruct (dict_get key self) as [[| | |[|e od]]|]; reflexivity.
Qed.

Lemma tupdate_items dt self :
  is_tdict dt = true -> tupdate dt self = tupdate (TDict (titems dt)) self.
Proof. by destruct dt. Qed.

Lemma tupdate_not_dict dt self : is_tdict dt = false -> tupdate dt self = self.
Proof. by destruct dt. Qed.

Lemma tparse_dict t : is_tdict t = true -> tparse t = TYaco (tupdate t []).
Proof. by destruct t. Qed.

Lemma tparse_list l : tparse (TList l) = TList (map tparse l).
Proof. reflexivity. Qed.

Lemma tparse_scalar c : tparse (TScalar c) = TScalar c.
Proof. reflexivity. Qed.

Lemma depth_items dt n :
  is_tdict dt = true -> depth dt <= S n ->
  Forall (fun kv => depth kv.2 <= n) (titems dt).
Proof.
  intros Hd. assert (depth dt = S (foldr (fun kv m => Nat.max (depth kv.2) m) 0 (titems dt)))
    as -> by (by destruct dt).
  intros H. apply Nat.succ_le_mono in H. revert H.
  induction (titems dt) as [|kv l IH]; simpl; intros H; constructor; [lia|].
  apply IH. lia.
Qed.

Lemma depth_list l n :
  depth (TList l) <= S n -> Forall (fun x => depth x <= n) l.
Proof.
  simpl. intros H. apply Nat.succ_le_mono in H. revert H.
  induction l as [|x l IH]; simpl; intros H; constructor; [lia|].
  apply IH. lia.
Qed.

Lemma depth_dict_pos dt : is_tdict dt = true -> 0 < depth dt.
Proof. destruct dt; simpl; intros; try done; lia. Qed.

(** ** [update] on an object without sharing *)

Lemma rep_new h : rep (h ++ [[]]) (VYaco (List.length h)) (TYaco []) {[List.length h]}.
Proof.
  eapply rep_footprint_eq.
  - apply rep_yaco with (td := []) (F := ∅).
    + rewrite length_app. simpl. lia.
    + rewrite cell_alloc. unfold cell. rewrite lookup_ge_None_2 by lia.
      constructor.
    + rewrite cell_alloc. unfold cell. rewrite lookup_ge_None_2 by lia.
      constructor.
    + apply not_elem_of_empty.
  - apply union_empty_r_L.
Qed.

(** Storing a value under a key of [self], the value having been built
    out of new objects only. *)
Lemma setitem_refines h h1 self td F key v' t' Fv' :
  rep h (VYaco self) (TYaco td) F ->
  frame h h1 ∅ Fv' ->
  rep h1 v' t' Fv' ->
  exists h2 F',
    Yaco.dict_setitem self key v' h1 = (Ok tt, h2) /\
    rep h2 (VYaco self) (TYaco (dict_set key t' td)) F' /\
    frame h h2 F F'.
Proof.
  intros Hself Hfr Hv.
  apply rep_yaco_inv in Hself
    as (td0 & F0 & [= <-] & -> & Hnin & Hlt & Hnd & Hd).
  destruct (rep_dict_focus _ _ _ _ key Hd) as (Fv & Fr & -> & Hdj & _ & Hset).
  destruct Hfr as (Hlen & Hfresh & Hsame).
  assert (Hcell : cell h1 self = cell h self).
  { unfold cell. rewrite Hsame; [done|done|set_solver]. }
  assert (Hbound : forall a, a ∈ Fr -> a < List.length h).
  { intros a Ha. eapply rep_bound; [exact Hd|set_solver]. }
  assert (Hfresh' : forall a, a ∈ Fv' -> List.length h <= a).
  { intros a Ha. destruct (Hfresh a Ha); [set_solver|done]. }
  assert (Hrep1 : rep h1 (VDict (dict_set key v' (cell h self)))
                    (TDict (dict_set key t' td)) (Fv' ∪ Fr)).
  { apply Hset; [done| |].
    - intros a Ha Hb. specialize (Hfresh' a Ha). specialize (Hbound a Hb). lia.
    - intros a Ha. apply Hsame; [by apply Hbound|set_solver]. }
  eexists _, ({[self]} ∪ (Fv' ∪ Fr)). split_and!.
  - reflexivity.
  - rewrite Hcell.
    set (d' := dict_set key v' (cell h self)) in *.
    assert (Hn : self ∉ Fv' ∪ Fr).
    { intros [Ha|Ha]%elem_of_union; [specialize (Hfresh' _ Ha); lia|set_solver]. }
    apply rep_yaco.
    + rewrite length_put_cell. lia.
    + rewrite cell_put_eq by lia. by apply NoDup_dict_set.
    + rewrite cell_put_eq by lia. eapply rep_stable; [exact Hrep1|].
      intros a Ha. unfold put_cell. apply list_lookup_insert_ne. set_solver.
    + done.
  - split_and!.
    + rewrite length_put_cell. lia.
    + intros a [Ha|[Ha|Ha]%elem_of_union]%elem_of_union.
      * left. set_solver.
      * right. by apply Hfresh'.
      * left. set_solver.
    + intros a Ha Hn. unfold put_cell. rewrite list_lookup_insert_ne by set_solver.
      apply Hsame; [done|set_solver].
Qed.

Lemma construct_refines upd n :
  refines_update upd n ->
  forall h data dt Fd,
    rep h data dt Fd -> is_tdict dt = true -> depth dt <= n ->
    exists v h' F',
      Yaco.construct upd data h = (Ok v, h') /\
      rep h' v (tparse dt) F' /\
      frame h h' ∅ F'.
Proof.
  intros Hupd h data dt Fd Hdata Hdict Hdepth.
  pose proof (frame_alloc h) as Hfa.
  destruct (Hupd (h ++ [[]]) (List.length h) [] {[List.length h]} data dt Fd)
    as (h' & F' & Hrun & Hrep & Hfr).
  - apply rep_new.
  - eapply frame_keeps; [exact Hfa|exact Hdata|set_solver].
  - done.
  - intros a Ha Hb. apply elem_of_singleton in Ha. subst.
    pose proof (rep_bound _ _ _ _ Hdata _ Hb). lia.
  - done.
  - exists (VYaco (List.length h)), h', F'. split_and!.
    + unfold Yaco.construct, bind, Yaco.new_empty. by rewrite Hrun.
    + by rewrite tparse_dict.
    + eapply frame_trans; eauto.
Qed.

Lemma frame_fresh_union h h1 h2 F1 F2 :
  frame h h1 ∅ F1 -> frame h1 h2 ∅ F2 -> frame h h2 ∅ (F1 ∪ F2).
Proof.
  intros (Hl1 & Hf1 & Hs1) (Hl2 & Hf2 & Hs2). split_and!.
  - lia.
  - intros a [Ha|Ha]%elem_of_union; right.
    + destruct (Hf1 a Ha); [set_solver|done].
    + destruct (Hf2 a Ha); [set_solver|lia].
  - intros a Ha Hn. rewrite Hs2; [by apply Hs1|lia|done].
Qed.

Lemma rep_list_shape h l t F : rep h (VList l) t F -> exists tl, t = TList tl.
Proof. inversion 1; eauto. Qed.

(** The elements of a list, parsed from left to right. *)
Lemma parse_elements mk m :
  (forall item t Fd h,
     rep h item t Fd -> depth t <= m ->
     exists item' h' F',
       Yaco.parse_item mk item h = (Ok item', h') /\
       rep h' item' (tparse t) F' /\ frame h h' ∅ F') ->
  forall l tl Fd h,
    rep h (VList l) (TList tl) Fd ->
    Forall (fun x => depth x <= m) tl ->
    exists l' h' F',
      map_each l (Yaco.parse_item mk) h = (Ok l', h') /\
      rep h' (VList l') (TList (map tparse tl)) F' /\ frame h h' ∅ F'.
Proof.
  intros Hitem. induction l as [|x l IH]; intros tl Fd h Hl Hdepth.
  - apply rep_list_nil_inv in Hl as [[= ->] ->].
    exists [], h, ∅. split_and!; [done|constructor|apply frame_refl].
  - apply rep_list_cons_inv in Hl
      as (tx & tl' & F1 & F2 & [= ->] & -> & Hdj & Hx & Hl).
    apply Forall_cons in Hdepth as [Hdx Hdl].
    destruct (Hitem _ _ _ _ Hx Hdx) as (x' & h1 & G1 & Hrun1 & Hrep1 & Hfr1).
    assert (Hl1 : rep h1 (VList l) (TList tl') F2).
    { eapply frame_keeps; [exact Hfr1|exact Hl|set_solver]. }
    destruct (IH _ _ _ Hl1 Hdl) as (l' & h2 & G2 & Hrun2 & Hrep2 & Hfr2).
    exists (x' :: l'), h2, (G1 ∪ G2). split_and!.
    + rewrite map_each_cons. unfold bind. rewrite Hrun1.
      fold (@map_each store value value). by rewrite Hrun2.
    + simpl. constructor; [|done|].
      * eapply frame_keeps; [exact Hfr2|exact Hrep1|set_solver].
      * intros a Ha Hb. pose proof (rep_bound _ _ _ _ Hrep1 _ Ha).
        destruct Hfr2 as (_ & Hf & _). destruct (Hf a Hb); [set_solver|lia].
    + by eapply frame_fresh_union.
Qed.

(** [_list_parser], item by item. *)
Lemma parse_item_refines upd n :
  refines_update upd n ->
  forall m, m <= n ->
  forall item t Fd h,
    rep h item t Fd -> depth t <= m ->
    exists item' h' F',
      Yaco.parse_item (Yaco.construct upd) item h = (Ok item', h') /\
      rep h' item' (tparse t) F' /\ frame h h' ∅ F'.
Proof.
  intros Hupd. induction m as [|m IH]; intros Hm item t Fd h Hrep Hdepth.
  - destruct item as [c|l|d|a].
    + apply rep_scalar_inv in Hrep as [-> ->].
      exists (VScalar c), h, ∅. split_and!; [done|constructor|apply frame_refl].
    + apply rep_list_shape in Hrep as [tl ->]. simpl in Hdepth. lia.
    + destruct (rep_dict_shape _ _ _ _ Hrep) as [td ->]. simpl in Hdepth. lia.
    + apply rep_yaco_inv in Hrep as (td & F0 & -> & _). simpl in Hdepth. lia.
  - destruct item as [c|l|d|a].
    + apply rep_scalar_inv in Hrep as [-> ->].
      exists (VScalar c), h, ∅. split_and!; [done|constructor|apply frame_refl].
    + destruct (rep_list_shape _ _ _ _ Hrep) as [tl ->].
      apply depth_list in Hdepth.
      destruct (parse_elements (Yaco.construct upd) m
                  (fun item t Fd h Hr Hd => IH ltac:(lia) item t Fd h Hr Hd)
                  _ _ _ _ Hrep Hdepth)
        as (l' & h' & F' & Hrun & Hrep' & Hfr).
      exists (VList l'), h', F'. split_and!; [|done|done].
      simpl. unfold bind. by rewrite Hrun.
    + destruct (rep_dict_shape _ _ _ _ Hrep) as [td ->].
      eapply (construct_refines upd n Hupd); [exact Hrep|done|lia].
    + pose proof Hrep as Hrep0.
      apply rep_yaco_inv in Hrep0 as (td & F0 & -> & _).
      eapply (construct_refines upd n Hupd); [exact Hrep|done|lia].
Qed.

Lemma list_parser_refines upd n :
  refines_update upd n ->
  forall l tl Fd h,
    rep h (VList l) (TList tl) Fd ->
    depth (TList tl) <= n ->
    exists l' h' F',
      Yaco.list_parser_with (Yaco.construct upd) l h = (Ok l', h') /\
      rep h' (VList l') (TList (map tparse tl)) F' /\ frame h h' ∅ F'.
Proof.
  intros Hupd l tl Fd h Hrep Hdepth. destruct n as [|n]; [simpl in Hdepth; lia|].
  apply depth_list in Hdepth.
  eapply parse_elements; [|exact Hrep|exact Hdepth].
  intros item t Fd' h0 Hr Hd.
  eapply (parse_item_refines upd (S n) Hupd n); [lia|exact Hr|exact Hd].
Qed.

Lemma rep_is_dict h v t F : rep h v t F -> is_tdict t = is_dict v.
Proof. by inversion 1. Qed.

(** A new value for [key], built by [construct] or by [_list_parser],
    is stored. *)
Lemma entry_store upd n h self td F key value tv Fv :
  refines_update upd n ->
  rep h (VYaco self) (TYaco td) F ->
  rep h value tv Fv ->
  depth tv <= n ->
  exists h' F',
    (v <- Yaco.parse_item (Yaco.construct upd) value ;;
     Yaco.dict_setitem self key v) h = (Ok tt, h') /\
    rep h' (VYaco self) (TYaco (dict_set key (tparse tv) td)) F' /\
    frame h h' F F'.
Proof.
  intros Hupd Hself Hvalue Hdepth.
  destruct (parse_item_refines upd n Hupd n (le_n _) _ _ _ _ Hvalue Hdepth)
    as (v' & h1 & F1 & Hrun & Hrep & Hfr).
  destruct (setitem_refines _ _ _ _ _ key _ _ _ Hself Hfr Hrep)
    as (h2 & F2 & Hrun2 & Hrep2 & Hfr2).
  exists h2, F2. split_and!; [|done|done].
  unfold bind. by rewrite Hrun.
Qed.

(** One entry of [data]. *)
Lemma entry_refines upd n :
  refines_update upd n ->
  forall h self td F key value tv Fv,
    rep h (VYaco self) (TYaco td) F ->
    rep h value tv Fv ->
    F ## Fv ->
    depth tv <= n ->
    exists h' F',
      Yaco.update_entry upd self (key, value) h = (Ok tt, h') /\
      rep h' (VYaco self) (TYaco (tstep key tv td)) F' /\
      frame h h' F F'.
Proof.
  intros Hupd h self td F key value tv Fv Hself Hvalue Hdj Hdepth.
  destruct (entry_store upd n h self td F key value tv Fv Hupd Hself Hvalue Hdepth)
    as (hs & Fs & Hruns & Hreps & Hfrs).
  pose proof (rep_is_dict _ _ _ _ Hvalue) as Hisd.
  pose proof Hself as Hself0.
  apply rep_yaco_inv in Hself0
    as (td0 & F0 & [= <-] & -> & Hnin & Hlt & Hnd & Hd).
  destruct (rep_dict_focus _ _ _ _ key Hd) as (Fo & Fr & -> & Hdjo & Hget & Hset).
  unfold Yaco.update_entry, Yaco.old_value, gets, bind. simpl.
  destruct (is_dict value) eqn:Edict.
  - (* a mapping *)
    assert (Hstore : forall hx,
      (v <- Yaco.construct upd value ;; Yaco.dict_setitem self key v) hx =
      (v <- Yaco.parse_item (Yaco.construct upd) value ;;
       Yaco.dict_setitem self key v) hx).
    { intros hx. by destruct value. }
    unfold bind in Hstore.
    unfold tstep. rewrite Hisd.
    destruct (dict_get key (cell h self)) as [old|] eqn:Eold; simpl.
    + destruct Hget as (told & Htold & Hold). rewrite Htold.
      destruct old as [c|l|d|o].
      * apply rep_scalar_inv in Hold as [-> ->].
        rewrite Hstore. unfold bind in Hruns. eauto.
      * apply rep_list_shape in Hold as [tl ->].
        rewrite Hstore. unfold bind in Hruns. eauto.
      * destruct (rep_dict_shape _ _ _ _ Hold) as [tdo ->].
        rewrite Hstore. unfold bind in Hruns. eauto.
      * pose proof Hold as Hold0.
        apply rep_yaco_inv in Hold0
          as (od & Fo0 & -> & -> & Honin & Holt & Hond & Hod).
        assert (truthy h (VYaco o) = nonempty od) as ->
          by (symmetry; apply (rep_dict_nonempty _ _ _ _ Hod)).
        destruct od as [|e od]; simpl.
        -- rewrite Hstore. unfold bind in Hruns. eauto.
        -- (* merge into the object already there *)
           destruct (Hupd h o (e :: od) ({[o]} ∪ Fo0) value tv Fv Hold Hvalue)
             as (h1 & Fo' & Hrun & Hrep & Hfr); [by rewrite Hisd|set_solver|done|].
           exists h1, ({[self]} ∪ (Fo' ∪ Fr)). split_and!; [done| |].
           ++ pose proof Hfr as (Hlen & Hfresh & Hsame).
              assert (Hcell : cell h1 self = cell h self).
              { unfold cell. rewrite Hsame; [done|done|set_solver]. }
              assert (Hbr : forall a, a ∈ Fr -> a < List.length h).
              { intros a Ha. eapply rep_bound; [exact Hd|set_solver]. }
              apply rep_yaco.
              ** lia.
              ** by rewrite Hcell.
              ** rewrite Hcell.
                 rewrite <- (dict_set_same key (VYaco o) (cell h self) Eold).
                 apply Hset; [done| |].
                 --- eapply frame_disjoint; [exact Hfr|done|done].
                 --- intros a Ha. apply Hsame; [by apply Hbr|set_solver].
              ** intros [Ha|Ha]%elem_of_union; [|set_solver].
                 destruct (Hfresh _ Ha); [set_solver|lia].
           ++ destruct Hfr as (Hlen & Hfresh & Hsame). split_and!.
              ** done.
              ** intros a [Ha|[Ha|Ha]%elem_of_union]%elem_of_union.
                 --- left. set_solver.
                 --- destruct (Hfresh _ Ha); [left; set_solver|by right].
                 --- left. set_solver.
              ** intros a Ha Hn. apply Hsame; [done|set_solver].
    + destruct Hget as [Htold _]. rewrite Htold.
      rewrite Hstore. unfold bind in Hruns. eauto.
  - (* a list or a scalar *)
    assert (Htstep : tstep key tv td = dict_set key (tparse tv) td).
    { unfold tstep. by rewrite Hisd. }
    rewrite Htstep.
    destruct value as [c|l|d|a]; try done.
    + exists hs, Fs. split_and!; [|done|done].
      rewrite <- Hruns. reflexivity.
    + exists hs, Fs. split_and!; [|done|done].
      rewrite <- Hruns. unfold bind. simpl. unfold bind.
      unfold Yaco.list_parser_with.
      destruct (map_each l (Yaco.parse_item (Yaco.construct upd)) h)
        as [[l'|e] h1]; reflexivity.
Qed.

(** The loop over the entries of [data]. *)
Lemma loop_refines upd n :
  refines_update upd n ->
  forall items titems Fd h self td F,
    rep h (VYaco self) (TYaco td) F ->
    rep h (VDict items) (TDict titems) Fd ->
    F ## Fd ->
    Forall (fun kv => depth kv.2 <= n) titems ->
    exists h' F',
      for_each items (Yaco.update_entry upd self) h = (Ok tt, h') /\
      rep h' (VYaco self) (TYaco (tupdate (TDict titems) td)) F' /\
      frame h h' F F'.
Proof.
  intros Hupd. induction items as [|[key value] items IH];
    intros titems Fd h self td F Hself Hitems Hdj Hdepth.
  - apply rep_dict_nil_inv in Hitems as [[= ->] ->].
    exists h, F. split_and!; [done|done|apply frame_refl].
  - apply rep_dict_cons_inv in Hitems
      as (tv & titems' & F1 & F2 & [= ->] & -> & Hdj12 & Hvalue & Hitems).
    apply Forall_cons in Hdepth as [Hdv Hdr]. simpl in Hdv.
    destruct (entry_refines upd n Hupd h self td F key value tv F1
                Hself Hvalue ltac:(set_solver) Hdv)
      as (h1 & G1 & Hrun1 & Hrep1 & Hfr1).
    assert (Hitems1 : rep h1 (VDict items) (TDict titems') F2).
    { eapply frame_keeps; [exact Hfr1|exact Hitems|set_solver]. }
    assert (Hdj1 : G1 ## F2).
    { eapply frame_disjoint; [exact Hfr1|set_solver|].
      intros a Ha. by eapply rep_bound. }
    destruct (IH _ _ _ _ _ _ Hrep1 Hitems1 Hdj1 Hdr)
      as (h2 & G2 & Hrun2 & Hrep2 & Hfr2).
    exists h2, G2. split_and!.
    + rewrite for_each_cons. unfold bind. by rewrite Hrun1.
    + by rewrite tupdate_cons.
    + by eapply frame_trans.
Qed.

(** [update] merges [data] into an object without sharing as
    [tupdate] merges the trees, and returns normally once the fuel
    covers the nesting of [data]. *)
Lemma update_refines fuel : refines_update (Yaco.update fuel) fuel.
Proof.
  induction fuel as [|f IH];
    intros h self td F data dt Fd Hself Hdata Hdict Hdj Hdepth.
  - pose proof (depth_dict_pos _ Hdict). lia.
  - simpl. unfold bind, gets.
    assert (Hitems : exists items Fi,
      Yaco.items_of data h = (Ok items, h) /\
      truthy h data = nonempty items /\
      rep h (VDict items) (TDict (titems dt)) Fi /\ Fi ⊆ Fd).
    { destruct data as [c|l|d|a].
      - apply rep_scalar_inv in Hdata as [-> _]. done.
      - apply rep_list_shape in Hdata as [tl ->]. done.
      - destruct (rep_dict_shape _ _ _ _ Hdata) as [tdd ->].
        exists d, Fd. by split_and!.
      - apply rep_yaco_inv in Hdata as (tdd & F0 & -> & -> & _ & _ & _ & Hd).
        exists (cell h a), F0. split_and!; [done|done|done|set_solver]. }
    destruct Hitems as (items & Fi & Hio & Htr & Hri & Hsub).
    rewrite Htr. destruct items as [|kv items]; simpl.
    + exists h, F. split_and!; [done| |apply frame_refl].
      apply rep_dict_nil_inv in Hri as [[= Hti] _].
      by rewrite (tupdate_items _ _ Hdict), Hti.
    + rewrite Hio.
      destruct (loop_refines _ f IH (kv :: items) (titems dt) Fi h self td F
                  Hself Hri ltac:(set_solver) (depth_items _ _ Hdict Hdepth))
        as (h' & F' & Hrun & Hrep & Hfr).
      exists h', F'. split_and!; [done| |done].
      by rewrite (tupdate_items _ _ Hdict).
Qed.

(** ** What [tupdate] leaves under each key *)

Lemma tstep_get_ne k key value self :
  key <> k -> dict_get k (tstep key value self) = dict_get k self.
Proof.
  intros Hne. unfold tstep.
  destruct (is_tdict value), (dict_get key self) as [[| | |[|e od]]|];
    by rewrite dict_get_set_ne.
Qed.

Lemma tstep_get_eq key value self :
  dict_get key (tstep key value self) =
  Some (tmerged value (dict_get key self)).
Proof.
  unfold tstep, tmerged.
  destruct (is_tdict value), (dict_get key self) as [[| | |[|e od]]|];
    by rewrite dict_get_set_eq.
Qed.

Lemma tupdate_get_other k items self :
  k ∉ dict_keys items ->
  dict_get k (tupdate (TDict items) self) = dict_get k self.
Proof.
  revert self. induction items as [|[key value] items IH]; intros self Hk.
  - done.
  - simpl in Hk. apply not_elem_of_cons in Hk as [Hne Hk].
    rewrite tupdate_cons, IH by done. by apply tstep_get_ne.
Qed.

Lemma tupdate_get k v items self :
  NoDup (dict_keys items) ->
  dict_get k items = Some v ->
  dict_get k (tupdate (TDict items) self) = Some (tmerged v (dict_get k self)).
Proof.
  revert self. induction items as [|[key value] items IH]; intros self Hnd Hk.
  - done.
  - simpl in Hnd. apply NoDup_cons in Hnd as [Hnin Hnd].
    rewrite tupdate_cons. simpl in Hk.
    destruct (String.eqb k key) eqn:E.
    + apply String.eqb_eq in E. subst key. injection Hk as ->.
      rewrite tupdate_get_other by done. apply tstep_get_eq.
    + apply String.eqb_neq in E.
      rewrite IH by done. by rewrite tstep_get_ne.
Qed.

Lemma tmerged_yaco v od :
  is_tdict v = true -> tmerged v (Some (TYaco od)) = TYaco (tupdate v od).
Proof.
  intros Hd. unfold tmerged. rewrite Hd.
  destruct od; [by apply tparse_dict|done].
Qed.

Lemma tmerged_list l old : tmerged (TList l) old = TList (map tparse l).
Proof. reflexivity. Qed.

Lemma tmerged_scalar c old : tmerged (TScalar c) old = TScalar c.
Proof. reflexivity. Qed.

(** A plain value unfolds to its own tree, whatever the store. *)
Lemma rep_plain h v : plain v = true -> rep h v (tree_of v) ∅.
Proof.
  revert v. fix IH 1. intros [c|l|d|a] Hp; simpl in *.
  - constructor.
  - induction l as [|x l IHl]; [constructor|]. simpl in *.
    apply andb_prop in Hp as [Hx Hl].
    eapply rep_footprint_eq;
      [apply rep_list_cons; [by apply IH|by apply IHl|]|]; set_solver.
  - induction d as [|[k x] d IHd]; [constructor|]. simpl in *.
    apply andb_prop in Hp as [Hx Hd].
    eapply rep_footprint_eq;
      [apply rep_dict_cons; [by apply IH|by apply IHd|]|]; set_solver.
  - done.
Qed.

(** ** Mappings stored by [update] are [Yaco]s *)

Lemma all_nodes_dict_set k v d :
  all_nodes v = true -> all_nodes_dict d = true ->
  all_nodes_dict (dict_set k v d) = true.
Proof.
  unfold all_nodes_dict. intros Hv. induction d as [|[k' v'] d IH]; simpl.
  - by rewrite Hv.
  - intros [H1 H2]%andb_prop. destruct (String.eqb k k'); simpl.
    + by rewrite Hv, H2.
    + by rewrite H1, IH.
Qed.

Lemma all_nodes_dict_get k v d :
  all_nodes_dict d = true -> dict_get k d = Some v -> all_nodes v = true.
Proof.
  unfold all_nodes_dict. induction d as [|[k' v'] d IH]; simpl; [done|].
  intros [H1 H2]%andb_prop. destruct (String.eqb k k'); [|by auto].
  by intros [= <-].
Qed.

Lemma tconv_all_nodes n t :
  depth t <= n ->
  all_nodes (tparse t) = true /\
  (forall self, all_nodes_dict self = true ->
                all_nodes_dict (tupdate t self) = true).
Proof.
  revert t. induction n as [|n IH]; intros t Hd.
  - destruct t; simpl in Hd; try lia. by split.
  - assert (Hloop : forall items,
      Forall (fun kv => depth kv.2 <= n) items ->
      forall self, all_nodes_dict self = true ->
                   all_nodes_dict (tupdate (TDict items) self) = true).
    { induction items as [|[key value] items IHi]; intros Hf self Hs; [done|].
      apply Forall_cons in Hf as [Hv Hf]. simpl in Hv.
      rewrite tupdate_cons. apply IHi; [done|].
      destruct (IH _ Hv) as [Hp Hu]. unfold tstep.
      destruct (is_tdict value), (dict_get key self) as [[| | |[|e od]]|] eqn:E;
        try (by apply all_nodes_dict_set).
      apply all_nodes_dict_set; [|done]. simpl. apply Hu.
      by apply (all_nodes_dict_get _ _ _ Hs E). }
    destruct t as [c|l|d|d].
    + by split.
    + split; [|done]. rewrite tparse_list. simpl.
      apply depth_list in Hd. induction Hd as [|x l Hx Hl IHl]; [done|].
      simpl. rewrite IHl. by destruct (IH _ Hx) as [-> _].
    + pose proof (depth_items (TDict d) n eq_refl Hd) as Hf. split.
      * rewrite tparse_dict by done. simpl. by apply (Hloop d Hf []).
      * by apply Hloop.
    + pose proof (depth_items (TYaco d) n eq_refl Hd) as Hf. split.
      * rewrite tparse_dict by done. simpl.
        rewrite (tupdate_items (TYaco d)) by done. by apply (Hloop d Hf []).
      * intros self Hs. rewrite (tupdate_items (TYaco d)) by done.
        by apply Hloop.
Qed.

Lemma tparse_all_nodes t : all_nodes (tparse t) = true.
Proof. by destruct (tconv_all_nodes (depth t) t (le_n _)). Qed.

Lemma tupdate_all_nodes t self :
  all_nodes_dict self = true -> all_nodes_dict (tupdate t self) = true.
Proof. destruct (tconv_all_nodes (depth t) t (le_n _)) as [_ H]. apply H. Qed.

(** Unfolding a store given in full. *)
Ltac rep_concrete :=
  lazymatch goal with
  | |- rep _ (VScalar _) _ _ => apply rep_scalar
  | |- rep _ (VList []) _ _ => apply rep_list_nil
  | |- rep _ (VList (_ :: _)) _ _ =>
      apply rep_list_cons; [rep_concrete|rep_concrete|set_solver]
  | |- rep _ (VDict []) _ _ => apply rep_dict_nil
  | |- rep _ (VDict (_ :: _)) _ _ =>
      apply rep_dict_cons; [rep_concrete|rep_concrete|set_solver]
  | |- rep _ (VYaco _) _ _ =>
      apply rep_yaco;
      [simpl; lia
      |vm_compute; repeat constructor; set_solver
      |vm_compute cell; rep_concrete
      |set_solver]
  end.

(** ** C3: [update] is a right-biased deep merge *)

(** C3: after [update(other)], a key of [other] whose value is a
    mapping holds, when the object held a [Yaco] there, the recursive
    merge of the two (and a new [Yaco] built from the value otherwise);
    a key whose value is a list holds the parsed list, whatever was
    there, with every mapping inside turned into a [Yaco]; a key with
    any other value holds that value; keys absent from [other] keep
    what they had.  The call returns normally. *)
Theorem C3_update_deep_merge fuel h self td F other tother Fo :
  rep h (VYaco self) (TYaco td) F ->
  rep h other tother Fo ->
  is_tdict tother = true ->
  F ## Fo ->
  depth tother <= fuel ->
  NoDup (dict_keys (titems tother)) ->
  exists h' F' td',
    Yaco.update fuel self other h = (Ok tt, h') /\
    rep h' (VYaco self) (TYaco td') F' /\
    (forall k v, dict_get k (titems tother) = Some v ->
       (forall od, is_tdict v = true -> dict_get k td = Some (TYaco od) ->
                   dict_get k td' = Some (TYaco (tupdate v od))) /\
       (is_tdict v = true -> (forall od, dict_get k td <> Some (TYaco od)) ->
        dict_get k td' = Some (TYaco (tupdate v []))) /\
       (forall l, v = TList l ->
                  dict_get k td' = Some (TList (map tparse l)) /\
                  all_nodes (TList (map tparse l)) = true) /\
       (forall c, v = TScalar c -> dict_get k td' = Some (TScalar c))) /\
    (forall k, dict_get k (titems tother) = None ->
               dict_get k td' = dict_get k td).
Proof.
  intros Hself Hother Hdict Hdj Hdepth Hnd.
  destruct (update_refines fuel h self td F other tother Fo
              Hself Hother Hdict Hdj Hdepth) as (h' & F' & Hrun & Hrep & _).
  exists h', F', (tupdate tother td). split_and!; [done|done| |].
  - intros k v Hk. rewrite (tupdate_items _ _ Hdict).
    rewrite (tupdate_get k v _ _ Hnd Hk). split_and!.
    + intros od Hv Hold. by rewrite Hold, tmerged_yaco.
    + intros Hv Hold. f_equal. unfold tmerged. rewrite Hv.
      destruct (dict_get k td) as [[| | |[|e od]]|]; try by apply tparse_dict.
      by destruct (Hold (e :: od)).
    + intros l ->. split; [done|].
      rewrite <- tparse_list. apply tparse_all_nodes.
    + by intros c ->.
  - intros k Hk. rewrite (tupdate_items _ _ Hdict).
    apply tupdate_get_other. by apply dict_get_None_keys.
Qed.

Lemma C3_update_deep_merge_witness :
  let h : store := [[("c", VYaco 1); ("a", VInt 1)]; [("d", VInt 3)]] in
  let td : tdict := [("c", TYaco [("d", TScalar (SInt 3))]); ("a", TScalar (SInt 1))] in
  let F : gset addr := {[0]} ∪ (({[1]} ∪ (∅ ∪ ∅)) ∪ (∅ ∪ ∅)) in
  let other := VDict [("c", VDict [("e", VInt 4)]); ("a", VInt 2)] in
  rep h (VYaco 0) (TYaco td) F /\
  rep h other (tree_of other) ∅ /\
  is_tdict (tree_of other) = true /\
  F ## ∅ /\
  depth (tree_of other) <= 2 /\
  NoDup (dict_keys (titems (tree_of other))) /\
  exists h' F' td',
    Yaco.update 2 0 other h = (Ok tt, h') /\
    rep h' (VYaco 0) (TYaco td') F' /\
    (forall k v, dict_get k (titems (tree_of other)) = Some v ->
       (forall od, is_tdict v = true -> dict_get k td = Some (TYaco od) ->
                   dict_get k td' = Some (TYaco (tupdate v od))) /\
       (is_tdict v = true -> (forall od, dict_get k td <> Some (TYaco od)) ->
        dict_get k td' = Some (TYaco (tupdate v []))) /\
       (forall l, v = TList l ->
                  dict_get k td' = Some (TList (map tparse l)) /\
                  all_nodes (TList (map tparse l)) = true) /\
       (forall c, v = TScalar c -> dict_get k td' = Some (TScalar c))) /\
    (forall k, dict_get k (titems (tree_of other)) = None ->
               dict_get k td' = dict_get k td).
Proof.
  intros h td F other.
  assert (H1 : rep h (VYaco 0) (TYaco td) F) by (unfold h, td, F; rep_concrete).
  assert (H2 : rep h other (tree_of other) ∅) by (by apply rep_plain).
  assert (H3 : is_tdict (tree_of other) = true) by reflexivity.
  assert (H4 : F ## ∅) by set_solver.
  assert (H5 : depth (tree_of other) <= 2) by (vm_compute; lia).
  assert (H6 : NoDup (dict_keys (titems (tree_of other))))
    by (vm_compute; repeat constructor; set_solver).
  split_and!; try done.
  exact (C3_update_deep_merge 2 h 0 td F other (tree_of other) ∅ H1 H2 H3 H4 H5 H6).
Defined.

(** The two instances named with C3: [Yaco({a:1}).update({a:2})] gives
    [a == 2], and [Yaco({c:{d:3}}).update({c:{e:4}})] leaves [d] and [e]
    under [c]. *)
Example C3_instances :
  (a <- Yaco.__init__ 3 (VDict [("a", VInt 1)]) ;;
   Yaco.update 3 a (VDict [("a", VInt 2)]) ;;;
   Yaco.get_data 3 a) [] =
  (Ok [("a", VInt 2)], [[("a", VInt 2)]]) /\
  (a <- Yaco.__init__ 3 (VDict [("c", VDict [("d", VInt 3)])]) ;;
   Yaco.update 3 a (VDict [("c", VDict [("e", VInt 4)])]) ;;;
   Yaco.get_data 3 a) [] =
  (Ok [("c", VDict [("d", VInt 3); ("e", VInt 4)])],
   [[("c", VYaco 1)]; [("d", VInt 3); ("e", VInt 4)]]).
Proof. split; reflexivity. Qed.

(** ** [PolyYaco.merge] *)

Lemma on_store_run {A} (m : M store A) s :
  PolyYaco.on_store m s = ((m (heap (env s))).1, with_heap s (m (heap (env s))).2).
Proof. reflexivity. Qed.

Lemma with_heap_heap s h : heap (env (with_heap s h)) = h.
Proof. reflexivity. Qed.

Lemma with_heap_with_heap s h h' : with_heap (with_heap s h) h' = with_heap s h'.
Proof. reflexivity. Qed.

Lemma on_store_for_each {A} (l : list A) (body : A -> M store unit) s :
  for_each l (fun x => PolyYaco.on_store (body x)) s =
  PolyYaco.on_store (for_each l body) s.
Proof.
  revert s. induction l as [|x l IH]; intros s.
  - rewrite on_store_run. simpl. unfold ret, with_heap, set_heap. simpl.
    by destruct s as [[] ?].
  - rewrite !for_each_cons.
    unfold bind, PolyYaco.on_store, PolyYaco.on_world, on_heap in *. simpl.
    destruct (body x (heap (env s))) as [[[]|e] h1] eqn:E; simpl; [|done].
    by rewrite IH.
Qed.

(** The recomputation done by [merge] when the flag is set. *)
Lemma merge_dirty fuel s :
  _PolyYaco_dirty (this s) = true ->
  PolyYaco.merge fuel s =
  let h := heap (env s) in
  let y := List.length h in
  let r := for_each (_PolyYaco_yacs (this s))
             (fun yy => Yaco.update fuel y (VYaco (obj yy))) (h ++ [[]]) in
  match r.1 with
  | Ok _ =>
      (Ok (Some y),
       {| env := set_heap (env s) r.2;
          this := PolyYaco.set_dirty false
                    (PolyYaco.set_merged (Some y) (this s)) |})
  | Raise e => (Raise e, with_heap s r.2)
  end.
Proof.
  intros Hd. unfold PolyYaco.merge, bind, gets. rewrite Hd. simpl.
  rewrite on_store_for_each.
  unfold PolyYaco.on_store, PolyYaco.on_world, on_heap. simpl.
  destruct (for_each _ _ _) as [[[]|e] h'] eqn:E; reflexivity.
Qed.

(** The cached object is handed out while the flag is clear. *)
Lemma merge_clean fuel s :
  _PolyYaco_dirty (this s) = false ->
  PolyYaco.merge fuel s = (Ok (_PolyYaco_merged (this s)), s).
Proof.
  intros Hd. unfold PolyYaco.merge, bind, gets. by rewrite Hd.
Qed.

(** The loop of [merge]: the layers are merged into [y] in turn. *)
Lemma merge_loop_refines fuel :
  forall yacs ts h y td F,
    rep h (VYaco y) (TYaco td) F ->
    Forall2 (fun l t => exists Fl,
               rep h (VYaco (obj l)) t Fl /\ depth t <= fuel /\ F ## Fl)
            yacs ts ->
    exists h' F',
      for_each yacs (fun yy => Yaco.update fuel y (VYaco (obj yy))) h =
        (Ok tt, h') /\
      rep h' (VYaco y) (TYaco (fold_left (fun acc t => tupdate t acc) ts td)) F' /\
      frame h h' F F'.
Proof.
  induction yacs as [|l yacs IH]; intros ts h y td F Hy Hl.
  - apply Forall2_nil_inv_l in Hl as ->.
    exists h, F. split_and!; [done|done|apply frame_refl].
  - apply Forall2_cons_inv_l in Hl as (t & ts' & (Fl & Hrl & Hdl & Hdj) & Hrest & ->).
    pose proof Hrl as Hrl0.
    apply rep_yaco_inv in Hrl0 as (tdl & F0 & -> & _).
    destruct (update_refines fuel h y td F (VYaco (obj l)) (TYaco tdl) Fl
                Hy Hrl eq_refl Hdj Hdl) as (h1 & F1 & Hrun1 & Hrep1 & Hfr1).
    destruct (IH ts' h1 y (tupdate (TYaco tdl) td) F1 Hrep1)
      as (h2 & F2 & Hrun2 & Hrep2 & Hfr2).
    { eapply Forall2_impl; [exact Hrest|].
      intros l' t' (Fl' & Hr' & Hd' & Hdj'). exists Fl'. split_and!.
      - eapply frame_keeps; eauto.
      - done.
      - eapply frame_disjoint; [exact Hfr1|done|].
        intros a Ha. by eapply rep_bound. }
    exists h2, F2. split_and!.
    + rewrite for_each_cons. unfold bind. by rewrite Hrun1.
    + done.
    + by eapply frame_trans.
Qed.

(** [merge] with the flag set: a new object, holding the layers merged
    in ascending precedence; the layers themselves stay as they were. *)
Lemma merge_refines fuel s ts :
  _PolyYaco_dirty (this s) = true ->
  Forall2 (layer_rep fuel (heap (env s))) (_PolyYaco_yacs (this s)) ts ->
  exists h' F',
    PolyYaco.merge fuel s =
      (Ok (Some (List.length (heap (env s)))),
       {| env := set_heap (env s) h';
          this := PolyYaco.set_dirty false
                    (PolyYaco.set_merged (Some (List.length (heap (env s))))
                       (this s)) |}) /\
    rep h' (VYaco (List.length (heap (env s)))) (TYaco (tmerge ts)) F' /\
    frame (heap (env s)) h' ∅ F'.
Proof.
  intros Hd Hl. rewrite (merge_dirty _ _ Hd). cbv zeta.
  set (h := heap (env s)) in *.
  destruct (merge_loop_refines fuel (_PolyYaco_yacs (this s)) ts
              (h ++ [[]]) (List.length h) [] {[List.length h]} (rep_new h))
    as (h' & F' & Hrun & Hrep & Hfr).
  { eapply Forall2_impl; [exact Hl|].
    intros l t (Fl & Hr & Hdp). exists Fl. split_and!; [|done|].
    - eapply frame_keeps; [apply frame_alloc|exact Hr|set_solver].
    - intros a Ha Hb. apply elem_of_singleton in Ha. subst.
      pose proof (rep_bound _ _ _ _ Hr _ Hb). lia. }
  exists h', F'. rewrite Hrun. split_and!; [done|done|].
  eapply frame_trans; [apply frame_alloc|done].
Qed.

Lemma rep_dict_get h d td F k t :
  rep h (VDict d) (TDict td) F -> dict_get k td = Some t ->
  exists v Fv, dict_get k d = Some v /\ rep h v t Fv.
Proof.
  intros Hd Hk. destruct (rep_dict_focus _ _ _ _ k Hd) as (Fv & Fr & _ & _ & Hget & _).
  destruct (dict_get k d) as [v|].
  - destruct Hget as (t' & Ht' & Hv). exists v, Fv. split; [done|]. congruence.
  - destruct Hget. congruence.
Qed.

Lemma rep_tscalar_inv h v c F : rep h v (TScalar c) F -> v = VScalar c.
Proof. by inversion 1. Qed.

Lemma tupdate_yaco d self : tupdate (TYaco d) self = tupdate (TDict d) self.
Proof. reflexivity. Qed.

Lemma tmerge_snoc ts t : tmerge (ts ++ [t]) = tupdate t (tmerge ts).
Proof. unfold tmerge. by rewrite fold_left_app. Qed.

Lemma layer_rep_NoDup fuel h l td :
  layer_rep fuel h l (TYaco td) -> NoDup (dict_keys td).
Proof.
  intros (Fl & Hr & _).
  apply rep_yaco_inv in Hr as (td' & F0 & [= <-] & _ & _ & _ & Hnd & Hd).
  by rewrite (rep_dict_keys _ _ _ _ Hd).
Qed.

(** ** C1: the merged view follows the precedence of the layers *)

(** C1: with the flag set, [merge] returns a new object that holds the
    fold of [update] over the layers, lowest first.  Under every key of
    the last layer it holds that layer's value -- merged into what the
    lower layers gave when both are mappings -- so a scalar of the last
    layer always wins; a key absent from the last layer keeps what the
    lower layers gave; and a read through the [PolyYaco] returns the
    scalar the merge holds. *)
Theorem C1_layered_precedence fuel s lower top ts ttop :
  _PolyYaco_dirty (this s) = true ->
  _PolyYaco_yacs (this s) = lower ++ [top] ->
  Forall2 (layer_rep fuel (heap (env s))) lower ts ->
  layer_rep fuel (heap (env s)) top (TYaco ttop) ->
  exists y s' F',
    PolyYaco.merge fuel s = (Ok (Some y), s') /\
    rep (heap (env s')) (VYaco y) (TYaco (tmerge (ts ++ [TYaco ttop]))) F' /\
    tmerge (ts ++ [TYaco ttop]) = tupdate (TYaco ttop) (tmerge ts) /\
    (forall k v, dict_get k ttop = Some v ->
       dict_get k (tmerge (ts ++ [TYaco ttop])) =
       Some (tmerged v (dict_get k (tmerge ts)))) /\
    (forall k c, dict_get k ttop = Some (TScalar c) ->
       dict_get k (tmerge (ts ++ [TYaco ttop])) = Some (TScalar c)) /\
    (forall k, dict_get k ttop = None ->
       dict_get k (tmerge (ts ++ [TYaco ttop])) = dict_get k (tmerge ts)) /\
    (forall k c, PolyYaco.reserved k = false ->
       dict_get k (tmerge (ts ++ [TYaco ttop])) = Some (TScalar c) ->
       (PolyYaco.__getattr__ fuel k s).1 = Ok (VScalar c)).
Proof.
  intros Hd Hyacs Hlower Htop.
  assert (Hall : Forall2 (layer_rep fuel (heap (env s)))
                   (_PolyYaco_yacs (this s)) (ts ++ [TYaco ttop])).
  { rewrite Hyacs. apply Forall2_app; [done|]. by constructor. }
  destruct (merge_refines fuel s _ Hd Hall) as (h' & F' & Hrun & Hrep & Hfr).
  pose proof (layer_rep_NoDup _ _ _ _ Htop) as Hnd.
  eexists _, _, F'. split_and!.
  - exact Hrun.
  - exact Hrep.
  - apply tmerge_snoc.
  - intros k v Hk. rewrite tmerge_snoc, tupdate_yaco.
    by apply (tupdate_get k v ttop (tmerge ts) Hnd).
  - intros k c Hk. rewrite tmerge_snoc, tupdate_yaco.
    by rewrite (tupdate_get k _ ttop (tmerge ts) Hnd Hk).
  - intros k Hk. rewrite tmerge_snoc, tupdate_yaco.
    apply (tupdate_get_other k ttop). by apply dict_get_None_keys.
  - intros k c Hres Hk.
    unfold PolyYaco.__getattr__. rewrite Hres. unfold bind. rewrite Hrun.
    apply rep_yaco_inv in Hrep as (td & F0 & [= <-] & _ & _ & _ & _ & Hcell).
    destruct (rep_dict_get _ _ _ _ _ _ Hcell Hk) as (v & Fv & Hv & Hrv).
    apply rep_tscalar_inv in Hrv as ->.
    rewrite on_store_run. simpl.
    by rewrite (getattr_present _ _ _ _ Hv).
Qed.

Lemma C1_layered_precedence_witness :
  let s := {| env := {| heap := [[("a", VInt 1); ("b", VInt 2)]; [("a", VInt 18)]];
                        disk := {| files := ∅; dirs := fun _ => false;
                                   writable := fun _ => true;
                                   packages := fun _ => false;
                                   resources := fun _ _ => None;
                                   resource_dirs := fun _ _ => None |} |};
              this := {| _PolyYaco_base := Some (VDict [("a", VInt 1); ("b", VInt 2)]);
                         _PolyYaco_rawfiles := ["/etc/app.yaml"];
                         _PolyYaco_filenames := ["_base"; "/etc/app.yaml"];
                         _PolyYaco_yacs := [Layer KYaco 0; Layer KYaco 1];
                         _PolyYaco_dirty := true;
                         _PolyYaco_merged := None |} |} in
  let t0 := TYaco [("a", TScalar (SInt 1)); ("b", TScalar (SInt 2))] in
  let ttop : tdict := [("a", TScalar (SInt 18))] in
  _PolyYaco_dirty (this s) = true /\
  _PolyYaco_yacs (this s) = [Layer KYaco 0] ++ [Layer KYaco 1] /\
  Forall2 (layer_rep 2 (heap (env s))) [Layer KYaco 0] [t0] /\
  layer_rep 2 (heap (env s)) (Layer KYaco 1) (TYaco ttop) /\
  dict_get "a" (tmerge ([t0] ++ [TYaco ttop])) = Some (TScalar (SInt 18)) /\
  dict_get "b" (tmerge ([t0] ++ [TYaco ttop])) = Some (TScalar (SInt 2)) /\
  (PolyYaco.__getattr__ 2 "a" s).1 = Ok (VInt 18) /\
  (PolyYaco.__getattr__ 2 "b" s).1 = Ok (VInt 2).
Proof.
  intros s t0 ttop.
  assert (H1 : _PolyYaco_dirty (this s) = true) by reflexivity.
  assert (H2 : _PolyYaco_yacs (this s) = [Layer KYaco 0] ++ [Layer KYaco 1])
    by reflexivity.
  assert (H3 : Forall2 (layer_rep 2 (heap (env s))) [Layer KYaco 0] [t0]).
  { repeat constructor. eexists. split; [|simpl; lia].
    simpl obj. unfold t0. simpl heap. rep_concrete. }
  assert (H4 : layer_rep 2 (heap (env s)) (Layer KYaco 1) (TYaco ttop)).
  { eexists. split; [|simpl; lia].
    simpl obj. unfold ttop. simpl heap. rep_concrete. }
  destruct (C1_layered_precedence 2 s [Layer KYaco 0] (Layer KYaco 1) [t0] ttop
              H1 H2 H3 H4)
    as (y & s' & F' & _ & _ & _ & _ & Hwin & Hfall & Hread).
  assert (Ha : dict_get "a" (tmerge ([t0] ++ [TYaco ttop])) = Some (TScalar (SInt 18)))
    by (by apply Hwin).
  assert (Hb : dict_get "b" (tmerge ([t0] ++ [TYaco ttop])) = Some (TScalar (SInt 2)))
    by (by rewrite Hfall).
  pose proof (Hread "a" (SInt 18) eq_refl Ha) as Hra.
  pose proof (Hread "b" (SInt 2) eq_refl Hb) as Hrb.
  by split_and!.
Defined.

(** The instance named with C1: a [PolyYaco] built over the base
    [{a:1, b:2}] and one file holding [{a:18}]; a source that does not
    exist is listed too. *)
Example C1_instance :
  let w := {| heap := [];
              disk := {| files := {[ "/etc/app.yaml" := VDict [("a", VInt 18)] ]};
                         dirs := fun _ => false;
                         writable := fun _ => true;
                         packages := fun _ => false;
                         resources := fun _ _ => None;
                         resource_dirs := fun _ _ => None |} |} in
  let s := (PolyYaco.__init__ 3 ["/etc/app.yaml"; "/etc/none.yaml"]
              (Some (VDict [("a", VInt 1); ("b", VInt 2)])) w).2 in
  _PolyYaco_filenames (this s) = ["_base"; "/etc/app.yaml"] /\
  ((a <- PolyYaco.__getattr__ 3 "a" ;;
    b <- PolyYaco.__getattr__ 3 "b" ;; ret (a, b)) s).1 =
  Ok (VInt 18, VInt 2).
Proof. split; vm_compute; reflexivity. Qed.

(** ** [soft_update] on an object without sharing *)

Lemma rep_truthy h v t F : rep h v t F -> ttruthy t = truthy h v.
Proof.
  inversion 1; subst; simpl; try done.
  by apply (rep_dict_nonempty h (cell h a) td F0).
Qed.

(** A method that works inside the [Yaco] found under [key] and leaves
    it in place works on [self]. *)
Lemma inplace_refines h h1 self td F key o od od' Fo' :
  rep h (VYaco self) (TYaco td) F ->
  dict_get key (cell h self) = Some (VYaco o) ->
  dict_get key td = Some (TYaco od) ->
  (forall Fo, rep h (VYaco o) (TYaco od) Fo -> frame h h1 Fo Fo') ->
  rep h1 (VYaco o) (TYaco od') Fo' ->
  exists F',
    rep h1 (VYaco self) (TYaco (dict_set key (TYaco od') td)) F' /\
    frame h h1 F F'.
Proof.
  intros Hself Eold Htold Hfr0 Hrep.
  apply rep_yaco_inv in Hself
    as (td0 & F0 & [= <-] & -> & Hnin & Hlt & Hnd & Hd).
  destruct (rep_dict_focus _ _ _ _ key Hd) as (Fo & Fr & -> & Hdjo & Hget & Hset).
  rewrite Eold in Hget. destruct Hget as (told & Htold' & Hold).
  assert (told = TYaco od) as -> by congruence.
  pose proof (Hfr0 _ Hold) as Hfr.
  pose proof Hfr as (Hlen & Hfresh & Hsame).
  assert (Hcell : cell h1 self = cell h self).
  { unfold cell. rewrite Hsame; [done|done|set_solver]. }
  assert (Hbr : forall a, a ∈ Fr -> a < List.length h).
  { intros a Ha. eapply rep_bound; [exact Hd|set_solver]. }
  exists ({[self]} ∪ (Fo' ∪ Fr)). split.
  - apply rep_yaco.
    + lia.
    + by rewrite Hcell.
    + rewrite Hcell.
      rewrite <- (dict_set_same key (VYaco o) (cell h self) Eold).
      apply Hset; [done| |].
      * eapply frame_disjoint; [exact Hfr|done|done].
      * intros a Ha. apply Hsame; [by apply Hbr|set_solver].
    + intros [Ha|Ha]%elem_of_union; [|set_solver].
      destruct (Hfresh _ Ha); [set_solver|lia].
  - split_and!.
    + done.
    + intros a [Ha|[Ha|Ha]%elem_of_union]%elem_of_union.
      * left. set_solver.
      * destruct (Hfresh _ Ha); [left; set_solver|by right].
      * left. set_solver.
    + intros a Ha Hn. apply Hsame; [done|set_solver].
Qed.

Lemma tsoft_cons key value r self :
  tsoft (TDict ((key, value) :: r)) self =
  tsoft (TDict r) (tsoft_step key value self).
Proof. reflexivity. Qed.

Lemma tsoft_items dt self :
  is_tdict dt = true -> tsoft dt self = tsoft (TDict (titems dt)) self.
Proof. by destruct dt. Qed.

Lemma tsoft_step_nonempty key value self :
  nonempty self = true -> nonempty (tsoft_step key value self) = true.
Proof.
  intros H. unfold tsoft_step.
  destruct (is_tdict value), (dict_get key self) as [[| | |[|e od]]|];
    try (by apply nonempty_dict_set);
    by destruct (ttruthy _); [|apply nonempty_dict_set].
Qed.

Lemma tsoft_nonempty dt self :
  nonempty self = true -> nonempty (tsoft dt self) = true.
Proof.
  destruct (is_tdict dt) eqn:E; [|by destruct dt].
  rewrite (tsoft_items _ _ E). generalize (titems dt). intros items. revert self.
  induction items as [|[key value] items IH]; intros self H; [done|].
  rewrite tsoft_cons. apply IH. by apply tsoft_step_nonempty.
Qed.

Lemma rep_tyaco_inv h v td F : rep h v (TYaco td) F -> exists a, v = VYaco a.
Proof. inversion 1; eauto. Qed.

(** A value unfolds in one way only. *)
Lemma rep_functional h v t1 F1 :
  rep h v t1 F1 -> forall t2 F2, rep h v t2 F2 -> t1 = t2 /\ F1 = F2.
Proof.
  induction 1; intros t2 G Hsnd.
  - by apply rep_scalar_inv in Hsnd as [-> ->].
  - by apply rep_list_nil_inv in Hsnd as [-> ->].
  - apply rep_list_cons_inv in Hsnd as (tv & tl' & G1 & G2 & -> & -> & _ & Hv & Hl).
    destruct (IHrep1 _ _ Hv) as [-> ->].
    destruct (IHrep2 _ _ Hl) as [[= ->] ->]. done.
  - by apply rep_dict_nil_inv in Hsnd as [-> ->].
  - apply rep_dict_cons_inv in Hsnd as (tv & td' & G1 & G2 & -> & -> & _ & Hv & Hd).
    destruct (IHrep1 _ _ Hv) as [-> ->].
    destruct (IHrep2 _ _ Hd) as [[= ->] ->]. done.
  - apply rep_yaco_inv in Hsnd as (td' & G0 & -> & -> & _ & _ & _ & Hd).
    destruct (IHrep _ _ Hd) as [[= ->] ->]. done.
Qed.

(** The value found under a key, or [None], and its tree. *)
Lemma rep_old_value h self td F key :
  rep h (VYaco self) (TYaco td) F ->
  exists Fo,
    rep h (default VNone (dict_get key (cell h self)))
          (default (TScalar SNone) (dict_get key td)) Fo /\
    match dict_get key (cell h self) with
    | Some _ => is_Some (dict_get key td)
    | None => dict_get key td = None
    end.
Proof.
  intros Hself.
  apply rep_yaco_inv in Hself as (td0 & F0 & [= <-] & -> & _ & _ & _ & Hd).
  destruct (rep_dict_focus _ _ _ _ key Hd) as (Fo & Fr & _ & _ & Hget & _).
  destruct (dict_get key (cell h self)) as [old|].
  - destruct Hget as (told & -> & Hold). exists Fo. by split.
  - destruct Hget as [-> _]. exists ∅. split; [constructor|done].
Qed.

(** One entry of [data] in [soft_update]. *)
Lemma soft_entry_refines soft upd n :
  refines_soft soft n ->
  refines_update upd n ->
  forall h self td F key value tv Fv,
    rep h (VYaco self) (TYaco td) F ->
    rep h value tv Fv ->
    F ## Fv ->
    depth tv <= n ->
    exists h' F',
      Yaco.soft_update_entry soft upd self (key, value) h = (Ok tt, h') /\
      rep h' (VYaco self) (TYaco (tsoft_step key tv td)) F' /\
      frame h h' F F'.
Proof.
  intros Hsoft Hupd h self td F key value tv Fv Hself Hvalue Hdj Hdepth.
  destruct (entry_store upd n h self td F key value tv Fv Hupd Hself Hvalue Hdepth)
    as (hs & Fs & Hruns & Hreps & Hfrs).
  pose proof (rep_is_dict _ _ _ _ Hvalue) as Hisd.
  destruct (rep_old_value h self td F key Hself) as (Fo & Hold & Hshape).
  pose proof (rep_truthy _ _ _ _ Hold) as Htruthy.
  assert (Hstore : forall hx,
    is_dict value = true ->
    (v <- Yaco.construct upd value ;; Yaco.dict_setitem self key v) hx =
    (v <- Yaco.parse_item (Yaco.construct upd) value ;;
     Yaco.dict_setitem self key v) hx).
  { intros hx Hv. by destruct value. }
  unfold Yaco.soft_update_entry, Yaco.old_value, gets, bind. simpl.
  unfold bind in Hstore, Hruns.
  remember (default VNone (dict_get key (cell h self))) as old eqn:Eold_def.
  remember (default (TScalar SNone) (dict_get key td)) as told eqn:Etold_def.
  (* the merge into a non-empty [Yaco] already there *)
  assert (Hcase :
    (is_dict value = true /\ exists o, old = VYaco o /\ truthy h old = true) \/
    ~ (is_dict value = true /\ exists o, old = VYaco o /\ truthy h old = true)).
  { destruct (is_dict value); [|right; by intros [? _]].
    destruct old as [c|l|d|o]; try (right; by intros (_ & o' & ? & _)).
    destruct (truthy h (VYaco o)) eqn:Etr; [left; by eauto|].
    right. by intros (_ & o' & _ & ?). }
  destruct Hcase as [(Edict & o & Eo & Etr)|Hnot].
  - rewrite Edict, Eo. rewrite <- Eo, Etr.
    assert (Eold : dict_get key (cell h self) = Some (VYaco o)).
    { rewrite Eo in Eold_def.
      destruct (dict_get key (cell h self)); simpl in Eold_def; congruence. }
    rewrite Eo in Hold. pose proof Hold as Hold0.
    apply rep_yaco_inv in Hold0 as (od & Fo0 & Etold & -> & _ & _ & _ & Hod).
    assert (Htold : dict_get key td = Some (TYaco od)).
    { rewrite Eold in Hshape. destruct Hshape as [x Hx].
      rewrite Hx in Etold_def |- *. simpl in Etold_def. congruence. }
    assert (Hne : nonempty od = true).
    { rewrite <- Etr, Eo. simpl. apply (rep_dict_nonempty _ _ _ _ Hod). }
    destruct od as [|e od]; [done|].
    assert (Hold' : rep h (VYaco o) (TYaco (e :: od)) ({[o]} ∪ Fo0))
      by (by rewrite <- Etold).
    assert (Hsub : {[o]} ∪ Fo0 ⊆ F).
    { apply rep_yaco_inv in Hself as (td0 & F0 & [= <-] & -> & _ & _ & _ & Hd).
      destruct (rep_dict_focus _ _ _ _ key Hd) as (Fx & Fr & -> & _ & Hget & _).
      rewrite Eold in Hget. destruct Hget as (tx & _ & Hx).
      destruct (rep_functional _ _ _ _ Hx _ _ Hold') as [_ ->]. set_solver. }
    destruct (Hsoft h o (e :: od) ({[o]} ∪ Fo0) value tv Fv Hold' Hvalue)
      as (h1 & Fo' & Hrun & Hrep & Hfr); [by rewrite Hisd|set_solver|done|].
    rewrite Hrun.
    assert (Hstill : truthy h1 (VYaco o) = true).
    { rewrite <- (rep_truthy _ _ _ _ Hrep). simpl. by apply tsoft_nonempty. }
    rewrite Eo, Hstill.
    destruct (inplace_refines h h1 self td F key o (e :: od)
                (tsoft tv (e :: od)) Fo' Hself Eold Htold) as (F' & Hr' & Hf');
      [|done|].
    { intros Fx Hx. destruct (rep_functional _ _ _ _ Hx _ _ Hold') as [_ ->].
      exact Hfr. }
    exists h1, F'. split_and!; [done| |done].
    unfold tsoft_step. by rewrite Hisd, Edict, Htold.
  - (* nothing merged: the entry is dropped or stored *)
    assert (Hstep : tsoft_step key tv td =
                    if truthy h old then td else dict_set key (tparse tv) td).
    { unfold tsoft_step. rewrite Hisd, <- Htruthy, Etold_def.
      destruct (is_dict value) eqn:Edict; [|done].
      destruct (dict_get key td) as [[| | |[|e od]]|] eqn:Etd; try done.
      exfalso. apply Hnot. split; [done|].
      assert (Ht : told = TYaco (e :: od)) by (rewrite Etold_def; try rewrite Etd; done).
      rewrite Ht in Hold, Htruthy.
      destruct (rep_tyaco_inv _ _ _ _ Hold) as [a Ha].
      exists a. split; [done|]. by rewrite <- Htruthy. }
    rewrite Hstep.
    assert (Hskip : truthy h old = true ->
      exists h' F', (Ok (), h) = (Ok tt, h') /\
                    rep h' (VYaco self) (TYaco td) F' /\ frame h h' F F').
    { intros _. exists h, F. split_and!; [done|done|apply frame_refl]. }
    destruct (is_dict value) eqn:Edict.
    + assert (Hfirst :
        (match old with
         | VYaco o => if truthy h old then soft o value else ret tt
         | _ => ret tt
         end) h = (Ok tt, h)).
      { destruct old as [| | |o] eqn:Eo; try done.
        destruct (truthy h (VYaco o)) eqn:Etr; [|done].
        exfalso. apply Hnot. split; [done|]. by exists o. }
      rewrite Hfirst.
      destruct (truthy h old) eqn:Etr; [by apply Hskip|].
      rewrite Hstore by done. eauto.
    + destruct value as [c|l|d|a]; try done.
      * destruct (truthy h old) eqn:Etr; [by apply Hskip|]. eauto.
      * destruct (truthy h old) eqn:Etr; [by apply Hskip|].
        exists hs, Fs. split_and!; [|done|done].
        rewrite <- Hruns. simpl. unfold bind, Yaco.list_parser_with.
        destruct (map_each l (Yaco.parse_item (Yaco.construct upd)) h)
          as [[l'|e] h1]; reflexivity.
Qed.

Lemma soft_loop_refines soft upd n :
  refines_soft soft n ->
  refines_update upd n ->
  forall items titems Fd h self td F,
    rep h (VYaco self) (TYaco td) F ->
    rep h (VDict items) (TDict titems) Fd ->
    F ## Fd ->
    Forall (fun kv => depth kv.2 <= n) titems ->
    exists h' F',
      for_each items (Yaco.soft_update_entry soft upd self) h = (Ok tt, h') /\
      rep h' (VYaco self) (TYaco (tsoft (TDict titems) td)) F' /\
      frame h h' F F'.
Proof.
  intros Hsoft Hupd. induction items as [|[key value] items IH];
    intros titems Fd h self td F Hself Hitems Hdj Hdepth.
  - apply rep_dict_nil_inv in Hitems as [[= ->] ->].
    exists h, F. split_and!; [done|done|apply frame_refl].
  - apply rep_dict_cons_inv in Hitems
      as (tv & titems' & F1 & F2 & [= ->] & -> & Hdj12 & Hvalue & Hitems).
    apply Forall_cons in Hdepth as [Hdv Hdr]. simpl in Hdv.
    destruct (soft_entry_refines soft upd n Hsoft Hupd h self td F key value tv F1
                Hself Hvalue ltac:(set_solver) Hdv)
      as (h1 & G1 & Hrun1 & Hrep1 & Hfr1).
    assert (Hitems1 : rep h1 (VDict items) (TDict titems') F2).
    { eapply frame_keeps; [exact Hfr1|exact Hitems|set_solver]. }
    assert (Hdj1 : G1 ## F2).
    { eapply frame_disjoint; [exact Hfr1|set_solver|].
      intros a Ha. by eapply rep_bound. }
    destruct (IH _ _ _ _ _ _ Hrep1 Hitems1 Hdj1 Hdr)
      as (h2 & G2 & Hrun2 & Hrep2 & Hfr2).
    exists h2, G2. split_and!.
    + rewrite for_each_cons. unfold bind. by rewrite Hrun1.
    + by rewrite tsoft_cons.
    + by eapply frame_trans.
Qed.

(** [soft_update] fills an object without sharing as [tsoft] fills
    the trees, and returns normally once the fuel covers the nesting of
    [data]. *)
Lemma soft_update_refines fuel : refines_soft (Yaco.soft_update fuel) fuel.
Proof.
  induction fuel as [|f IH];
    intros h self td F data dt Fd Hself Hdata Hdict Hdj Hdepth.
  - pose proof (depth_dict_pos _ Hdict). lia.
  - simpl. unfold bind, gets.
    assert (Hitems : exists items Fi,
      Yaco.items_of data h = (Ok items, h) /\
      truthy h data = nonempty items /\
      rep h (VDict items) (TDict (titems dt)) Fi /\ Fi ⊆ Fd).
    { destruct data as [c|l|d|a].
      - apply rep_scalar_inv in Hdata as [-> _]. done.
      - apply rep_list_shape in Hdata as [tl ->]. done.
      - destruct (rep_dict_shape _ _ _ _ Hdata) as [tdd ->].
        exists d, Fd. by split_and!.
      - apply rep_yaco_inv in Hdata as (tdd & F0 & -> & -> & _ & _ & _ & Hd).
        exists (cell h a), F0. split_and!; [done|done|done|set_solver]. }
    destruct Hitems as (items & Fi & Hio & Htr & Hri & Hsub).
    rewrite Htr. destruct items as [|kv items]; simpl.
    + exists h, F. split_and!; [done| |apply frame_refl].
      apply rep_dict_nil_inv in Hri as [[= Hti] _].
      by rewrite (tsoft_items _ _ Hdict), Hti.
    + rewrite Hio.
      destruct (soft_loop_refines _ _ f IH (update_refines f)
                  (kv :: items) (titems dt) Fi h self td F
                  Hself Hri ltac:(set_solver) (depth_items _ _ Hdict Hdepth))
        as (h' & F' & Hrun & Hrep & Hfr).
      exists h', F'. split_and!; [done| |done].
      by rewrite (tsoft_items _ _ Hdict).
Qed.

(** ** What [tsoft] leaves under each key *)

Lemma tsoft_step_get_ne k key value self :
  key <> k -> dict_get k (tsoft_step key value self) = dict_get k self.
Proof.
  intros Hne. unfold tsoft_step.
  destruct (is_tdict value), (dict_get key self) as [[| | |[|e od]]|];
    try (by rewrite dict_get_set_ne);
    by destruct (ttruthy _); [|rewrite dict_get_set_ne].
Qed.

Lemma tsoft_step_get_eq key value self :
  dict_get key (tsoft_step key value self) = tsofted value (dict_get key self).
Proof.
  unfold tsoft_step, tsofted.
  destruct (is_tdict value), (dict_get key self) as [[| | |[|e od]]|] eqn:E;
    try (by rewrite dict_get_set_eq);
    by destruct (ttruthy _); [|rewrite dict_get_set_eq].
Qed.

Lemma tsoft_get_other k items self :
  k ∉ dict_keys items ->
  dict_get k (tsoft (TDict items) self) = dict_get k self.
Proof.
  revert self. induction items as [|[key value] items IH]; intros self Hk.
  - done.
  - simpl in Hk. apply not_elem_of_cons in Hk as [Hne Hk].
    rewrite tsoft_cons, IH by done. by apply tsoft_step_get_ne.
Qed.

Lemma tsoft_get k v items self :
  NoDup (dict_keys items) ->
  dict_get k items = Some v ->
  dict_get k (tsoft (TDict items) self) = tsofted v (dict_get k self).
Proof.
  revert self. induction items as [|[key value] items IH]; intros self Hnd Hk.
  - done.
  - simpl in Hnd. apply NoDup_cons in Hnd as [Hnin Hnd].
    rewrite tsoft_cons. simpl in Hk.
    destruct (String.eqb k key) eqn:E.
    + apply String.eqb_eq in E. subst key. injection Hk as ->.
      rewrite tsoft_get_other by done. apply tsoft_step_get_eq.
    + apply String.eqb_neq in E.
      rewrite IH by done. by rewrite tsoft_step_get_ne.
Qed.

(** ** C4: [soft_update] never overwrites a truthy value *)

(** C4: after [soft_update(other)], a key of [other] under which the
    object held a truthy value keeps that value, unless both sides are
    mappings; a key that was absent or held a falsy value takes the
    value of [other] (a list parsed, a mapping turned into a [Yaco]);
    where the object held a non-empty [Yaco] and [other] gives a
    mapping, the [Yaco] is filled recursively by [soft_update]; keys
    absent from [other] keep what they had.  The call returns
    normally. *)
Theorem C4_soft_update_keeps_truthy fuel h self td F other tother Fo :
  rep h (VYaco self) (TYaco td) F ->
  rep h other tother Fo ->
  is_tdict tother = true ->
  F ## Fo ->
  depth tother <= fuel ->
  NoDup (dict_keys (titems tother)) ->
  exists h' F' td',
    Yaco.soft_update fuel self other h = (Ok tt, h') /\
    rep h' (VYaco self) (TYaco td') F' /\
    (forall k told v,
       dict_get k td = Some told -> ttruthy told = true ->
       dict_get k (titems tother) = Some v ->
       is_tdict v = false \/ (forall od, told <> TYaco od) ->
       dict_get k td' = Some told) /\
    (forall k v,
       dict_get k (titems tother) = Some v ->
       ttruthy (default (TScalar SNone) (dict_get k td)) = false ->
       dict_get k td' = Some (tparse v)) /\
    (forall k v od,
       dict_get k (titems tother) = Some v -> is_tdict v = true ->
       dict_get k td = Some (TYaco od) -> nonempty od = true ->
       dict_get k td' = Some (TYaco (tsoft v od))) /\
    (forall k, dict_get k (titems tother) = None ->
               dict_get k td' = dict_get k td).
Proof.
  intros Hself Hother Hdict Hdj Hdepth Hnd.
  destruct (soft_update_refines fuel h self td F other tother Fo
              Hself Hother Hdict Hdj Hdepth) as (h' & F' & Hrun & Hrep & _).
  exists h', F', (tsoft tother td). split_and!; [done|done| | | |].
  - intros k told v Hold Htr Hk Hcase.
    rewrite (tsoft_items _ _ Hdict), (tsoft_get k v _ _ Hnd Hk), Hold.
    unfold tsofted. simpl. rewrite Htr.
    destruct Hcase as [->|Hny]; [done|].
    destruct (is_tdict v); [|done].
    destruct told as [| | |[|e od]]; try done. by destruct (Hny (e :: od)).
  - intros k v Hk Hfalsy.
    rewrite (tsoft_items _ _ Hdict), (tsoft_get k v _ _ Hnd Hk).
    unfold tsofted. rewrite Hfalsy.
    destruct (is_tdict v); [|done].
    by destruct (dict_get k td) as [[| | |[|e od]]|].
  - intros k v od Hk Hv Hold Hne.
    rewrite (tsoft_items _ _ Hdict), (tsoft_get k v _ _ Hnd Hk), Hold.
    unfold tsofted. rewrite Hv. by destruct od.
  - intros k Hk. rewrite (tsoft_items _ _ Hdict).
    apply tsoft_get_other. by apply dict_get_None_keys.
Qed.

Lemma C4_soft_update_keeps_truthy_witness :
  let h : store := [[("d", VYaco 1); ("a", VInt 1)]; [("e", VInt 72)]] in
  let td : tdict := [("d", TYaco [("e", TScalar (SInt 72))]); ("a", TScalar (SInt 1))] in
  let F : gset addr := {[0]} ∪ (({[1]} ∪ (∅ ∪ ∅)) ∪ (∅ ∪ ∅)) in
  let other := VDict [("a", VInt 2);
                      ("d", VDict [("e", VInt 73); ("f", VInt 18)])] in
  rep h (VYaco 0) (TYaco td) F /\
  rep h other (tree_of other) ∅ /\
  is_tdict (tree_of other) = true /\
  F ## ∅ /\
  depth (tree_of other) <= 2 /\
  NoDup (dict_keys (titems (tree_of other))) /\
  exists h' F' td',
    Yaco.soft_update 2 0 other h = (Ok tt, h') /\
    rep h' (VYaco 0) (TYaco td') F' /\
    dict_get "a" td' = Some (TScalar (SInt 1)) /\
    dict_get "d" td' =
      Some (TYaco [("e", TScalar (SInt 72)); ("f", TScalar (SInt 18))]).
Proof.
  intros h td F other.
  assert (H1 : rep h (VYaco 0) (TYaco td) F) by (unfold h, td, F; rep_concrete).
  assert (H2 : rep h other (tree_of other) ∅) by (by apply rep_plain).
  assert (H3 : is_tdict (tree_of other) = true) by reflexivity.
  assert (H4 : F ## ∅) by set_solver.
  assert (H5 : depth (tree_of other) <= 2) by (vm_compute; lia).
  assert (H6 : NoDup (dict_keys (titems (tree_of other))))
    by (vm_compute; repeat constructor; set_solver).
  split_and!; try done.
  destruct (C4_soft_update_keeps_truthy 2 h 0 td F other (tree_of other) ∅
              H1 H2 H3 H4 H5 H6)
    as (h' & F' & td' & Hrun & Hrep & Hkeep & _ & Hfill & _).
  exists h', F', td'. split_and!; [done|done| |].
  - apply (Hkeep "a" (TScalar (SInt 1)) (TScalar (SInt 2))); by auto.
  - by rewrite (Hfill "d" (TDict [("e", TScalar (SInt 73)); ("f", TScalar (SInt 18))])
                  [("e", TScalar (SInt 72))]).
Defined.

(** The instances named with C4, and the one of the docstring of
    [soft_update]. *)
Example C4_instances :
  (a <- Yaco.__init__ 3 (VDict [("a", VInt 1)]) ;;
   Yaco.soft_update 3 a (VDict [("a", VInt 2)]) ;;;
   Yaco.get_data 3 a) [] =
  (Ok [("a", VInt 1)], [[("a", VInt 1)]]) /\
  (a <- Yaco.__init__ 3 (VDict [("d", VDict [("e", VInt 72)])]) ;;
   Yaco.soft_update 3 a (VDict [("d", VDict [("e", VInt 73); ("f", VInt 18)])]) ;;;
   Yaco.get_data 3 a) [] =
  (Ok [("d", VDict [("e", VInt 72); ("f", VInt 18)])],
   [[("d", VYaco 1)]; [("e", VInt 72); ("f", VInt 18)]]) /\
  ((a <- Yaco.__init__ 3
          (VDict [("a", VList [VInt 1; VInt 2; VInt 3; VDict [("b", VInt 12)]]);
                  ("d", VDict [("e", VInt 72)])]) ;;
    Yaco.soft_update 3 a
      (VDict [("a", VList [VInt 2; VInt 3; VInt 4; VDict [("b", VInt 12)]]);
              ("d", VDict [("e", VInt 73); ("f", VInt 18)]);
              ("c", VInt 18)]) ;;;
    Yaco.get_data 3 a) []).1 =
  Ok [("a", VList [VInt 1; VInt 2; VInt 3; VDict [("b", VInt 12)]]);
      ("d", VDict [("e", VInt 72); ("f", VInt 18)]);
      ("c", VInt 18)].
Proof. split_and!; reflexivity. Qed.

(** ** [get_data] on an object without sharing *)

Lemma texport_yaco d :
  texport (TYaco d) = VDict (fold_left (texport_step (tpriv d)) d []).
Proof.
  reflexivity.
Qed.

Lemma fold_each_cons {S A B} (x : A) (r : list A) (init : B)
  (body : B -> A -> M S B) :
  fold_each (x :: r) init body =
  bind (body init x) (fun acc => fold_each r acc body).
Proof. reflexivity. Qed.

Lemma dict_has_keys {V W} k (d : list (string * V)) (d' : list (string * W)) :
  dict_keys d = dict_keys d' -> dict_has k d = dict_has k d'.
Proof.
  intros Hk. unfold dict_has.
  destruct (dict_get k d) eqn:E, (dict_get k d') eqn:E'; try done.
  - apply dict_get_Some_keys in E. apply dict_get_None_keys in E'.
    rewrite Hk in E. done.
  - apply dict_get_Some_keys in E'. apply dict_get_None_keys in E.
    rewrite Hk in E. done.
Qed.

Lemma key_in_refines h pv tp Fp k :
  rep h pv tp Fp -> iterable tp = true ->
  Yaco.key_in k pv h = (Ok (tkey_in k tp), h).
Proof.
  intros Hr Hit. destruct pv as [c|l|d|a].
  - apply rep_scalar_inv in Hr as [-> _]. by destruct c.
  - destruct (rep_list_shape _ _ _ _ Hr) as [tl ->]. simpl. unfold ret.
    do 2 f_equal. clear Hit. revert tl Fp Hr.
    induction l as [|x l IH]; intros tl Fp Hr.
    + by apply rep_list_nil_inv in Hr as [[= ->] _].
    + apply rep_list_cons_inv in Hr
        as (tx & tl' & F1 & F2 & [= ->] & _ & _ & Hx & Hl).
      simpl. rewrite (IH _ _ Hl). f_equal.
      inversion Hx; subst; try done.
  - destruct (rep_dict_shape _ _ _ _ Hr) as [td ->]. simpl. unfold ret.
    do 2 f_equal. apply dict_has_keys. symmetry. by eapply rep_dict_keys.
  - apply rep_yaco_inv in Hr as (td & F0 & -> & _ & _ & _ & _ & Hd).
    simpl. unfold gets. do 2 f_equal. apply dict_has_keys. symmetry.
    by eapply rep_dict_keys.
Qed.

(** The exclusion list read from the store. *)
Lemma rep_private h self td F :
  rep h (VYaco self) (TYaco td) F ->
  exists Fp,
    rep h (default (VList []) (dict_get "_private" (cell h self))) (tpriv td) Fp.
Proof.
  intros Hself.
  apply rep_yaco_inv in Hself as (td0 & F0 & [= <-] & _ & _ & _ & _ & Hd).
  destruct (rep_dict_focus _ _ _ _ "_private" Hd) as (Fo & Fr & _ & _ & Hget & _).
  unfold tpriv. destruct (dict_get "_private" (cell h self)) as [old|].
  - destruct Hget as (told & -> & Hold). by exists Fo.
  - destruct Hget as [-> _]. exists ∅. constructor.
Qed.

(** [check_data] on the elements of a list. *)
Lemma check_elements gd m h :
  (forall v t Fv,
     rep h v t Fv -> exportable t = true -> depth t <= m ->
     Yaco.check_data_with gd v h = (Ok (texport t), h)) ->
  forall l tl Fl,
    rep h (VList l) (TList tl) Fl ->
    forallb exportable tl = true ->
    Forall (fun x => depth x <= m) tl ->
    map_each l (Yaco.check_data_with gd) h = (Ok (map texport tl), h).
Proof.
  intros Hitem. induction l as [|x l IH]; intros tl Fl Hl Hex Hdepth.
  - by apply rep_list_nil_inv in Hl as [[= ->] _].
  - apply rep_list_cons_inv in Hl
      as (tx & tl' & F1 & F2 & [= ->] & _ & _ & Hx & Hl).
    apply Forall_cons in Hdepth as [Hdx Hdl].
    simpl in Hex. apply andb_prop in Hex as [Hex1 Hex2].
    rewrite map_each_cons. unfold bind.
    rewrite (Hitem _ _ _ Hx Hex1 Hdx).
    fold (@map_each store value value). by rewrite (IH _ _ Hl Hex2 Hdl).
Qed.

Lemma check_data_refines gd n :
  refines_get_data gd n ->
  forall m, m <= n ->
  forall h v t Fv,
    rep h v t Fv -> exportable t = true -> depth t <= m ->
    Yaco.check_data_with gd v h = (Ok (texport t), h).
Proof.
  intros Hgd. induction m as [|m IH]; intros Hm h v t Fv Hrep Hex Hdepth.
  - destruct v as [c|l|d|a].
    + by apply rep_scalar_inv in Hrep as [-> _].
    + apply rep_list_shape in Hrep as [tl ->]. simpl in Hdepth. lia.
    + destruct (rep_dict_shape _ _ _ _ Hrep) as [td ->]. done.
    + apply rep_yaco_inv in Hrep as (td & F0 & -> & _). simpl in Hdepth. lia.
  - destruct v as [c|l|d|a].
    + by apply rep_scalar_inv in Hrep as [-> _].
    + destruct (rep_list_shape _ _ _ _ Hrep) as [tl ->].
      apply depth_list in Hdepth. simpl in Hex. simpl. unfold bind.
      rewrite (check_elements gd m h
                 (fun v t Fv Hr He Hd => IH ltac:(lia) h v t Fv Hr He Hd)
                 _ _ _ Hrep Hex Hdepth).
      done.
    + destruct (rep_dict_shape _ _ _ _ Hrep) as [td ->]. done.
    + destruct (Hgd h a t Fv Hrep Hex ltac:(lia)) as (d & Hrun & Hd).
      simpl. unfold bind. by rewrite Hrun, Hd.
Qed.

Lemma dict_get_entries {V} (d : list (string * V)) :
  NoDup (dict_keys d) -> Forall (fun kv => dict_get kv.1 d = Some kv.2) d.
Proof.
  induction d as [|[k v] d IH]; intros Hnd; [constructor|].
  simpl in Hnd. apply NoDup_cons in Hnd as [Hnin Hnd]. constructor.
  - simpl. by rewrite String.eqb_refl.
  - eapply Forall_impl; [by apply IH|]. intros [k' v'] Hk'. simpl in *.
    destruct (String.eqb k' k) eqn:E; [|done].
    apply String.eqb_eq in E. subst k'.
    apply dict_get_Some_keys in Hk'. done.
Qed.

Lemma get_data_unfold f self :
  Yaco.get_data (S f) self =
  (_priv <- gets (fun h =>
               default (VList []) (dict_get "_private" (cell h self))) ;;
   keys <- gets (fun h => dict_keys (cell h self)) ;;
   fold_each keys [] (get_data_entry (Yaco.get_data f) self _priv)).
Proof. reflexivity. Qed.

Lemma get_data_loop gd f h self pv tp Fp :
  refines_get_data gd f ->
  rep h pv tp Fp -> iterable tp = true ->
  forall entries tentries Fe data,
    rep h (VDict entries) (TDict tentries) Fe ->
    Forall (fun kv => dict_get kv.1 (cell h self) = Some kv.2) entries ->
    forallb (fun kv =>
               tkey_in kv.1 tp || Yaco.is_private kv.1 ||
               (negb (has_dot kv.1) && exportable kv.2)) tentries = true ->
    Forall (fun kv => depth kv.2 <= f) tentries ->
    fold_each (dict_keys entries) data (get_data_entry gd self pv) h =
    (Ok (fold_left (texport_step tp) tentries data), h).
Proof.
  intros Hgd Hpv Hit. induction entries as [|[k v] entries IH];
    intros tentries Fe data Hrep Hcell Hex Hdepth.
  - by apply rep_dict_nil_inv in Hrep as [[= ->] _].
  - apply rep_dict_cons_inv in Hrep
      as (tv & tentries' & F1 & F2 & [= ->] & _ & _ & Hv & Hrest).
    apply Forall_cons in Hcell as [Hk Hcell]. simpl in Hk.
    apply Forall_cons in Hdepth as [Hdv Hdepth]. simpl in Hdv.
    simpl in Hex. apply andb_prop in Hex as [Hexk Hex].
    simpl dict_keys. rewrite fold_each_cons. unfold bind.
    assert (Hstep : get_data_entry gd self pv data k h =
                    (Ok (texport_step tp data (k, tv)), h)).
    { unfold get_data_entry, bind, texport_step. simpl.
      rewrite (key_in_refines _ _ _ _ k Hpv Hit).
      destruct (tkey_in k tp); [done|].
      destruct (Yaco.is_private k); [done|]. simpl in Hexk.
      apply andb_prop in Hexk as [Hdot Hexv].
      apply negb_true_iff in Hdot.
      rewrite (getitem_nodot _ _ Hdot), (getattr_present _ _ _ _ Hk).
      by rewrite (check_data_refines gd f Hgd f (le_n _) h v tv F1 Hv Hexv Hdv). }
    rewrite Hstep. simpl.
    by apply (IH tentries' F2).
Qed.

(** [get_data] returns the export of the tree and leaves the store as
    it was, once the fuel covers the nesting of the object. *)
Lemma get_data_refines fuel : refines_get_data (Yaco.get_data fuel) fuel.
Proof.
  induction fuel as [|f IH]; intros h self t F Hself Hex Hdepth.
  - apply rep_yaco_inv in Hself as (td & F0 & -> & _). simpl in Hdepth. lia.
  - pose proof Hself as Hself0.
    apply rep_yaco_inv in Hself0 as (td & F0 & -> & _ & _ & _ & Hnd & Hd).
    destruct (rep_private _ _ _ _ Hself) as (Fp & Hpv).
    simpl in Hex. apply andb_prop in Hex as [Hit Hex].
    eexists. split; [|by rewrite texport_yaco].
    rewrite get_data_unfold. unfold bind, gets.
    apply (get_data_loop _ f h self _ (tpriv td) Fp IH Hpv Hit
             (cell h self) td F0 [] Hd (dict_get_entries _ Hnd) Hex).
    by apply (depth_items (TYaco td) f eq_refl).
Qed.

(** ** The export holds no [Yaco] and no private key *)

Lemma forallb_dict_set {V} (P : string * V -> bool) k v d :
  P (k, v) = true -> forallb P d = true -> forallb P (dict_set k v d) = true.
Proof.
  intros Hv. induction d as [|[k' v'] d IH]; simpl.
  - by rewrite Hv.
  - intros [H1 H2]%andb_prop. destruct (String.eqb k k') eqn:E; simpl.
    + apply String.eqb_eq in E. subst k'. by rewrite Hv, H2.
    + by rewrite H1, IH.
Qed.

Lemma rep_tnodup h v t F : rep h v t F -> tnodup t = true.
Proof.
  induction 1; simpl in *; try done.
  - by rewrite IHrep1, IHrep2.
  - by rewrite IHrep1, IHrep2.
  - rewrite IHrep, andb_true_r. apply bool_decide_eq_true.
    by rewrite (rep_dict_keys _ _ _ _ H1).
Qed.

Lemma texport_plain t : plain (texport t) = true.
Proof.
  remember (depth t) as n eqn:Hn. assert (Hd : depth t <= n) by lia.
  clear Hn. revert t Hd. induction n as [|n IH]; intros t Hd.
  - destruct t; simpl in Hd; try lia. done.
  - destruct t as [c|l|d|d].
    + done.
    + apply depth_list in Hd. simpl.
      induction Hd as [|x l Hx Hl IHl]; [done|]. simpl. by rewrite IH, IHl.
    + done.
    + pose proof (depth_items (TYaco d) n eq_refl Hd) as Hf. simpl in Hf.
      clear Hd. rewrite texport_yaco. simpl.
      generalize (tpriv d). intros priv.
      assert (Hinit : forallb (fun kv : string * value => plain kv.2) [] = true)
        by done.
      revert Hinit. generalize (@nil (string * value)).
      induction Hf as [|kv r Hkv Hr IHr]; intros data Hdata; [exact Hdata|].
      simpl. apply IHr. unfold texport_step.
      destruct (tkey_in kv.1 priv); [exact Hdata|].
      destruct (Yaco.is_private kv.1); [exact Hdata|].
      apply forallb_dict_set; [|exact Hdata]. simpl. by apply IH.
Qed.

Lemma texport_stripped t :
  exportable t = true -> tnodup t = true -> stripped (texport t) t = true.
Proof.
  remember (depth t) as n eqn:Hn. assert (Hd : depth t <= n) by lia.
  clear Hn. revert t Hd. induction n as [|n IH]; intros t Hd Hex Hnd.
  - destruct t; simpl in Hd; try lia. done.
  - destruct t as [c|l|d|d].
    + done.
    + apply depth_list in Hd. simpl in *.
      induction Hd as [|x l Hx Hl IHl]; [done|]. simpl in *.
      apply andb_prop in Hex as [Hex1 Hex2].
      apply andb_prop in Hnd as [Hnd1 Hnd2].
      by rewrite IH, IHl.
    + done.
    + pose proof (depth_items (TYaco d) n eq_refl Hd) as Hf. simpl in Hf.
      clear Hd. simpl in Hex. apply andb_prop in Hex as [_ Hex].
      simpl in Hnd. apply andb_prop in Hnd as [Hndk Hndv].
      apply bool_decide_eq_true in Hndk.
      pose proof (dict_get_entries d Hndk) as Hentries.
      rewrite texport_yaco.
      change (forallb (fun kv : string * value =>
                negb (Yaco.is_private kv.1) && negb (tkey_in kv.1 (tpriv d)) &&
                match dict_get kv.1 d with
                | Some tv => stripped kv.2 tv
                | None => false
                end) (fold_left (texport_step (tpriv d)) d []) = true).
      set (Q := fun kv : string * value =>
                negb (Yaco.is_private kv.1) && negb (tkey_in kv.1 (tpriv d)) &&
                match dict_get kv.1 d with
                | Some tv => stripped kv.2 tv
                | None => false
                end).
      assert (Haux : forall entries data,
        Forall (fun kv => depth kv.2 <= n) entries ->
        forallb (fun kv =>
                   tkey_in kv.1 (tpriv d) || Yaco.is_private kv.1 ||
                   (negb (has_dot kv.1) && exportable kv.2)) entries = true ->
        forallb (fun kv => tnodup kv.2) entries = true ->
        Forall (fun kv => dict_get kv.1 d = Some kv.2) entries ->
        forallb Q data = true ->
        forallb Q (fold_left (texport_step (tpriv d)) entries data) = true).
      { induction entries as [|kv r IHr];
          intros data Hfr Hexr Hndr Her Hdata; [exact Hdata|].
        apply Forall_cons in Hfr as [Hkv Hfr].
        simpl in Hexr. apply andb_prop in Hexr as [Hexk Hexr].
        simpl in Hndr. apply andb_prop in Hndr as [Hndv1 Hndr].
        apply Forall_cons in Her as [Hk Her].
        simpl. apply IHr; try done. unfold texport_step.
        destruct (tkey_in kv.1 (tpriv d)) eqn:Ein; [exact Hdata|].
        destruct (Yaco.is_private kv.1) eqn:Epr; [exact Hdata|].
        simpl in Hexk. apply andb_prop in Hexk as [_ Hexv].
        apply forallb_dict_set; [|exact Hdata]. unfold Q. simpl.
        rewrite Epr, Ein, Hk. simpl. by apply IH. }
      by apply Haux.
Qed.

(** ** C5: the export strips private data and holds no [Yaco] *)

(** C5 (as amended): for an object that [get_data] goes through --
    every mapping in it is a [Yaco], every exclusion list ([_private])
    can be searched, and no exported key holds a dot -- [get_data]
    returns the export of the object and leaves the store as it was;
    the export holds no [Yaco] at any depth, lists included, and at
    every depth only keys that neither start with [_] nor are named in
    the exclusion list of the object they come from. *)
Theorem C5_export_strips_private fuel h self t F :
  rep h (VYaco self) t F ->
  exportable t = true ->
  depth t <= fuel ->
  exists d,
    Yaco.get_data fuel self h = (Ok d, h) /\
    VDict d = texport t /\
    plain (VDict d) = true /\
    stripped (VDict d) t = true.
Proof.
  intros Hself Hex Hdepth.
  destruct (get_data_refines fuel h self t F Hself Hex Hdepth) as (d & Hrun & Hd).
  exists d. split_and!; [done|done| |].
  - rewrite Hd. apply texport_plain.
  - rewrite Hd. apply texport_stripped; [done|]. by eapply rep_tnodup.
Qed.

Lemma C5_export_strips_private_witness :
  let h : store :=
    [[("a", VInt 1); ("_c", VInt 3); ("b", VInt 2);
      ("_private", VList [VStr "b"]); ("sub", VYaco 1);
      ("lst", VList [VYaco 2; VInt 7])];
     [("x", VInt 1); ("_y", VInt 2)];
     [("_z", VInt 1); ("w", VInt 5); ("v", VInt 6); ("_private", VStr "v")]] in
  let t : tree :=
    TYaco [("a", TScalar (SInt 1)); ("_c", TScalar (SInt 3));
           ("b", TScalar (SInt 2));
           ("_private", TList [TScalar (SStr "b")]);
           ("sub", TYaco [("x", TScalar (SInt 1)); ("_y", TScalar (SInt 2))]);
           ("lst", TList [TYaco [("_z", TScalar (SInt 1)); ("w", TScalar (SInt 5));
                                 ("v", TScalar (SInt 6));
                                 ("_private", TScalar (SStr "v"))];
                          TScalar (SInt 7)])] in
  exists F,
    rep h (VYaco 0) t F /\
    exportable t = true /\
    depth t <= 3 /\
    Yaco.get_data 3 0 h =
      (Ok [("a", VInt 1); ("sub", VDict [("x", VInt 1)]);
           ("lst", VList [VDict [("w", VInt 5)]; VInt 7])], h) /\
    exists d,
      Yaco.get_data 3 0 h = (Ok d, h) /\
      VDict d = texport t /\
      plain (VDict d) = true /\
      stripped (VDict d) t = true.
Proof.
  intros h t. eexists.
  assert (H1 : rep h (VYaco 0) t _) by (unfold h, t; rep_concrete).
  assert (H2 : exportable t = true) by reflexivity.
  assert (H3 : depth t <= 3) by (vm_compute; lia).
  split_and!; [exact H1|done|done|reflexivity|].
  exact (C5_export_strips_private 3 h 0 t _ H1 H2 H3).
Defined.

(** The instance of the docstring of [get_data]. *)
Example C5_instance :
  (y <- Yaco.new_empty ;;
   Yaco.__setattr__ 3 y "a" (VInt 1) ;;;
   Yaco.__setattr__ 3 y "b" (VInt 2) ;;;
   Yaco.__setattr__ 3 y "_c" (VInt 3) ;;;
   d1 <- Yaco.get_data 3 y ;;
   Yaco.__setattr__ 3 y "_private" (VList [VStr "b"]) ;;;
   d2 <- Yaco.get_data 3 y ;;
   ret (d1, d2)) [] =
  (Ok ([("a", VInt 1); ("b", VInt 2)], [("a", VInt 1)]),
   [[("a", VInt 1); ("b", VInt 2); ("_c", VInt 3);
     ("_private", VList [VStr "b"])]]).
Proof. reflexivity. Qed.

(** C5 (as stated) fails for an object with a dotted key.  [get_data]
    reads each value as [self[k]], and an index read follows the dots.
    For [Yaco({'a': 7, 'a.b': 1})] it looks for [b] in the number
    under [a] and raises [TypeError]: no fuel makes it return.  For
    [Yaco({'a': {'_x': 5}, 'a._x': 0})] it exports under [a._x] what
    the inner object holds under its private key [_x]. *)
Lemma C5_dotted_key_counterexample :
  let h1 : store := [[("a", VInt 7); ("a.b", VInt 1)]] in
  let h2 : store := [[("a", VYaco 1); ("a._x", VInt 0)]; [("_x", VInt 5)]] in
  Yaco.__init__ 3 (VDict [("a", VInt 7); ("a.b", VInt 1)]) [] = (Ok 0, h1) /\
  (forall fuel d h', Yaco.get_data fuel 0 h1 <> (Ok d, h')) /\
  Yaco.get_data 3 0 h1 = (Raise TypeError, h1) /\
  Yaco.__init__ 3 (VDict [("a", VDict [("_x", VInt 5)]); ("a._x", VInt 0)]) [] =
    (Ok 0, h2) /\
  Yaco.get_data 3 0 h2 = (Ok [("a", VDict []); ("a._x", VInt 5)], h2).
Proof.
  intros h1 h2. split_and!; try reflexivity.
  intros [|f] d h'; [done|]. vm_compute. done.
Qed.

(** ** A scalar of the last layer in the merge *)

Lemma rep_dict_get_fwd h d td F k v :
  rep h (VDict d) (TDict td) F -> dict_get k d = Some v ->
  exists t Fv, dict_get k td = Some t /\ rep h v t Fv.
Proof.
  intros Hd Hk. destruct (rep_dict_focus _ _ _ _ k Hd) as (Fv & Fr & _ & _ & Hget & _).
  rewrite Hk in Hget. destruct Hget as (t & Ht & Hv). by eauto.
Qed.

Lemma Forall2_last_l {A B} (P : A -> B -> Prop) l ts x :
  Forall2 P l ts -> last l = Some x ->
  exists l0 ts0 t, l = l0 ++ [x] /\ ts = ts0 ++ [t] /\ Forall2 P l0 ts0 /\ P x t.
Proof.
  intros HF Hlast. apply last_Some in Hlast as [l0 ->].
  apply Forall2_app_inv_l in HF as (ts0 & ts1 & H0 & H1 & ->).
  apply Forall2_cons_inv_l in H1 as (t & ts2 & Hx & H2 & ->).
  apply Forall2_nil_inv_l in H2 as ->. by eauto 10.
Qed.

(** With the flag set, a scalar of the last layer is found in the
    object that [merge] builds. *)
Lemma merge_top_scalar fuel s ts top k c :
  _PolyYaco_dirty (this s) = true ->
  Forall2 (layer_rep fuel (heap (env s))) (_PolyYaco_yacs (this s)) ts ->
  last (_PolyYaco_yacs (this s)) = Some top ->
  dict_get k (cell (heap (env s)) (obj top)) = Some (VScalar c) ->
  exists h',
    PolyYaco.merge fuel s =
      (Ok (Some (List.length (heap (env s)))),
       {| env := set_heap (env s) h';
          this := PolyYaco.set_dirty false
                    (PolyYaco.set_merged (Some (List.length (heap (env s))))
                       (this s)) |}) /\
    dict_get k (cell h' (List.length (heap (env s)))) = Some (VScalar c).
Proof.
  intros Hd Hl Hlast Hk.
  destruct (merge_refines fuel s ts Hd Hl) as (h' & F' & Hrun & Hrep & _).
  exists h'. split; [done|].
  destruct (Forall2_last_l _ _ _ _ Hl Hlast)
    as (l0 & ts0 & ttop & _ & -> & _ & Htop).
  pose proof Htop as (Fl & Hrtop & _).
  pose proof Hrtop as Hrtop0.
  apply rep_yaco_inv in Hrtop0 as (tdtop & F0 & -> & _ & _ & _ & _ & Hdtop).
  destruct (rep_dict_get_fwd _ _ _ _ _ _ Hdtop Hk) as (t & Fv & Ht & Hv).
  apply rep_scalar_inv in Hv as [-> _].
  assert (Hm : dict_get k (tmerge (ts0 ++ [TYaco tdtop])) = Some (TScalar c)).
  { rewrite tmerge_snoc, tupdate_yaco.
    by rewrite (tupdate_get k _ tdtop _ (layer_rep_NoDup _ _ _ _ Htop) Ht). }
  apply rep_yaco_inv in Hrep as (td & G0 & [= <-] & _ & _ & _ & _ & Hcell).
  destruct (rep_dict_get _ _ _ _ _ _ Hcell Hm) as (v & Gv & Hv & Hrv).
  by apply rep_tscalar_inv in Hrv as ->.
Qed.

(** ** C10: reading an absent key through a [PolyYaco] *)

Lemma poly_getattr_clean fuel s m k :
  _PolyYaco_dirty (this s) = false ->
  _PolyYaco_merged (this s) = Some m ->
  PolyYaco.reserved k = false ->
  PolyYaco.__getattr__ fuel k s =
  ((Yaco.__getattr__ m k (heap (env s))).1,
   with_heap s (Yaco.__getattr__ m k (heap (env s))).2).
Proof.
  intros Hd Hm Hres. unfold PolyYaco.__getattr__. rewrite Hres.
  unfold bind. rewrite (merge_clean _ _ Hd), Hm. apply on_store_run.
Qed.





Lemma tmerge_absent k ts acc :
  Forall (fun t => is_tdict t = true /\ dict_get k (titems t) = None) ts ->
  dict_get k (fold_left (fun acc t => tupdate t acc) ts acc) = dict_get k acc.
Proof.
  revert acc. induction ts as [|t ts IH]; intros acc Hts; [done|].
  apply Forall_cons in Hts as [[Hd Hk] Hts]. simpl. rewrite IH by done.
  rewrite (tupdate_items _ _ Hd). apply tupdate_get_other.
  by apply dict_get_None_keys.
Qed.

(** The state that the hypotheses of C10 describe is the one [merge]
    leaves: the cached object is new, hence none of the layers, and it
    holds no key that no layer holds. *)
Lemma merge_cache_valid fuel s ts k :
  _PolyYaco_dirty (this s) = true ->
  Forall2 (layer_rep fuel (heap (env s))) (_PolyYaco_yacs (this s)) ts ->
  Forall (fun l => dict_get k (cell (heap (env s)) (obj l)) = None)
         (_PolyYaco_yacs (this s)) ->
  exists m s',
    PolyYaco.merge fuel s = (Ok (Some m), s') /\
    _PolyYaco_dirty (this s') = false /\
    _PolyYaco_merged (this s') = Some m /\
    m < List.length (heap (env s')) /\
    Forall (fun l => obj l <> m) (_PolyYaco_yacs (this s')) /\
    dict_get k (cell (heap (env s')) m) = None.
Proof.
  intros Hd Hl Hnone.
  destruct (merge_refines fuel s ts Hd Hl) as (h' & F' & Hrun & Hrep & Hfr).
  eexists _, _. split; [exact Hrun|]. simpl. split_and!; try done.
  - eapply rep_bound; [exact Hrep|].
    apply rep_yaco_inv in Hrep as (? & ? & _ & -> & _). set_solver.
  - clear -Hl. induction Hl as [|l t yacs ts' (Fl & Hr & _) _ IH]; constructor; [|done].
    apply rep_yaco_inv in Hr as (? & ? & _ & _ & _ & Hlt & _). lia.
  - assert (Hts : Forall (fun t => is_tdict t = true /\ dict_get k (titems t) = None) ts).
    { clear -Hl Hnone. induction Hl as [|l t yacs ts' (Fl & Hr & _) _ IH]; [constructor|].
      apply Forall_cons in Hnone as [Hk Hnone]. constructor; [|by apply IH].
      apply rep_yaco_inv in Hr as (td & F0 & -> & _ & _ & _ & _ & Hcell).
      split; [done|]. simpl. apply dict_get_None_keys.
      rewrite (rep_dict_keys _ _ _ _ Hcell). by apply dict_get_None_keys. }
    apply rep_yaco_inv in Hrep as (td & G0 & [= <-] & _ & _ & _ & _ & Hcell).
    apply dict_get_None_keys. rewrite <- (rep_dict_keys _ _ _ _ Hcell).
    apply dict_get_None_keys. unfold tmerge. by rewrite tmerge_absent.
Qed.



(** ** C9: the flag and the cached merge *)

Lemma this_on_world {A} (m : M world A) s : this (PolyYaco.on_world m s).2 = this s.
Proof. reflexivity. Qed.

Lemma keeps_dirty_bind {A B} (m : M state A) (f : A -> M state B) :
  keeps_dirty m -> (forall x, keeps_dirty (f x)) -> keeps_dirty (bind m f).
Proof.
  intros Hm Hf s Hs. unfold bind. specialize (Hm s Hs).
  destruct (m s) as [[x|e] s']; simpl in *; [by apply Hf|done].
Qed.

Lemma keeps_dirty_ret {A} (x : A) : keeps_dirty (ret x).
Proof. by intros s Hs. Qed.

Lemma keeps_dirty_raise {A} e : keeps_dirty (@raise state A e).
Proof. by intros s Hs. Qed.

Lemma keeps_dirty_gets {A} (f : state -> A) : keeps_dirty (gets f).
Proof. by intros s Hs. Qed.

Lemma keeps_dirty_on_world {A} (m : M world A) : keeps_dirty (PolyYaco.on_world m).
Proof. by intros s Hs. Qed.

Lemma keeps_dirty_set_this f :
  (forall i, _PolyYaco_dirty (f i) = _PolyYaco_dirty i) ->
  keeps_dirty (PolyYaco.set_this f).
Proof. intros Hf s Hs. simpl. by rewrite Hf. Qed.

Lemma keeps_dirty_for_each {A} (l : list A) (body : A -> M state unit) :
  (forall x, keeps_dirty (body x)) -> keeps_dirty (for_each l body).
Proof.
  intros Hb. induction l as [|x l IH]; [apply keeps_dirty_ret|].
  rewrite for_each_cons. apply keeps_dirty_bind; [apply Hb|by intros _].
Qed.

Lemma keeps_dirty_resolve fuel filename : keeps_dirty (PolyYaco.resolve fuel filename).
Proof.
  unfold PolyYaco.resolve.
  destruct (String.eqb _ "pkg://").
  - destruct (split_first _ _) as [[pkg loc]|]; [|apply keeps_dirty_raise].
    apply keeps_dirty_bind; [apply keeps_dirty_on_world|].
    intros x. apply keeps_dirty_ret.
  - apply keeps_dirty_bind; [apply keeps_dirty_on_world|]. intros [|].
    + apply keeps_dirty_raise.
    + apply keeps_dirty_bind; [apply keeps_dirty_on_world|]. intros [|].
      * apply keeps_dirty_bind; [apply keeps_dirty_on_world|]. intros c.
        apply keeps_dirty_bind; [apply keeps_dirty_on_world|]. intros _.
        apply keeps_dirty_ret.
      * apply keeps_dirty_ret.
Qed.

(** [load] leaves the flag set, however it ends. *)
Lemma load_sets_dirty fuel s : _PolyYaco_dirty (this (PolyYaco.load fuel s).2) = true.
Proof.
  unfold PolyYaco.load, PolyYaco.load_base, PolyYaco.load_sources.
  unfold bind at 1. unfold bind at 1. simpl.
  match goal with |- context [?m {| env := env s; this := ?i |}] =>
    assert (Hk : keeps_dirty m)
  end.
  { apply keeps_dirty_bind; [by apply keeps_dirty_set_this|]. intros _.
    apply keeps_dirty_bind; [by apply keeps_dirty_set_this|]. intros _.
    apply keeps_dirty_bind; [apply keeps_dirty_gets|]. intros [b|].
    - apply keeps_dirty_bind; [by apply keeps_dirty_set_this|]. intros _.
      apply keeps_dirty_bind; [apply keeps_dirty_on_world|]. intros a.
      by apply keeps_dirty_set_this.
    - apply keeps_dirty_ret. }
  match goal with |- context [?m ?s0] =>
    lazymatch s0 with {| env := env s; this := _ |} =>
      pose proof (Hk s0 eq_refl) as Hs0; destruct (m s0) as [[[]|e] s1]
    end
  end; simpl in *; [|done].
  assert (Hk2 : keeps_dirty
            (rawfiles <- gets (fun s => _PolyYaco_rawfiles (this s)) ;;
             for_each rawfiles (fun filename =>
               r <- PolyYaco.resolve fuel filename ;;
               match r with
               | Some content =>
                   PolyYaco.set_this (PolyYaco.append_layer filename content)
               | None => ret tt
               end))).
  { apply keeps_dirty_bind; [apply keeps_dirty_gets|]. intros rawfiles.
    apply keeps_dirty_for_each. intros filename.
    apply keeps_dirty_bind; [apply keeps_dirty_resolve|].
    intros [content|]; [by apply keeps_dirty_set_this|apply keeps_dirty_ret]. }
  by apply Hk2.
Qed.

(** A write through the [PolyYaco] leaves the flag set, however it
    ends. *)
Lemma setattr_sets_dirty fuel key value s :
  PolyYaco.reserved key = false ->
  _PolyYaco_dirty (this (PolyYaco.__setattr__ fuel key value s).2) = true.
Proof.
  intros Hres. unfold PolyYaco.__setattr__. rewrite Hres.
  unfold bind at 1. simpl.
  match goal with |- context [?m {| env := env s; this := ?i |}] =>
    assert (Hk : keeps_dirty m); [|by apply (Hk {| env := env s; this := i |})]
  end.
  apply keeps_dirty_bind.
  - intros s0 Hs0. unfold PolyYaco._getTop.
    by destruct (last (_PolyYaco_yacs (this s0))), (last (_PolyYaco_filenames (this s0))).
  - intros [cfn [cyc|]]; [apply keeps_dirty_on_world|apply keeps_dirty_raise].
Qed.

Lemma depth_set_scalar k c d :
  depth (TYaco (dict_set k (TScalar c) d)) <= depth (TYaco d).
Proof.
  simpl. apply le_n_S. induction d as [|[k' v'] d IH]; simpl; [lia|].
  destruct (String.eqb k k'); simpl; lia.
Qed.

(** A scalar written through the [PolyYaco] lands in the last layer. *)
Lemma poly_setattr_scalar fuel key c s top cfn :
  PolyYaco.reserved key = false ->
  last (_PolyYaco_yacs (this s)) = Some top ->
  last (_PolyYaco_filenames (this s)) = Some cfn ->
  PolyYaco.__setattr__ fuel key (VScalar c) s =
  (Ok tt,
   {| env := set_heap (env s)
               (put_cell (heap (env s)) (obj top)
                  (dict_set key (VScalar c) (cell (heap (env s)) (obj top))));
      this := PolyYaco.set_dirty true (this s) |}).
Proof.
  intros Hres Htop Hcfn. unfold PolyYaco.__setattr__. rewrite Hres.
  unfold bind, PolyYaco.set_this, modify, PolyYaco._getTop. simpl.
  rewrite Htop, Hcfn. simpl. reflexivity.
Qed.

(** The layers after a scalar was written into the last one: the
    lower ones unfold as before when the last layer is none of their
    objects. *)
Lemma layers_after_write fuel h lower top ts ttop key c :
  Forall2 (layer_rep fuel h) lower ts ->
  layer_rep fuel h top (TYaco ttop) ->
  Forall (fun l => forall t Fl, rep h (VYaco (obj l)) t Fl -> obj top ∉ Fl) lower ->
  Forall2 (layer_rep fuel
             (put_cell h (obj top) (dict_set key (VScalar c) (cell h (obj top)))))
          (lower ++ [top])
          (ts ++ [TYaco (dict_set key (TScalar c) ttop)]).
Proof.
  intros Hlower (Ftop & Hrtop & Hdtop) Hsep.
  set (h1 := put_cell h (obj top) (dict_set key (VScalar c) (cell h (obj top)))).
  apply Forall2_app.
  - induction Hlower as [|l t ls' ts' (Fl & Hr & Hd) _ IH]; [constructor|].
    apply Forall_cons in Hsep as [Hl Hsep].
    constructor; [|by apply IH].
    exists Fl. split; [|done]. eapply rep_stable; [exact Hr|].
    intros a Ha. unfold h1, put_cell. apply list_lookup_insert_ne.
    intros <-. by apply (Hl t Fl Hr).
  - constructor; [|constructor].
    destruct (setitem_refines h h (obj top) ttop Ftop key (VScalar c) (TScalar c) ∅
                Hrtop (frame_refl h ∅) (rep_scalar h c))
      as (h2 & F' & Hrun & Hrep & _).
    injection Hrun as <-.
    exists F'. split; [exact Hrep|].
    etrans; [apply depth_set_scalar|done].
Qed.

(** C9: a write through the [PolyYaco] and [load] leave the flag set,
    and so does construction; with the flag clear [merge] returns the
    cached object and changes nothing; with the flag set it builds a
    new object, caches it and clears the flag, after which further
    calls of [merge], also after reads, return that same object without
    building another; and after a write the next [merge] holds the
    value written. *)
Theorem C9_merge_cache_state_machine fuel s lower top cfn ts ttop key c :
  PolyYaco.reserved key = false ->
  _PolyYaco_yacs (this s) = lower ++ [top] ->
  last (_PolyYaco_filenames (this s)) = Some cfn ->
  Forall2 (layer_rep fuel (heap (env s))) lower ts ->
  layer_rep fuel (heap (env s)) top (TYaco ttop) ->
  Forall (fun l => forall t Fl,
            rep (heap (env s)) (VYaco (obj l)) t Fl -> obj top ∉ Fl) lower ->
  (forall v,
     _PolyYaco_dirty (this (PolyYaco.__setattr__ fuel key v s).2) = true) /\
  _PolyYaco_dirty (this (PolyYaco.load fuel s).2) = true /\
  (forall files base w,
     _PolyYaco_dirty (this (PolyYaco.__init__ fuel files base w).2) = true) /\
  (_PolyYaco_dirty (this s) = false ->
   PolyYaco.merge fuel s = (Ok (_PolyYaco_merged (this s)), s)) /\
  (_PolyYaco_dirty (this s) = true ->
   exists y s1,
     PolyYaco.merge fuel s = (Ok (Some y), s1) /\
     y = List.length (heap (env s)) /\
     _PolyYaco_dirty (this s1) = false /\
     _PolyYaco_merged (this s1) = Some y /\
     PolyYaco.merge fuel s1 = (Ok (Some y), s1) /\
     (forall k, PolyYaco.reserved k = false ->
        let s2 := (PolyYaco.__getattr__ fuel k s1).2 in
        this s2 = this s1 /\ PolyYaco.merge fuel s2 = (Ok (Some y), s2))) /\
  (exists s1 y s2,
     PolyYaco.__setattr__ fuel key (VScalar c) s = (Ok tt, s1) /\
     PolyYaco.merge fuel s1 = (Ok (Some y), s2) /\
     dict_get key (cell (heap (env s2)) y) = Some (VScalar c) /\
     _PolyYaco_dirty (this s2) = false).
Proof.
  intros Hres Hyacs Hcfn Hlower Htop Hsep.
  assert (Hlast : last (_PolyYaco_yacs (this s)) = Some top)
    by (rewrite Hyacs; apply last_snoc).
  split_and!.
  - intros v. by apply setattr_sets_dirty.
  - apply load_sets_dirty.
  - intros files base w. apply load_sets_dirty.
  - apply merge_clean.
  - intros Hd.
    assert (Hall : Forall2 (layer_rep fuel (heap (env s)))
                     (_PolyYaco_yacs (this s)) (ts ++ [TYaco ttop])).
    { rewrite Hyacs. apply Forall2_app; [done|]. by constructor. }
    destruct (merge_refines fuel s _ Hd Hall) as (h' & F' & Hrun & _ & _).
    eexists _, _. split; [exact Hrun|]. split_and!; try done.
    intros k Hk. cbv zeta.
    match goal with |- context [PolyYaco.__getattr__ fuel k ?s1] =>
      rewrite (poly_getattr_clean fuel s1 _ k eq_refl eq_refl Hk)
    end.
    simpl. split; [done|]. by apply merge_clean.
  - pose proof (poly_setattr_scalar fuel key c s top cfn Hres Hlast Hcfn) as Hw.
    set (h1 := put_cell (heap (env s)) (obj top)
                 (dict_set key (VScalar c) (cell (heap (env s)) (obj top)))) in *.
    set (s1 := {| env := set_heap (env s) h1;
                  this := PolyYaco.set_dirty true (this s) |}) in *.
    assert (Hall : Forall2 (layer_rep fuel (heap (env s1)))
                     (_PolyYaco_yacs (this s1))
                     (ts ++ [TYaco (dict_set key (TScalar c) ttop)])).
    { simpl. rewrite Hyacs. by apply layers_after_write. }
    assert (Hk : dict_get key (cell (heap (env s1)) (obj top)) = Some (VScalar c)).
    { simpl. unfold h1. rewrite cell_put_eq; [apply dict_get_set_eq|].
      destruct Htop as (Fl & Hr & _).
      by apply rep_yaco_inv in Hr as (? & ? & _ & _ & _ & Hlt & _). }
    destruct (merge_top_scalar fuel s1 _ top key c eq_refl Hall Hlast Hk)
      as (h' & Hrun & Hget).
    eexists s1, _, _. split_and!; [exact Hw|exact Hrun|exact Hget|done].
Qed.

Lemma C9_merge_cache_state_machine_witness :
  let s := example_state in
  PolyYaco.reserved "a" = false /\
  _PolyYaco_yacs (this s) = [Layer KYaco 0] ++ [Layer KYaco 1] /\
  last (_PolyYaco_filenames (this s)) = Some "/etc/app.yaml" /\
  _PolyYaco_dirty (this s) = true /\
  (exists y s1,
     PolyYaco.merge 3 s = (Ok (Some y), s1) /\
     y = List.length (heap (env s)) /\
     _PolyYaco_dirty (this s1) = false /\
     _PolyYaco_merged (this s1) = Some y /\
     PolyYaco.merge 3 s1 = (Ok (Some y), s1) /\
     (forall k, PolyYaco.reserved k = false ->
        let s2 := (PolyYaco.__getattr__ 3 k s1).2 in
        this s2 = this s1 /\ PolyYaco.merge 3 s2 = (Ok (Some y), s2))) /\
  (exists s1 y s2,
     PolyYaco.__setattr__ 3 "a" (VInt 19) s = (Ok tt, s1) /\
     PolyYaco.merge 3 s1 = (Ok (Some y), s2) /\
     dict_get "a" (cell (heap (env s2)) y) = Some (VInt 19) /\
     _PolyYaco_dirty (this s2) = false).
Proof.
  intros s.
  assert (H1 : PolyYaco.reserved "a" = false) by reflexivity.
  assert (H2 : _PolyYaco_yacs (this s) = [Layer KYaco 0] ++ [Layer KYaco 1])
    by reflexivity.
  assert (H3 : last (_PolyYaco_filenames (this s)) = Some "/etc/app.yaml")
    by reflexivity.
  assert (H0 : rep (heap (env s)) (VYaco 0)
                 (TYaco [("a", TScalar (SInt 1)); ("b", TScalar (SInt 2))])
                 ({[0]} ∪ (∅ ∪ (∅ ∪ ∅))))
    by (vm_compute heap; rep_concrete).
  assert (H4 : Forall2 (layer_rep 3 (heap (env s))) [Layer KYaco 0]
                 [TYaco [("a", TScalar (SInt 1)); ("b", TScalar (SInt 2))]]).
  { repeat constructor. eexists. split; [exact H0|simpl; lia]. }
  assert (H5 : layer_rep 3 (heap (env s)) (Layer KYaco 1)
                 (TYaco [("a", TScalar (SInt 18))])).
  { eexists. split; [simpl obj; vm_compute heap; rep_concrete|simpl; lia]. }
  assert (H6 : Forall (fun l => forall t Fl,
                 rep (heap (env s)) (VYaco (obj l)) t Fl ->
                 obj (Layer KYaco 1) ∉ Fl) [Layer KYaco 0]).
  { repeat constructor. intros t Fl Hr.
    destruct (rep_functional _ _ _ _ H0 _ _ Hr) as [_ <-]. set_solver. }
  destruct (C9_merge_cache_state_machine 3 s [Layer KYaco 0] (Layer KYaco 1)
              "/etc/app.yaml" _ _ "a" (SInt 19) H1 H2 H3 H4 H5 H6)
    as (_ & _ & _ & _ & Hdirty & Hwrite).
  split_and!; try done. by apply Hdirty.
Defined.

(** ** C6: layers changed behind the back of [merge] *)

Lemma yaco_setattr_scalar fuel self key c h :
  Yaco.__setattr__ fuel self key (VScalar c) h =
  (Ok tt, put_cell h self (dict_set key (VScalar c) (cell h self))).
Proof. reflexivity. Qed.

(** The layers keep their unfoldings across a frame that leaves their
    objects alone. *)
Lemma layers_frame fuel h h' F' yacs ts :
  frame h h' ∅ F' ->
  Forall2 (layer_rep fuel h) yacs ts ->
  Forall2 (layer_rep fuel h') yacs ts.
Proof.
  intros Hfr Hl. eapply Forall2_impl; [exact Hl|]. intros l t (Fl & Hr & Hd).
  exists Fl. split; [|done]. eapply frame_keeps; [exact Hfr|exact Hr|set_solver].
Qed.

(** In another store in which the lower layers unfold as before, the
    last layer is still none of their objects. *)
Lemma separate_in fuel h h' lower ts top :
  Forall2 (layer_rep fuel h) lower ts ->
  Forall (fun l => forall t Fl, rep h (VYaco (obj l)) t Fl -> obj top ∉ Fl) lower ->
  (forall l t Fl, l ∈ lower -> rep h (VYaco (obj l)) t Fl -> rep h' (VYaco (obj l)) t Fl) ->
  Forall (fun l => forall t Fl, rep h' (VYaco (obj l)) t Fl -> obj top ∉ Fl) lower.
Proof.
  intros Hl Hsep Hkeep. apply Forall_forall. intros l Hin t Fl Hr.
  apply list_elem_of_lookup in Hin as [i Hi].
  destruct (Forall2_lookup_l _ _ _ _ _ Hl Hi) as (t0 & _ & (Fl0 & Hr0 & _)).
  pose proof (Hkeep l t0 Fl0 (list_elem_of_lookup_2 _ _ _ Hi) Hr0) as Hr0'.
  destruct (rep_functional _ _ _ _ Hr0' _ _ Hr) as [_ <-].
  rewrite Forall_forall in Hsep. apply (Hsep l (list_elem_of_lookup_2 _ _ _ Hi) t0 Fl0 Hr0).
Qed.

(** C6 (as amended): [merge] reflects the current contents of every
    layer whenever the flag is set: it returns a new object that
    unfolds to the merge of all the layers, lowest first, as they are
    then.  While the flag is clear it returns the cached object
    whatever the layers hold.  A scalar assigned to a key of a layer's
    own object, not through the [PolyYaco], leaves the flag as it is:
    after a [merge], the layer holds the new value, and [merge] still
    returns the cached object, which unfolds as before.  Once a write
    through the [PolyYaco] has set the flag, the next [merge] builds a
    new object from the layers as they are, the value assigned to the
    last layer directly included. *)
Theorem C6_merge_reflects_when_dirty fuel s ts :
  Forall2 (layer_rep fuel (heap (env s))) (_PolyYaco_yacs (this s)) ts ->
  (_PolyYaco_dirty (this s) = false ->
   forall h', PolyYaco.merge fuel (with_heap s h') =
              (Ok (_PolyYaco_merged (this s)), with_heap s h')) /\
  (_PolyYaco_dirty (this s) = true ->
   merge_reflects fuel s /\
   exists y s1 F',
     PolyYaco.merge fuel s = (Ok (Some y), s1) /\
     rep (heap (env s1)) (VYaco y) (TYaco (tmerge ts)) F' /\
     (forall l key c,
        l ∈ _PolyYaco_yacs (this s) ->
        let s2 := (PolyYaco.on_store
                     (Yaco.__setattr__ fuel (obj l) key (VScalar c)) s1).2 in
        dict_get key (cell (heap (env s2)) (obj l)) = Some (VScalar c) /\
        this s2 = this s1 /\
        PolyYaco.merge fuel s2 = (Ok (Some y), s2) /\
        rep (heap (env s2)) (VYaco y) (TYaco (tmerge ts)) F') /\
     (forall lower top cfn ts0 ttop key c key' c',
        _PolyYaco_yacs (this s) = lower ++ [top] ->
        ts = ts0 ++ [TYaco ttop] ->
        last (_PolyYaco_filenames (this s)) = Some cfn ->
        Forall (fun l => forall t Fl,
                  rep (heap (env s)) (VYaco (obj l)) t Fl -> obj top ∉ Fl) lower ->
        PolyYaco.reserved key' = false ->
        let s2 := (PolyYaco.on_store
                     (Yaco.__setattr__ fuel (obj top) key (VScalar c)) s1).2 in
        exists s3 y' s4 F'',
          PolyYaco.__setattr__ fuel key' (VScalar c') s2 = (Ok tt, s3) /\
          PolyYaco.merge fuel s3 = (Ok (Some y'), s4) /\
          rep (heap (env s4)) (VYaco y')
              (TYaco (tmerge (ts0 ++ [TYaco (dict_set key' (TScalar c')
                                               (dict_set key (TScalar c) ttop))])))
              F'')).
Proof.
  intros Hl. split.
  { intros Hd h'. exact (merge_clean fuel (with_heap s h') Hd). }
  intros Hd. split.
  { intros top k c Hlast Hk.
    destruct (merge_top_scalar fuel s ts top k c Hd Hl Hlast Hk) as (h' & Hrun & Hget).
    by eauto. }
  destruct (merge_refines fuel s ts Hd Hl) as (h' & F' & Hrun & Hrep & Hfr).
  set (h := heap (env s)) in *. set (y := List.length h) in *.
  eexists y, _, F'. split; [exact Hrun|]. split; [exact Hrep|].
  assert (Hfresh : forall a, a ∈ F' -> List.length h <= a).
  { intros a Ha. destruct Hfr as (_ & Hf & _).
    destruct (Hf a Ha) as [H|H]; [set_solver|done]. }
  assert (Hlen : List.length h <= List.length h') by apply Hfr.
  assert (Hbound : forall l, l ∈ _PolyYaco_yacs (this s) -> obj l < List.length h).
  { intros l Hin. apply list_elem_of_lookup in Hin as [i Hi].
    destruct (Forall2_lookup_l _ _ _ _ _ Hl Hi) as (t0 & _ & (Fl0 & Hr0 & _)).
    by apply rep_yaco_inv in Hr0 as (? & ? & _ & _ & _ & Hlt & _). }
  assert (Hstale : forall l key c,
    l ∈ _PolyYaco_yacs (this s) ->
    rep (put_cell h' (obj l) (dict_set key (VScalar c) (cell h' (obj l))))
        (VYaco y) (TYaco (tmerge ts)) F').
  { intros l key c Hin. eapply rep_stable; [exact Hrep|].
    intros a Ha. unfold put_cell. apply list_lookup_insert_ne.
    specialize (Hfresh a Ha). specialize (Hbound l Hin). lia. }
  split.
  - intros l key c Hin. cbv zeta.
    rewrite on_store_run, yaco_setattr_scalar. cbn [fst snd].
    rewrite with_heap_heap. split_and!.
    + rewrite cell_put_eq; [apply dict_get_set_eq|].
      specialize (Hbound l Hin). simpl. lia.
    + done.
    + by apply merge_clean.
    + simpl. by apply Hstale.
  - intros lower top cfn ts0 ttop key c key' c' Hyacs Hts Hcfn Hsep Hres. cbv zeta.
    rewrite on_store_run, yaco_setattr_scalar. cbn [fst snd].
    change (heap (env {| env := set_heap (env s) h'; this := _ |})) with h'.
    rewrite Hyacs, Hts in Hl.
    apply Forall2_app_inv in Hl as [Hlow Htop];
      [|apply Forall2_length in Hl; rewrite !length_app in Hl; simpl in Hl; lia].
    apply Forall2_cons_1 in Htop as [Htop _].
    (* the layers in the store after the merge *)
    pose proof (layers_frame fuel h h' F' _ _ Hfr Hlow) as Hlow1.
    assert (Htop1 : layer_rep fuel h' top (TYaco ttop)).
    { destruct Htop as (Ft & Hr & Hdp). exists Ft. split; [|done].
      eapply frame_keeps; [exact Hfr|exact Hr|set_solver]. }
    assert (Hsep1 : Forall (fun l => forall t Fl,
              rep h' (VYaco (obj l)) t Fl -> obj top ∉ Fl) lower).
    { eapply (separate_in fuel h h'); [exact Hlow|exact Hsep|].
      intros l t Fl _ Hr. eapply frame_keeps; [exact Hfr|exact Hr|set_solver]. }
    (* after the direct assignment *)
    set (h2 := put_cell h' (obj top) (dict_set key (VScalar c) (cell h' (obj top)))).
    pose proof (layers_after_write fuel h' lower top ts0 ttop key c Hlow1 Htop1 Hsep1)
      as Hall2. fold h2 in Hall2.
    apply Forall2_app_inv in Hall2 as [Hlow2 Htop2];
      [|by apply Forall2_length in Hlow1].
    apply Forall2_cons_1 in Htop2 as [Htop2 _].
    assert (Hsep2 : Forall (fun l => forall t Fl,
              rep h2 (VYaco (obj l)) t Fl -> obj top ∉ Fl) lower).
    { eapply (separate_in fuel h' h2); [exact Hlow1|exact Hsep1|].
      intros l t Fl Hin Hr. eapply rep_stable; [exact Hr|].
      intros a Ha. unfold h2, put_cell. apply list_lookup_insert_ne.
      intros <-. rewrite Forall_forall in Hsep1. by apply (Hsep1 l Hin t Fl Hr). }
    (* the write through the PolyYaco *)
    fold h2. set (s2 := with_heap _ h2).
    assert (Hlast2 : last (_PolyYaco_yacs (this s2)) = Some top).
    { simpl. rewrite Hyacs. apply last_snoc. }
    pose proof (poly_setattr_scalar fuel key' c' s2 top cfn Hres Hlast2 Hcfn) as Hw.
    set (h3 := put_cell h2 (obj top) (dict_set key' (VScalar c') (cell h2 (obj top)))).
    pose proof (layers_after_write fuel h2 lower top ts0 _ key' c' Hlow2 Htop2 Hsep2)
      as Hall3. fold h3 in Hall3.
    match type of Hw with _ = (Ok tt, ?x) => set (s3 := x) in * end.
    assert (Hl3 : Forall2 (layer_rep fuel (heap (env s3))) (_PolyYaco_yacs (this s3))
                    (ts0 ++ [TYaco (dict_set key' (TScalar c')
                                      (dict_set key (TScalar c) ttop))])).
    { simpl. rewrite Hyacs. exact Hall3. }
    destruct (merge_refines fuel s3 _ eq_refl Hl3) as (h4 & F4 & Hrun4 & Hrep4 & _).
    eexists s3, _, _, F4. split_and!; [exact Hw|exact Hrun4|exact Hrep4].
Qed.

Lemma C6_merge_reflects_when_dirty_witness :
  let s := example_state in
  let t0 := TYaco [("a", TScalar (SInt 1)); ("b", TScalar (SInt 2))] in
  let ttop : tdict := [("a", TScalar (SInt 18))] in
  Forall2 (layer_rep 3 (heap (env s))) (_PolyYaco_yacs (this s)) ([t0] ++ [TYaco ttop]) /\
  _PolyYaco_dirty (this s) = true /\
  Layer KYaco 1 ∈ _PolyYaco_yacs (this s) /\
  _PolyYaco_yacs (this s) = [Layer KYaco 0] ++ [Layer KYaco 1] /\
  last (_PolyYaco_filenames (this s)) = Some "/etc/app.yaml" /\
  Forall (fun l => forall t Fl,
            rep (heap (env s)) (VYaco (obj l)) t Fl -> obj (Layer KYaco 1) ∉ Fl)
         [Layer KYaco 0] /\
  PolyYaco.reserved "b" = false /\
  merge_reflects 3 s /\
  exists y s1 F',
    PolyYaco.merge 3 s = (Ok (Some y), s1) /\
    rep (heap (env s1)) (VYaco y) (TYaco (tmerge ([t0] ++ [TYaco ttop]))) F' /\
    let s2 := (PolyYaco.on_store (Yaco.__setattr__ 3 1 "a" (VInt 19)) s1).2 in
    dict_get "a" (cell (heap (env s2)) 1) = Some (VInt 19) /\
    PolyYaco.merge 3 s2 = (Ok (Some y), s2) /\
    rep (heap (env s2)) (VYaco y) (TYaco (tmerge ([t0] ++ [TYaco ttop]))) F' /\
    exists s3 y' s4 F'',
      PolyYaco.__setattr__ 3 "b" (VInt 5) s2 = (Ok tt, s3) /\
      PolyYaco.merge 3 s3 = (Ok (Some y'), s4) /\
      rep (heap (env s4)) (VYaco y')
          (TYaco (tmerge ([t0] ++
                          [TYaco (dict_set "b" (TScalar (SInt 5))
                                    (dict_set "a" (TScalar (SInt 19)) ttop))])))
          F''.
Proof.
  intros s t0 ttop.
  assert (H0 : rep (heap (env s)) (VYaco 0) t0 ({[0]} ∪ (∅ ∪ (∅ ∪ ∅))))
    by (vm_compute heap; rep_concrete).
  assert (H1 : Forall2 (layer_rep 3 (heap (env s))) (_PolyYaco_yacs (this s))
                 ([t0] ++ [TYaco ttop])).
  { vm_compute _PolyYaco_yacs. apply Forall2_cons; split.
    - eexists. split; [exact H0|simpl; lia].
    - apply Forall2_cons; split; [|constructor].
      eexists. split; [simpl obj; vm_compute heap; rep_concrete|simpl; lia]. }
  assert (H2 : _PolyYaco_dirty (this s) = true) by reflexivity.
  assert (H3 : Layer KYaco 1 ∈ _PolyYaco_yacs (this s))
    by (vm_compute _PolyYaco_yacs; set_solver).
  assert (H4 : _PolyYaco_yacs (this s) = [Layer KYaco 0] ++ [Layer KYaco 1])
    by reflexivity.
  assert (H5 : last (_PolyYaco_filenames (this s)) = Some "/etc/app.yaml")
    by reflexivity.
  assert (H6 : Forall (fun l => forall t Fl,
                 rep (heap (env s)) (VYaco (obj l)) t Fl ->
                 obj (Layer KYaco 1) ∉ Fl) [Layer KYaco 0]).
  { repeat constructor. intros t Fl Hr.
    destruct (rep_functional _ _ _ _ H0 _ _ Hr) as [_ <-]. set_solver. }
  assert (H7 : PolyYaco.reserved "b" = false) by reflexivity.
  destruct (C6_merge_reflects_when_dirty 3 s _ H1) as [_ Hdirty].
  destruct (Hdirty H2) as (Hrefl & y & s1 & F' & Hrun & Hrep & Hstale & Hshow).
  destruct (Hstale (Layer KYaco 1) "a" (SInt 19) H3) as (Hget & _ & Hagain & Hold).
  pose proof (Hshow [Layer KYaco 0] (Layer KYaco 1) "/etc/app.yaml" [t0] ttop
                "a" (SInt 19) "b" (SInt 5) H4 eq_refl H5 H6 H7) as Hnew.
  split_and!; try done.
  exists y, s1, F'. by split_and!.
Defined.

(** The whole course on the example: after a [merge], [a = 19] is
    assigned to the last layer directly; the next [merge] still reads
    [a = 18]; [b = 5] is then assigned through the [PolyYaco], and the
    [merge] after that reads [a = 19] and [b = 5]. *)
Example C6_instance :
  ((PolyYaco.merge 3 ;;;
    PolyYaco.on_store (Yaco.__setattr__ 3 1 "a" (VInt 19)) ;;;
    a1 <- PolyYaco.__getattr__ 3 "a" ;;
    PolyYaco.__setattr__ 3 "b" (VInt 5) ;;;
    a2 <- PolyYaco.__getattr__ 3 "a" ;;
    b2 <- PolyYaco.__getattr__ 3 "b" ;;
    ret (a1, a2, b2)) example_state).1 = Ok (VInt 18, VInt 19, VInt 5).
Proof. vm_compute. reflexivity. Qed.

(** C6 (as stated) fails: after a [merge], the last layer is changed
    through its own [__setattr__], not through the [PolyYaco]; the flag
    stays clear and the next [merge] hands out the cached object, which
    still holds the old value. *)
Lemma C6_stale_cache_counterexample :
  let s1 := (PolyYaco.merge 3 example_state).2 in
  let s2 := (PolyYaco.on_store (Yaco.__setattr__ 3 1 "a" (VInt 19)) s1).2 in
  last (_PolyYaco_yacs (this s2)) = Some (Layer KYaco 1) /\
  dict_get "a" (cell (heap (env s2)) 1) = Some (VInt 19) /\
  ~ merge_reflects 3 s2.
Proof.
  intros s1 s2. split_and!; [reflexivity|reflexivity|].
  intros H.
  destruct (H (Layer KYaco 1) "a" (SInt 19) eq_refl eq_refl) as (y & s' & Hm & Hget).
  vm_compute in Hm. injection Hm as <- <-.
  vm_compute in Hget. discriminate.
Qed.

(** ** C8: sources that do not resolve *)

Lemma keeps_disk_w_bind {A B} (m : M world A) (f : A -> M world B) :
  keeps_disk_w m -> (forall x, keeps_disk_w (f x)) -> keeps_disk_w (bind m f).
Proof.
  intros Hm Hf w. unfold bind. specialize (Hm w).
  destruct (m w) as [[x|e] w']; simpl in *; [by rewrite Hf|done].
Qed.

Lemma keeps_disk_w_ret {A} (x : A) : keeps_disk_w (ret x).
Proof. by intros w. Qed.

Lemma keeps_disk_w_raise {A} e : keeps_disk_w (@raise world A e).
Proof. by intros w. Qed.

Lemma keeps_disk_w_gets {A} (f : world -> A) : keeps_disk_w (gets f).
Proof. by intros w. Qed.

Lemma keeps_disk_w_on_heap {A} (m : M store A) : keeps_disk_w (on_heap m).
Proof. by intros w. Qed.

Lemma keeps_disk_w_for_each {A} (l : list A) (body : A -> M world unit) :
  (forall x, keeps_disk_w (body x)) -> keeps_disk_w (for_each l body).
Proof.
  intros Hb. induction l as [|x l IH]; [apply keeps_disk_w_ret|].
  rewrite for_each_cons. apply keeps_disk_w_bind; [apply Hb|by intros _].
Qed.

Lemma keeps_disk_w_load fuel self from_file leaf :
  keeps_disk_w (YacoIO.load fuel self from_file leaf).
Proof.
  unfold YacoIO.load. apply keeps_disk_w_bind.
  - intros w. unfold read_yaml. by destruct (files (disk w) !! from_file).
  - intros data. destruct leaf as [[|c l]|]; try apply keeps_disk_w_on_heap.
    apply keeps_disk_w_bind; [apply keeps_disk_w_on_heap|].
    intros [| | |a]; try apply keeps_disk_w_raise. apply keeps_disk_w_on_heap.
Qed.

Lemma keeps_disk_w_import pkg_name : keeps_disk_w (YacoIO.import_package pkg_name).
Proof.
  unfold YacoIO.import_package. apply keeps_disk_w_bind; [apply keeps_disk_w_gets|].
  intros [|]; [apply keeps_disk_w_ret|apply keeps_disk_w_raise].
Qed.

Lemma keeps_disk_w_YacoPkgDir fuel pkg_name path :
  keeps_disk_w (YacoIO.YacoPkgDir fuel pkg_name path).
Proof.
  unfold YacoIO.YacoPkgDir.
  apply keeps_disk_w_bind; [apply keeps_disk_w_import|]. intros _.
  apply keeps_disk_w_bind; [apply keeps_disk_w_gets|].
  intros [docs|]; [|apply keeps_disk_w_raise].
  apply keeps_disk_w_bind; [apply keeps_disk_w_on_heap|]. intros self.
  apply keeps_disk_w_bind; [|intros _; apply keeps_disk_w_ret].
  apply keeps_disk_w_for_each. intros doc.
  apply keeps_disk_w_bind; [apply keeps_disk_w_on_heap|]. intros y.
  apply keeps_disk_w_bind; [apply keeps_disk_w_on_heap|]. intros _.
  apply keeps_disk_w_on_heap.
Qed.

Lemma keeps_disk_w_YacoPkg fuel pkg_name location :
  keeps_disk_w (YacoIO.YacoPkg fuel pkg_name location).
Proof.
  unfold YacoIO.YacoPkg.
  destruct (if has_char "*" location then _ else _) as [[path pattern]|].
  - apply keeps_disk_w_bind; [apply keeps_disk_w_YacoPkgDir|]. intros config.
    apply keeps_disk_w_bind; [apply keeps_disk_w_on_heap|]. intros self.
    apply keeps_disk_w_bind; [apply keeps_disk_w_on_heap|]. intros _.
    apply keeps_disk_w_ret.
  - apply keeps_disk_w_bind; [apply keeps_disk_w_import|]. intros _.
    apply keeps_disk_w_bind; [apply keeps_disk_w_gets|].
    intros [config|]; [|apply keeps_disk_w_raise].
    apply keeps_disk_w_bind; [apply keeps_disk_w_on_heap|]. intros self.
    apply keeps_disk_w_bind; [apply keeps_disk_w_on_heap|]. intros _.
    apply keeps_disk_w_ret.
Qed.

Lemma keeps_disk_bind {A B} (m : M state A) (f : A -> M state B) :
  keeps_disk m -> (forall x, keeps_disk (f x)) -> keeps_disk (bind m f).
Proof.
  intros Hm Hf s. unfold bind. specialize (Hm s).
  destruct (m s) as [[x|e] s']; simpl in *; [by rewrite Hf|done].
Qed.

Lemma keeps_disk_ret {A} (x : A) : keeps_disk (ret x).
Proof. by intros s. Qed.

Lemma keeps_disk_raise {A} e : keeps_disk (@raise state A e).
Proof. by intros s. Qed.

Lemma keeps_disk_set_this f : keeps_disk (PolyYaco.set_this f).
Proof. by intros s. Qed.

Lemma keeps_disk_on_world {A} (m : M world A) :
  keeps_disk_w m -> keeps_disk (PolyYaco.on_world m).
Proof. intros Hm s. apply Hm. Qed.

Lemma keeps_disk_resolve fuel filename : keeps_disk (PolyYaco.resolve fuel filename).
Proof.
  unfold PolyYaco.resolve.
  destruct (String.eqb _ "pkg://").
  - destruct (split_first _ _) as [[pkg loc]|]; [|apply keeps_disk_raise].
    apply keeps_disk_bind; [apply keeps_disk_on_world, keeps_disk_w_YacoPkg|].
    intros x. apply keeps_disk_ret.
  - apply keeps_disk_bind; [by apply keeps_disk_on_world|]. intros [|].
    + apply keeps_disk_raise.
    + apply keeps_disk_bind; [by apply keeps_disk_on_world|]. intros [|].
      * apply keeps_disk_bind; [by apply keeps_disk_on_world|]. intros c.
        apply keeps_disk_bind; [apply keeps_disk_on_world, keeps_disk_w_load|].
        intros _. apply keeps_disk_ret.
      * apply keeps_disk_ret.
Qed.

(** A missing name resolves to nothing and changes nothing. *)
Lemma resolve_missing fuel filename s :
  missing (disk (env s)) filename = true ->
  PolyYaco.resolve fuel filename s = (Ok None, s).
Proof.
  unfold missing. intros [[H1 H2]%andb_prop H3]%andb_prop.
  apply negb_true_iff in H1, H2, H3.
  unfold PolyYaco.resolve. rewrite H1. destruct s as [w i].
  unfold bind, PolyYaco.on_world, isdir, isfile, gets. cbn [fst snd env this] in *.
  rewrite H2. cbn [fst snd env this]. rewrite H3. reflexivity.
Qed.

(** The loop of [load] run over the source list is the loop run over
    the names that are not missing. *)
Lemma for_each_cons_run {S A} (x : A) (r : list A) (body : A -> M S unit) s :
  for_each (x :: r) body s =
  match body x s with
  | (Ok _, s') => for_each r body s'
  | (Raise e, s') => (Raise e, s')
  end.
Proof. reflexivity. Qed.

Lemma keeps_disk_load_entry fuel filename :
  keeps_disk
    (r <- PolyYaco.resolve fuel filename ;;
     match r with
     | Some content => PolyYaco.set_this (PolyYaco.append_layer filename content)
     | None => ret tt
     end).
Proof.
  apply keeps_disk_bind; [apply keeps_disk_resolve|].
  intros [c|]; [apply keeps_disk_set_this|apply keeps_disk_ret].
Qed.

Lemma load_sources_skip fuel names s :
  PolyYaco.load_sources fuel names s =
  PolyYaco.load_sources fuel
    (filter (fun f => missing (disk (env s)) f = false) names) s.
Proof.
  unfold PolyYaco.load_sources.
  set (body := fun filename : string => bind (PolyYaco.resolve fuel filename) _).
  assert (Hkd : forall f, keeps_disk (body f))
    by (intros f; apply keeps_disk_load_entry).
  revert s. induction names as [|f names IH]; intros s; [done|].
  rewrite filter_cons.
  destruct (decide (missing (disk (env s)) f = false)) as [Hf|Hf].
  - rewrite !for_each_cons_run. specialize (Hkd f s).
    destruct (body f s) as [[[]|e] s1]; [|done]. simpl in Hkd.
    rewrite IH. by rewrite Hkd.
  - apply not_false_is_true in Hf. rewrite for_each_cons_run.
    assert (Hb : body f s = (Ok tt, s)).
    { unfold body, bind. by rewrite (resolve_missing _ _ _ Hf). }
    rewrite Hb. apply IH.
Qed.

Lemma keeps_disk_load_base fuel : keeps_disk (PolyYaco.load_base fuel).
Proof.
  unfold PolyYaco.load_base.
  apply keeps_disk_bind; [apply keeps_disk_set_this|]. intros _.
  apply keeps_disk_bind; [apply keeps_disk_set_this|]. intros _.
  apply keeps_disk_bind; [apply keeps_disk_set_this|]. intros _.
  apply keeps_disk_bind; [by intros s0|]. intros [b|]; [|apply keeps_disk_ret].
  apply keeps_disk_bind; [apply keeps_disk_set_this|]. intros _.
  apply keeps_disk_bind; [by apply keeps_disk_on_world|]. intros a.
  apply keeps_disk_set_this.
Qed.

Lemma substring_all s : String.substring 0 (String.length s) s = s.
Proof. induction s as [|c s IH]; simpl; [done|]. by rewrite IH. Qed.

Lemma split_first_append sep a b :
  has_char sep a = false ->
  split_first sep (String.append a (String sep b)) = Some (a, b).
Proof.
  unfold has_char. induction a as [|c a IH]; simpl.
  - by rewrite Ascii.eqb_refl.
  - destruct (Ascii.eqb c sep); [done|].
    destruct (split_first sep a) as [[]|] eqn:E; [done|]. intros _.
    by rewrite IH.
Qed.

Lemma pkg_prefix x : String.substring 0 6 (String.append "pkg://" x) = "pkg://".
Proof. by destruct x. Qed.

Lemma pkg_rest x :
  String.substring 6 (String.length (String.append "pkg://" x) - 6)
    (String.append "pkg://" x) = x.
Proof.
  change (String.length (String.append "pkg://" x)) with (6 + String.length x).
  rewrite (Nat.add_comm 6), Nat.add_sub.
  change (String.substring 0 (String.length x) x = x). apply substring_all.
Qed.

(** What resolving a bundled-resource locator comes to. *)
Lemma resolve_pkg fuel pkg loc s :
  has_char "/"%char pkg = false ->
  PolyYaco.resolve fuel
    (String.append "pkg://" (String.append pkg (String "/"%char loc))) s =
  (content <- PolyYaco.on_world (YacoIO.YacoPkg fuel pkg loc) ;;
   ret (Some (Layer KYacoPkg content))) s.
Proof.
  intros Hpkg. unfold PolyYaco.resolve.
  by rewrite pkg_prefix, pkg_rest, String.eqb_refl, (split_first_append _ _ loc Hpkg).
Qed.

Lemma resolve_pkg_noslash fuel name s :
  has_char "/"%char name = false ->
  PolyYaco.resolve fuel (String.append "pkg://" name) s = (Raise ValueError, s).
Proof.
  intros Hname. unfold PolyYaco.resolve.
  rewrite pkg_prefix, pkg_rest, String.eqb_refl.
  unfold has_char in Hname. by destruct (split_first "/" name).
Qed.

(** A locator is never skipped: when resolving it returns, it returns
    a layer. *)
Lemma resolve_pkg_layer fuel name s r s' :
  PolyYaco.resolve fuel (String.append "pkg://" name) s = (Ok r, s') ->
  exists content, r = Some (Layer KYacoPkg content).
Proof.
  unfold PolyYaco.resolve. rewrite pkg_prefix, pkg_rest, String.eqb_refl.
  destruct (split_first "/" name) as [[pkg loc]|]; [|done].
  unfold bind. destruct (PolyYaco.on_world _ s) as [[content|e] s1]; [|done].
  intros [= <- _]. by exists content.
Qed.

Lemma YacoPkg_unimportable fuel pkg loc w :
  packages (disk w) pkg = false ->
  YacoIO.YacoPkg fuel pkg loc w = (Raise ImportError, w).
Proof.
  intros Hp. unfold YacoIO.YacoPkg, YacoIO.YacoPkgDir.
  destruct (if has_char "*" loc then _ else _) as [[path pattern]|];
    unfold bind, YacoIO.import_package, bind, gets; by rewrite Hp.
Qed.

Lemma YacoPkg_no_resource fuel pkg loc w :
  packages (disk w) pkg = true ->
  has_char "*"%char loc = false \/ YacoIO.rsplit_slash loc = None ->
  resources (disk w) pkg loc = None ->
  YacoIO.YacoPkg fuel pkg loc w = (Raise SystemExit, w).
Proof.
  intros Hp Hloc Hres. unfold YacoIO.YacoPkg.
  assert (Hg : (if has_char "*" loc then YacoIO.rsplit_slash loc else None) = None).
  { destruct Hloc as [->| ->]; [done|]. by destruct (has_char "*" loc). }
  rewrite Hg. unfold bind, YacoIO.import_package, bind, gets, ret.
  by rewrite Hp, Hres.
Qed.

Lemma YacoPkg_no_directory fuel pkg loc path pattern w :
  packages (disk w) pkg = true ->
  has_char "*"%char loc = true ->
  YacoIO.rsplit_slash loc = Some (path, pattern) ->
  resource_dirs (disk w) pkg path = None ->
  YacoIO.YacoPkg fuel pkg loc w = (Raise YacoNotADirectory, w).
Proof.
  intros Hp Hstar Hsplit Hdir. unfold YacoIO.YacoPkg. rewrite Hstar, Hsplit.
  unfold bind, YacoIO.YacoPkgDir, bind, YacoIO.import_package, bind, gets, ret.
  by rewrite Hp, Hdir.
Qed.

(** A locator whose loader raises ends the loop of [load] where it
    stands: the entries after it are not read. *)
Lemma load_sources_pkg_raise fuel pkg loc rest s e :
  has_char "/"%char pkg = false ->
  YacoIO.YacoPkg fuel pkg loc (env s) = (Raise e, env s) ->
  PolyYaco.load_sources fuel
    (String.append "pkg://" (String.append pkg (String "/"%char loc)) :: rest) s =
  (Raise e, s).
Proof.
  intros Hpkg Hrun. unfold PolyYaco.load_sources.
  rewrite for_each_cons_run. unfold bind at 1.
  rewrite (resolve_pkg fuel pkg loc s Hpkg).
  unfold bind, PolyYaco.on_world. rewrite Hrun. by destruct s.
Qed.

(** [load] runs the loop over the names that are not missing. *)
Lemma load_skips_missing fuel s :
  PolyYaco.load fuel s =
  (PolyYaco.load_base fuel ;;;
   rawfiles <- gets (fun s => _PolyYaco_rawfiles (this s)) ;;
   PolyYaco.load_sources fuel
     (filter (fun f => missing (disk (env s)) f = false) rawfiles)) s.
Proof.
  unfold PolyYaco.load. unfold bind at 1 3.
  pose proof (keeps_disk_load_base fuel s) as Hkd.
  destruct (PolyYaco.load_base fuel s) as [[[]|e] s1]; [|done].
  unfold bind, gets. simpl in *. rewrite <- Hkd. apply load_sources_skip.
Qed.

(** C8 (as amended): [load] skips every name that is neither a
    bundled-resource locator nor an existing directory nor an existing
    file: the layers are those of the remaining names, and a source list
    of missing names only leaves what the base gave.  A
    bundled-resource locator is never skipped: when resolving it
    returns, it returns a layer, and when the locator does not resolve
    the error ends the loop there -- [ValueError] for a locator without
    a slash after the package name, [ImportError] for a package that
    cannot be imported, [SystemExit] for a resource that is not in the
    package, [YacoNotADirectory] for a pattern whose path is no
    resource directory. *)
Theorem C8_missing_sources_skipped fuel s rest :
  PolyYaco.load fuel s =
    (PolyYaco.load_base fuel ;;;
     rawfiles <- gets (fun s => _PolyYaco_rawfiles (this s)) ;;
     PolyYaco.load_sources fuel
       (filter (fun f => missing (disk (env s)) f = false) rawfiles)) s /\
  (Forall (fun f => missing (disk (env s)) f = true)
          (_PolyYaco_rawfiles (this s)) ->
   _PolyYaco_base (this s) = None ->
   (PolyYaco.load fuel s).1 = Ok tt /\
   _PolyYaco_yacs (this (PolyYaco.load fuel s).2) = [] /\
   _PolyYaco_filenames (this (PolyYaco.load fuel s).2) = []) /\
  (forall name r s',
     PolyYaco.resolve fuel (String.append "pkg://" name) s = (Ok r, s') ->
     exists content, r = Some (Layer KYacoPkg content)) /\
  (forall name,
     has_char "/"%char name = false ->
     PolyYaco.load_sources fuel (String.append "pkg://" name :: rest) s =
     (Raise ValueError, s)) /\
  (forall pkg loc,
     has_char "/"%char pkg = false ->
     packages (disk (env s)) pkg = false ->
     PolyYaco.load_sources fuel
       (String.append "pkg://" (String.append pkg (String "/"%char loc)) :: rest) s =
     (Raise ImportError, s)) /\
  (forall pkg loc,
     has_char "/"%char pkg = false ->
     packages (disk (env s)) pkg = true ->
     has_char "*"%char loc = false \/ YacoIO.rsplit_slash loc = None ->
     resources (disk (env s)) pkg loc = None ->
     PolyYaco.load_sources fuel
       (String.append "pkg://" (String.append pkg (String "/"%char loc)) :: rest) s =
     (Raise SystemExit, s)) /\
  (forall pkg loc path pattern,
     has_char "/"%char pkg = false ->
     packages (disk (env s)) pkg = true ->
     has_char "*"%char loc = true ->
     YacoIO.rsplit_slash loc = Some (path, pattern) ->
     resource_dirs (disk (env s)) pkg path = None ->
     PolyYaco.load_sources fuel
       (String.append "pkg://" (String.append pkg (String "/"%char loc)) :: rest) s =
     (Raise YacoNotADirectory, s)).
Proof.
  split_and!.
  - apply load_skips_missing.
  - intros Hall Hbase. rewrite load_skips_missing.
    unfold PolyYaco.load_base, bind, gets, PolyYaco.set_this, modify. simpl.
    rewrite Hbase. simpl.
    assert (Hnil : filter (fun f => missing (disk (env s)) f = false)
                     (_PolyYaco_rawfiles (this s)) = []).
    { induction Hall as [|f l Hf Hl IH]; [done|].
      rewrite filter_cons. destruct (decide _) as [Hd|Hd]; [congruence|done]. }
    rewrite Hnil. done.
  - intros name r s'. apply resolve_pkg_layer.
  - intros name Hname. unfold PolyYaco.load_sources.
    rewrite for_each_cons_run. unfold bind.
    by rewrite (resolve_pkg_noslash fuel name s Hname).
  - intros pkg loc Hpkg Hp. apply load_sources_pkg_raise; [done|].
    by apply YacoPkg_unimportable.
  - intros pkg loc Hpkg Hp Hloc Hres. apply load_sources_pkg_raise; [done|].
    by apply YacoPkg_no_resource.
  - intros pkg loc path pattern Hpkg Hp Hstar Hsplit Hdir.
    apply load_sources_pkg_raise; [done|].
    by eapply YacoPkg_no_directory.
Qed.

Lemma C8_missing_sources_skipped_witness :
  let s := {| env := example_world;
              this := {| _PolyYaco_base := None;
                         _PolyYaco_rawfiles := ["/etc/none.yaml"; "~/.config/none/"];
                         _PolyYaco_filenames := [];
                         _PolyYaco_yacs := [];
                         _PolyYaco_dirty := false;
                         _PolyYaco_merged := None |} |} in
  Forall (fun f => missing (disk (env s)) f = true) (_PolyYaco_rawfiles (this s)) /\
  _PolyYaco_base (this s) = None /\
  (PolyYaco.load 3 s).1 = Ok tt /\
  _PolyYaco_yacs (this (PolyYaco.load 3 s).2) = [] /\
  has_char "/"%char "Yaco" = false /\
  PolyYaco.load_sources 3 ["pkg://Yaco"; "/etc/app.yaml"] s = (Raise ValueError, s) /\
  has_char "/"%char "nowhere" = false /\
  packages (disk (env s)) "nowhere" = false /\
  PolyYaco.load_sources 3 ["pkg://nowhere/etc/config.yaml"; "/etc/app.yaml"] s =
    (Raise ImportError, s) /\
  packages (disk (env s)) "Yaco" = true /\
  (has_char "*"%char "etc/config.yaml" = false \/
   YacoIO.rsplit_slash "etc/config.yaml" = None) /\
  resources (disk (env s)) "Yaco" "etc/config.yaml" = None /\
  PolyYaco.load_sources 3 ["pkg://Yaco/etc/config.yaml"; "/etc/app.yaml"] s =
    (Raise SystemExit, s) /\
  has_char "*"%char "etc/*.config" = true /\
  YacoIO.rsplit_slash "etc/*.config" = Some ("etc", "*.config") /\
  resource_dirs (disk (env s)) "Yaco" "etc" = None /\
  PolyYaco.load_sources 3 ["pkg://Yaco/etc/*.config"; "/etc/app.yaml"] s =
    (Raise YacoNotADirectory, s).
Proof.
  intros s.
  assert (H1 : Forall (fun f => missing (disk (env s)) f = true)
                 (_PolyYaco_rawfiles (this s)))
    by (repeat constructor).
  assert (H2 : _PolyYaco_base (this s) = None) by reflexivity.
  assert (H3 : has_char "*"%char "etc/config.yaml" = false \/
               YacoIO.rsplit_slash "etc/config.yaml" = None) by (by left).
  destruct (C8_missing_sources_skipped 3 s ["/etc/app.yaml"])
    as (_ & Hskip & _ & Hvalue & Himport & Hexit & Hdir).
  destruct (Hskip H1 H2) as (Hok & Hyacs & _).
  pose proof (Hvalue "Yaco" eq_refl) as Hv.
  pose proof (Himport "nowhere" "etc/config.yaml" eq_refl eq_refl) as Hi.
  pose proof (Hexit "Yaco" "etc/config.yaml" eq_refl eq_refl H3 eq_refl) as Hx.
  pose proof (Hdir "Yaco" "etc/*.config" "etc" "*.config" eq_refl eq_refl eq_refl
                eq_refl eq_refl) as Hd.
  by split_and!.
Defined.

(** C8 (as stated) fails for a bundled-resource locator: with no base
    and a source list that holds one locator naming no resource, [load]
    does not return normally. *)
Lemma C8_pkg_locator_counterexample :
  let s := {| env := example_world;
              this := {| _PolyYaco_base := None;
                         _PolyYaco_rawfiles := ["pkg://Yaco/etc/config.yaml"];
                         _PolyYaco_filenames := [];
                         _PolyYaco_yacs := [];
                         _PolyYaco_dirty := false;
                         _PolyYaco_merged := None |} |} in
  (PolyYaco.load 3 s).1 = Raise SystemExit /\
  ~ load_skips_absent 3 s.
Proof.
  intros s. split; [reflexivity|].
  intros H. destruct H as [Hok _]; [reflexivity|by repeat constructor|].
  vm_compute in Hok. discriminate.
Qed.

(** ** C7: [save] *)

Lemma getTop_some s top cfn :
  last (_PolyYaco_yacs (this s)) = Some top ->
  last (_PolyYaco_filenames (this s)) = Some cfn ->
  PolyYaco._getTop s = (Ok (Some cfn, Some top), s).
Proof. intros Ht Hc. unfold PolyYaco._getTop. by rewrite Ht, Hc. Qed.

Lemma set_heap_same w : set_heap w (heap w) = w.
Proof. by destruct w. Qed.

(** [Yaco.save] of an object that [get_data] goes through: the file
    is emptied and [ValueError] raised, or the file cannot be opened;
    the export is written in neither case. *)
Lemma yaco_save_raises fuel w self to_file t F :
  rep (heap w) (VYaco self) t F ->
  exportable t = true ->
  depth t <= fuel ->
  YacoIO.save fuel self to_file w =
  if writable (disk w) to_file
  then (Raise ValueError, write_file to_file VNone w)
  else (Raise IOError, w).
Proof.
  intros Hrep Hex Hdepth.
  destruct (get_data_refines fuel (heap w) self t F Hrep Hex Hdepth)
    as (d & Hrun & Hd).
  unfold YacoIO.save, bind, on_heap. rewrite Hrun.
  cbn [fst snd]. rewrite set_heap_same.
  unfold open_unbuffered_text, bind, gets, modify, raise.
  by destruct (writable (disk w) to_file).
Qed.

(** With a base and a source list of missing names only, [load] leaves
    the base layer alone on the stack. *)
Lemma load_base_only fuel s b :
  _PolyYaco_base (this s) = Some b ->
  Forall (fun f => missing (disk (env s)) f = true) (_PolyYaco_rawfiles (this s)) ->
  (PolyYaco.load fuel s).1 = Ok tt ->
  exists a,
    _PolyYaco_filenames (this (PolyYaco.load fuel s).2) = ["_base"] /\
    _PolyYaco_yacs (this (PolyYaco.load fuel s).2) = [Layer KYaco a].
Proof.
  intros Hbase Hall. rewrite load_skips_missing.
  assert (Hnil : filter (fun f => missing (disk (env s)) f = false)
                   (_PolyYaco_rawfiles (this s)) = []).
  { induction Hall as [|f l Hf Hl IH]; [done|].
    rewrite filter_cons. destruct (decide _) as [Hd|Hd]; [congruence|done]. }
  unfold PolyYaco.load_base, bind, gets, PolyYaco.set_this, modify. simpl.
  rewrite Hbase. simpl.
  destruct (Yaco.__init__ fuel b (heap (env s))) as [[a|e] h1]; simpl; [|done].
  rewrite Hnil. simpl. intros _. by exists a.
Qed.

(** C7: when the last name on the stack is the reserved [_base],
    [save] raises and changes nothing -- and that is the state [load]
    leaves when a base was given and no source is there.  Otherwise,
    for a last layer that is a [Yaco] or a [YacoPkg], [save] does not
    write the layer: opening the file of the layer empties it and
    raises [ValueError], so the file ends up holding nothing; no other
    file, no object and no attribute is touched.  When the file cannot
    be opened, [IOError] is raised and nothing changes. *)
Theorem C7_save_top_layer fuel s top cfn t F :
  last (_PolyYaco_yacs (this s)) = Some top ->
  last (_PolyYaco_filenames (this s)) = Some cfn ->
  (cfn = "_base" ->
   PolyYaco.save fuel s =
   (Raise (Error "Cannot save to 'base' configuration"), s)) /\
  (forall s0 b,
     _PolyYaco_base (this s0) = Some b ->
     Forall (fun f => missing (disk (env s0)) f = true)
            (_PolyYaco_rawfiles (this s0)) ->
     (PolyYaco.load fuel s0).1 = Ok tt ->
     PolyYaco.save fuel (PolyYaco.load fuel s0).2 =
     (Raise (Error "Cannot save to 'base' configuration"),
      (PolyYaco.load fuel s0).2)) /\
  (cfn <> "_base" ->
   cls top <> KYacoDir ->
   rep (heap (env s)) (VYaco (obj top)) t F ->
   exportable t = true ->
   depth t <= fuel ->
   (writable (disk (env s)) cfn = true ->
    PolyYaco.save fuel s =
      (Raise ValueError,
       {| env := write_file cfn VNone (env s); this := this s |}) /\
    files (disk (env (PolyYaco.save fuel s).2)) !! cfn = Some VNone /\
    (forall p, p <> cfn ->
       files (disk (env (PolyYaco.save fuel s).2)) !! p =
       files (disk (env s)) !! p) /\
    heap (env (PolyYaco.save fuel s).2) = heap (env s)) /\
   (writable (disk (env s)) cfn = false ->
    PolyYaco.save fuel s = (Raise IOError, s))).
Proof.
  intros Htop Hcfn.
  assert (Hbase : forall s' top' ,
    last (_PolyYaco_yacs (this s')) = Some top' ->
    last (_PolyYaco_filenames (this s')) = Some "_base" ->
    PolyYaco.save fuel s' =
    (Raise (Error "Cannot save to 'base' configuration"), s')).
  { intros s' top' Ht Hc. unfold PolyYaco.save, bind.
    by rewrite (getTop_some _ _ _ Ht Hc). }
  split_and!.
  - intros ->. by eapply Hbase.
  - intros s0 b Hb Hall Hok.
    destruct (load_base_only fuel s0 b Hb Hall Hok) as (a & Hfn & Hy).
    eapply Hbase; [by rewrite Hy|by rewrite Hfn].
  - intros Hne Hcls Hrep Hex Hdepth.
    assert (Hrun : PolyYaco.save fuel s =
      PolyYaco.on_world (YacoIO.save fuel (obj top) cfn) s).
    { unfold PolyYaco.save, bind. rewrite (getTop_some _ _ _ Htop Hcfn). simpl.
      apply String.eqb_neq in Hne. rewrite Hne. by destruct (cls top). }
    rewrite Hrun. unfold PolyYaco.on_world.
    rewrite (yaco_save_raises fuel (env s) (obj top) cfn t F Hrep Hex Hdepth).
    split; intros Hw; rewrite Hw; simpl.
    + split_and!; [done| | |done].
      * apply lookup_insert_eq.
      * intros p Hp. by apply lookup_insert_ne.
    + by destruct s.
Qed.

Lemma C7_save_top_layer_witness :
  let s := example_state in
  let t := TYaco [("a", TScalar (SInt 18))] in
  last (_PolyYaco_yacs (this s)) = Some (Layer KYaco 1) /\
  last (_PolyYaco_filenames (this s)) = Some "/etc/app.yaml" /\
  "/etc/app.yaml" <> "_base" /\
  cls (Layer KYaco 1) <> KYacoDir /\
  exportable t = true /\
  depth t <= 3 /\
  writable (disk (env s)) "/etc/app.yaml" = true /\
  PolyYaco.save 3 s =
    (Raise ValueError,
     {| env := write_file "/etc/app.yaml" VNone (env s); this := this s |}) /\
  (let s0 := {| env := example_world;
                this := {| _PolyYaco_base := Some (VDict [("a", VInt 1)]);
                           _PolyYaco_rawfiles := ["/etc/none.yaml"];
                           _PolyYaco_filenames := [];
                           _PolyYaco_yacs := [];
                           _PolyYaco_dirty := false;
                           _PolyYaco_merged := None |} |} in
   PolyYaco.save 3 (PolyYaco.load 3 s0).2 =
   (Raise (Error "Cannot save to 'base' configuration"), (PolyYaco.load 3 s0).2)).
Proof.
  intros s t.
  assert (H1 : last (_PolyYaco_yacs (this s)) = Some (Layer KYaco 1)) by reflexivity.
  assert (H2 : last (_PolyYaco_filenames (this s)) = Some "/etc/app.yaml")
    by reflexivity.
  assert (H3 : "/etc/app.yaml" <> "_base") by discriminate.
  assert (H4 : cls (Layer KYaco 1) <> KYacoDir) by discriminate.
  assert (H5 : rep (heap (env s)) (VYaco (obj (Layer KYaco 1))) t ({[1]} ∪ (∅ ∪ ∅)))
    by (simpl obj; vm_compute heap; rep_concrete).
  assert (H6 : exportable t = true) by reflexivity.
  assert (H7 : depth t <= 3) by (simpl; lia).
  assert (H8 : writable (disk (env s)) "/etc/app.yaml" = true) by reflexivity.
  destruct (C7_save_top_layer 3 s (Layer KYaco 1) "/etc/app.yaml" t
              ({[1]} ∪ (∅ ∪ ∅)) H1 H2)
    as (_ & Hbase & Hfile).
  destruct (Hfile H3 H4 H5 H6 H7) as [Hw _].
  destruct (Hw H8) as (Hrun & _).
  assert (Hb : let s0 := {| env := example_world;
                this := {| _PolyYaco_base := Some (VDict [("a", VInt 1)]);
                           _PolyYaco_rawfiles := ["/etc/none.yaml"];
                           _PolyYaco_filenames := [];
                           _PolyYaco_yacs := [];
                           _PolyYaco_dirty := false;
                           _PolyYaco_merged := None |} |} in
   PolyYaco.save 3 (PolyYaco.load 3 s0).2 =
   (Raise (Error "Cannot save to 'base' configuration"), (PolyYaco.load 3 s0).2)).
  { intros s0. apply (Hbase s0 (VDict [("a", VInt 1)])); [reflexivity| |reflexivity].
    repeat constructor. }
  exact (conj H1 (conj H2 (conj H3 (conj H4 (conj H6 (conj H7 (conj H8 (conj Hrun Hb)))))))).
Defined.

(** The steps of [test_save]: a write through the [PolyYaco], then
    [save], then the file of the last layer read into a new [Yaco].
    The test expects to read back the value written; [save] raises
    instead and the new object comes out empty. *)
Example C7_instance :
  let r := (PolyYaco.__setattr__ 3 "a" (VInt 19) ;;; PolyYaco.save 3) example_state in
  let yl := (yl <- on_heap Yaco.new_empty ;;
             YacoIO.load 3 yl "/etc/app.yaml" None ;;;
             on_heap (Yaco.__contains__ yl "a")) (env r.2) in
  r.1 = Raise ValueError /\
  files (disk (env r.2)) !! "/etc/app.yaml" = Some VNone /\
  yl.1 = Ok false.
Proof. split_and!; vm_compute; reflexivity. Qed.

(** * Further properties *)

(** ** Construction, export and copy *)

Lemma dict_set_absent {V} k (v : V) d :
  dict_get k d = None -> dict_set k v d = d ++ [(k, v)].
Proof.
  induction d as [|[k' v'] d IH]; simpl; [done|].
  destruct (String.eqb k k'); [done|]. intros H. by rewrite IH.
Qed.

Lemma dict_get_app_None {V} k (d1 d2 : list (string * V)) :
  dict_get k d1 = None -> dict_get k (d1 ++ d2) = dict_get k d2.
Proof.
  induction d1 as [|[k' v'] d IH]; simpl; [done|].
  destruct (String.eqb k k'); [done|]. done.
Qed.

(** Merging entries with new keys appends them, each one parsed. *)
Lemma tupdate_fresh items self :
  NoDup (dict_keys items) ->
  Forall (fun kv => dict_get kv.1 self = None) items ->
  tupdate (TDict items) self =
  self ++ map (fun kv => (kv.1, tparse kv.2)) items.
Proof.
  revert self. induction items as [|[k v] items IH]; intros self Hnd Hf.
  - simpl. by rewrite tupdate_nil, app_nil_r.
  - apply NoDup_cons in Hnd as [Hk Hnd]. apply Forall_cons in Hf as [Hs Hf].
    simpl in *. rewrite tupdate_cons.
    assert (Hstep : tstep k v self = self ++ [(k, tparse v)]).
    { unfold tstep. rewrite Hs. destruct (is_tdict v); by apply dict_set_absent. }
    rewrite Hstep, IH; [by rewrite <- app_assoc|done|].
    apply Forall_forall. intros [k' v'] Hin. simpl.
    rewrite Forall_forall in Hf. specialize (Hf _ Hin). simpl in Hf.
    rewrite dict_get_app_None by done. simpl.
    destruct (String.eqb k' k) eqn:E; [|done].
    apply String.eqb_eq in E. subst. destruct Hk.
    apply list_elem_of_In. apply list_elem_of_In in Hin.
    by apply (in_map fst) in Hin.
Qed.

Lemma tparse_fresh items :
  NoDup (dict_keys items) ->
  tparse (TDict items) = TYaco (map (fun kv => (kv.1, tparse kv.2)) items) /\
  tparse (TYaco items) = TYaco (map (fun kv => (kv.1, tparse kv.2)) items).
Proof.
  intros Hnd.
  assert (H : tupdate (TDict items) [] = map (fun kv => (kv.1, tparse kv.2)) items).
  { rewrite tupdate_fresh; [done|done|]. by apply Forall_forall. }
  split.
  - by rewrite tparse_dict, H.
  - by rewrite tparse_dict, tupdate_yaco, H.
Qed.

(** Parsing changes nothing in a tree whose mappings are all [Yaco]s. *)
Lemma tparse_id t :
  all_nodes t = true -> tnodup t = true -> tparse t = t.
Proof.
  remember (depth t) as n eqn:Hn. assert (Hd : depth t <= n) by lia.
  clear Hn. revert t Hd. induction n as [|n IH]; intros t Hd Ha Hnd.
  - destruct t; simpl in Hd; try lia. done.
  - destruct t as [c|l|d|d].
    + done.
    + rewrite tparse_list. f_equal. apply depth_list in Hd. simpl in *.
      induction Hd as [|x l Hx Hl IHl]; [done|]. simpl in *.
      apply andb_prop in Ha as [Ha1 Ha2]. apply andb_prop in Hnd as [Hn1 Hn2].
      by rewrite IH, IHl.
    + done.
    + pose proof (depth_items (TYaco d) n eq_refl Hd) as Hf. simpl in Hf.
      simpl in Ha, Hnd. apply andb_prop in Hnd as [Hk Hnd].
      apply bool_decide_eq_true in Hk.
      destruct (tparse_fresh d Hk) as [_ ->]. f_equal. clear Hk Hd.
      induction Hf as [|[k v] r Hkv Hr IHr]; [done|]. simpl in *.
      apply andb_prop in Ha as [Ha1 Ha2]. apply andb_prop in Hnd as [Hn1 Hn2].
      by rewrite IH, IHr.
Qed.

Lemma depth_items_le d n :
  Forall (fun kv : string * tree => depth kv.2 <= n) d ->
  depth (TYaco d) <= S n /\ depth (TDict d) <= S n.
Proof.
  intros H. simpl.
  assert (foldr (fun (kv : string * tree) m => Nat.max (depth kv.2) m) 0 d <= n).
  { induction H as [|kv r Hkv Hr IH]; simpl; lia. }
  lia.
Qed.

Lemma depth_list_le l n :
  Forall (fun x => depth x <= n) l -> depth (TList l) <= S n.
Proof.
  intros H. simpl.
  assert (foldr (fun x m => Nat.max (depth x) m) 0 l <= n).
  { induction H as [|kv r Hkv Hr IH]; simpl; lia. }
  lia.
Qed.

(** Exporting entries under new keys, none of them private or
    excluded, appends their exports. *)
Lemma texport_fold_fresh priv entries data :
  Forall (fun kv : string * tree =>
            tkey_in kv.1 priv = false /\ Yaco.is_private kv.1 = false) entries ->
  NoDup (dict_keys entries) ->
  Forall (fun kv => dict_get kv.1 data = None) entries ->
  fold_left (texport_step priv) entries data =
  data ++ map (fun kv => (kv.1, texport kv.2)) entries.
Proof.
  revert data. induction entries as [|[k v] r IH]; intros data Hp Hnd Hf.
  - simpl. by rewrite app_nil_r.
  - apply Forall_cons in Hp as [[Hin Hpr] Hp].
    apply NoDup_cons in Hnd as [Hk Hnd]. apply Forall_cons in Hf as [Hs Hf].
    simpl in *. unfold texport_step at 2. simpl. rewrite Hin, Hpr.
    rewrite (dict_set_absent _ _ _ Hs), IH; [by rewrite <- app_assoc|done|done|].
    apply Forall_forall. intros [k' v'] Hin'. simpl.
    rewrite Forall_forall in Hf. specialize (Hf _ Hin'). simpl in Hf.
    rewrite dict_get_app_None by done. simpl.
    destruct (String.eqb k' k) eqn:E; [|done].
    apply String.eqb_eq in E. subst. destruct Hk.
    apply list_elem_of_In. apply list_elem_of_In in Hin'.
    by apply (in_map fst) in Hin'.
Qed.

Lemma dict_keys_map {V W} (f : V -> W) (d : list (string * V)) :
  dict_keys (map (fun kv => (kv.1, f kv.2)) d) = dict_keys d.
Proof. unfold dict_keys. rewrite map_map. done. Qed.

Lemma dict_get_map {V W} (f : V -> W) k (d : list (string * V)) :
  dict_get k (map (fun kv => (kv.1, f kv.2)) d) = f <$> dict_get k d.
Proof.
  induction d as [|[k' v'] d IH]; simpl; [done|]. by destruct (String.eqb k k').
Qed.

Lemma dict_get_private_None {V} k (d : list (string * V)) :
  Yaco.is_private k = true ->
  Forall (fun kv => Yaco.is_private kv.1 = false) d ->
  dict_get k d = None.
Proof.
  intros Hk. induction 1 as [|[k' v'] d H1 H2 IH]; simpl; [done|].
  destruct (String.eqb k k') eqn:E; [|done].
  apply String.eqb_eq in E. subst. simpl in H1. congruence.
Qed.

(** The tree that [Yaco(data)] unfolds to. *)
Lemma clean_export n v :
  depth (tree_of v) <= n -> clean v = true ->
  texport (tparse (tree_of v)) = v /\
  exportable (tparse (tree_of v)) = true /\
  depth (tparse (tree_of v)) <= n.
Proof.
  revert v. induction n as [|n IH]; intros v Hd Hc.
  - destruct v as [c|l|d|a]; simpl in Hd; try lia. done.
  - destruct v as [c|l|d|a].
    + simpl. split_and!; [done|done|lia].
    + change (tree_of (VList l)) with (TList (map tree_of l)) in *.
      apply depth_list in Hd. apply Forall_map in Hd. simpl in Hc.
      rewrite tparse_list.
      assert (H : Forall (fun x => texport (tparse (tree_of x)) = x /\
                                   exportable (tparse (tree_of x)) = true /\
                                   depth (tparse (tree_of x)) <= n) l).
      { induction Hd as [|x r Hx Hr IHr]; constructor.
        - simpl in Hc. apply andb_prop in Hc as [Hc1 _]. by apply IH.
        - simpl in Hc. apply andb_prop in Hc as [_ Hc2]. by apply IHr. }
      clear Hd Hc. split_and!.
      * simpl. f_equal. induction H as [|x r (Hx & _) Hr IHr]; [done|].
        simpl. by rewrite Hx, IHr.
      * simpl. induction H as [|x r (_ & Hx & _) Hr IHr]; [done|].
        simpl. by rewrite Hx, IHr.
      * apply depth_list_le. apply Forall_map. apply Forall_map.
        eapply Forall_impl; [exact H|]. by intros x (_ & _ & Hx).
    + change (tree_of (VDict d))
        with (TDict (map (fun kv => (kv.1, tree_of kv.2)) d)) in *.
      pose proof (depth_items (TDict (map (fun kv => (kv.1, tree_of kv.2)) d))
                    n eq_refl Hd) as Hf. simpl in Hf.
      apply Forall_map in Hf. simpl in Hf, Hc.
      apply andb_prop in Hc as [Hnd Hc]. apply bool_decide_eq_true in Hnd.
      assert (Hnd' : NoDup (dict_keys (map (fun kv => (kv.1, tree_of kv.2)) d)))
        by (by rewrite dict_keys_map).
      destruct (tparse_fresh _ Hnd') as [-> _]. rewrite map_map. cbn [fst snd].
      set (td := map (fun kv : string * value =>
                        (kv.1, tparse (tree_of kv.2))) d).
      assert (Hkeys : dict_keys td = dict_keys d)
        by (unfold td; apply (dict_keys_map (fun v => tparse (tree_of v)))).
      assert (H : Forall (fun kv : string * value =>
                    Yaco.is_private kv.1 = false /\ has_dot kv.1 = false /\
                    texport (tparse (tree_of kv.2)) = kv.2 /\
                    exportable (tparse (tree_of kv.2)) = true /\
                    depth (tparse (tree_of kv.2)) <= n) d).
      { clear Hnd Hnd' Hkeys Hd. subst td.
        induction Hf as [|kv r Hkv Hr IHr]; constructor.
        - simpl in Hc. apply andb_prop in Hc as [Hc1 _].
          apply andb_prop in Hc1 as [Hc1 Hcv].
          apply andb_prop in Hc1 as [Hp Hdot].
          apply negb_true_iff in Hp, Hdot.
          destruct (IH _ Hkv Hcv) as (? & ? & ?). by split_and!.
        - simpl in Hc. apply andb_prop in Hc as [_ Hc2]. by apply IHr. }
      assert (Hpriv : tpriv td = TList []).
      { unfold tpriv, td.
        rewrite (dict_get_map (fun v => tparse (tree_of v))).
        rewrite (dict_get_private_None "_private" d); [done|done|].
        eapply Forall_impl; [exact H|]. by intros kv (Hp & _). }
      split_and!.
      * rewrite texport_yaco, Hpriv, texport_fold_fresh.
        -- simpl. f_equal. unfold td. rewrite map_map. simpl.
           clear -H. induction H as [|[k v] r (_ & _ & Hx & _) Hr IHr]; [done|].
           simpl in *. by rewrite Hx, IHr.
        -- unfold td. apply Forall_map. simpl.
           eapply Forall_impl; [exact H|]. by intros kv (Hp & _).
        -- by rewrite Hkeys.
        -- by apply Forall_forall.
      * cbn [exportable]. rewrite Hpriv. simpl. unfold td.
        clear -H. induction H as [|[k v] r (Hp & Hdot & _ & Hx & _) Hr IHr]; [done|].
        simpl in *. by rewrite Hp, Hdot, Hx, IHr.
      * apply depth_items_le. unfold td. apply Forall_map. simpl.
        eapply Forall_impl; [exact H|]. by intros kv (_ & _ & _ & _ & Hx).
    + done.
Qed.

(** [Yaco(data)] for a mapping: a new object that unfolds to the
    parsed data; no object that was there is touched. *)
Lemma init_refines fuel h data dt Fd :
  rep h data dt Fd -> is_tdict dt = true -> depth dt <= fuel ->
  exists h' F',
    Yaco.__init__ fuel data h = (Ok (List.length h), h') /\
    rep h' (VYaco (List.length h)) (tparse dt) F' /\
    frame h h' ∅ F'.
Proof.
  intros Hdata Hdict Hdepth.
  destruct (update_refines fuel (h ++ [[]]) (List.length h) [] {[List.length h]}
              data dt Fd) as (h' & F' & Hrun & Hrep & Hfr).
  - apply rep_new.
  - eapply frame_keeps; [apply frame_alloc|exact Hdata|set_solver].
  - done.
  - intros a Ha Hb. apply elem_of_singleton in Ha. subst.
    pose proof (rep_bound _ _ _ _ Hdata _ Hb). lia.
  - done.
  - exists h', F'. split_and!.
    + assert (Hd : is_dict data = true) by (by rewrite <- (rep_is_dict _ _ _ _ Hdata)).
      unfold Yaco.__init__, bind, Yaco.new_empty.
      destruct data; try done; by rewrite Hrun.
    + by rewrite tparse_dict.
    + eapply frame_trans; [apply frame_alloc|done].
Qed.

(** X1: [Yaco(data)] for a mapping without [Yaco]s in it returns a new
    object and touches no other; the object has the keys of [data], in
    order; under each key it holds the value parsed: a scalar as it is,
    a mapping as a [Yaco] built from it, a list with every mapping in
    it, at any depth, turned into a [Yaco].  For a list, a number,
    [None] or a boolean the constructor raises. *)
Theorem X1_constructor_converts fuel h :
  (forall d,
     plain (VDict d) = true ->
     NoDup (dict_keys d) ->
     depth (tree_of (VDict d)) <= fuel ->
     exists h' F' td,
       Yaco.__init__ fuel (VDict d) h = (Ok (List.length h), h') /\
       rep h' (VYaco (List.length h)) (TYaco td) F' /\
       all_nodes (TYaco td) = true /\
       dict_keys td = dict_keys d /\
       (forall k v, dict_get k d = Some v ->
                    dict_get k td = Some (tparse (tree_of v))) /\
       frame h h' ∅ F') /\
  (forall data, is_dict data = false -> (forall s, data <> VStr s) ->
     exists msg, Yaco.__init__ fuel data h = (Raise (Error msg), h)).
Proof.
  split.
  - intros d Hp Hnd Hdepth.
    destruct (init_refines fuel h (VDict d) (tree_of (VDict d)) ∅
                (rep_plain h _ Hp) eq_refl Hdepth) as (h' & F' & Hrun & Hrep & Hfr).
    change (tree_of (VDict d))
      with (TDict (map (fun kv => (kv.1, tree_of kv.2)) d)) in Hrep.
    assert (Hnd' : NoDup (dict_keys (map (fun kv : string * value =>
                                            (kv.1, tree_of kv.2)) d)))
      by (by rewrite dict_keys_map).
    destruct (tparse_fresh _ Hnd') as [Heq _]. rewrite map_map in Heq.
    cbn [fst snd] in Heq.
    exists h', F', (map (fun kv : string * value =>
                           (kv.1, tparse (tree_of kv.2))) d).
    split_and!; [done|by rewrite <- Heq| | | |done].
    + rewrite <- Heq. apply tparse_all_nodes.
    + apply (dict_keys_map (fun v => tparse (tree_of v))).
    + intros k v Hk.
      by rewrite (dict_get_map (fun v => tparse (tree_of v))), Hk.
  - intros data Hd Hs. exists "cannot parse".
    destruct data as [c|l|d|a]; done.
Qed.

Lemma X1_constructor_converts_witness :
  let d := [("a", VList [VInt 1; VList [VInt 1; VDict [("b", VInt 12)]]])] in
  plain (VDict d) = true /\
  NoDup (dict_keys d) /\
  depth (tree_of (VDict d)) <= 5 /\
  (exists h' F' td,
     Yaco.__init__ 5 (VDict d) [] = (Ok 0, h') /\
     rep h' (VYaco 0) (TYaco td) F' /\
     all_nodes (TYaco td) = true /\
     dict_get "a" td =
       Some (TList [TScalar (SInt 1);
                    TList [TScalar (SInt 1); TYaco [("b", TScalar (SInt 12))]]])) /\
  (exists msg, Yaco.__init__ 5 (VList []) [] = (Raise (Error msg), [])).
Proof.
  intros d.
  assert (H1 : plain (VDict d) = true) by reflexivity.
  assert (H2 : NoDup (dict_keys d)) by (vm_compute; repeat constructor; set_solver).
  assert (H3 : depth (tree_of (VDict d)) <= 5) by (vm_compute; lia).
  destruct (X1_constructor_converts 5 []) as [Hmap Hother].
  destruct (Hmap d H1 H2 H3) as (h' & F' & td & Hrun & Hrep & Hall & _ & Hget & _).
  pose proof (Hget "a" _ eq_refl) as Ha.
  pose proof (Hother (VList []) eq_refl ltac:(done)) as Hl.
  split_and!; [done|done|done| |done].
  exists h', F', td. by split_and!.
Defined.

(** [Yaco(data).get_data()] for clean data. *)
Lemma construct_export_id fuel h d :
  clean (VDict d) = true ->
  depth (tree_of (VDict d)) <= fuel ->
  exists h',
    Yaco.__init__ fuel (VDict d) h = (Ok (List.length h), h') /\
    Yaco.get_data fuel (List.length h) h' = (Ok d, h').
Proof.
  intros Hc Hdepth.
  destruct (clean_export fuel (VDict d) Hdepth Hc) as (Hexp & Hex & Hdp).
  assert (Hp : plain (VDict d) = true).
  { rewrite <- Hexp. apply texport_plain. }
  destruct (init_refines fuel h (VDict d) (tree_of (VDict d)) ∅
              (rep_plain h _ Hp) eq_refl Hdepth) as (h' & F' & Hrun & Hrep & Hfr).
  destruct (get_data_refines fuel h' _ _ _ Hrep Hex Hdp) as (d' & Hgd & Hd').
  exists h'. split; [done|]. rewrite Hexp in Hd'. by injection Hd' as ->.
Qed.

(** X2: for data that holds no [Yaco], no key twice, and no key that
    starts with [_] or holds a dot, [Yaco(data).get_data()] is [data]
    again. *)
Theorem X2_construct_export_round_trip fuel h d :
  clean (VDict d) = true ->
  depth (tree_of (VDict d)) <= fuel ->
  exists h',
    Yaco.__init__ fuel (VDict d) h = (Ok (List.length h), h') /\
    Yaco.get_data fuel (List.length h) h' = (Ok d, h').
Proof. apply construct_export_id. Qed.

Lemma X2_construct_export_round_trip_witness :
  let d := [("a", VInt 1); ("g", VList [VInt 0; VDict [("h", VInt 6)]]);
            ("c", VDict [("d", VInt 3)])] in
  clean (VDict d) = true /\
  depth (tree_of (VDict d)) <= 4 /\
  exists h',
    Yaco.__init__ 4 (VDict d) [] = (Ok 0, h') /\
    Yaco.get_data 4 0 h' = (Ok d, h').
Proof.
  intros d.
  assert (H1 : clean (VDict d) = true) by (by vm_compute).
  assert (H2 : depth (tree_of (VDict d)) <= 4) by (vm_compute; lia).
  split_and!; [done|done|].
  exact (X2_construct_export_round_trip 4 [] d H1 H2).
Defined.

(** X3: [copy] of an object without sharing, whose lists hold no
    mapping, returns a new object that unfolds to the same tree and has
    no object in common with the original; the original is untouched,
    and stays so when a key of the copy is assigned. *)
Theorem X3_copy_is_deep fuel h self t F :
  rep h (VYaco self) t F ->
  all_nodes t = true ->
  lists_flat t = true ->
  depth t <= fuel ->
  exists h' F',
    YacoMore.copy fuel self h = (Ok (List.length h), h') /\
    rep h' (VYaco (List.length h)) t F' /\
    rep h' (VYaco self) t F /\
    F ## F' /\
    (forall a, a < List.length h -> h' !! a = h !! a) /\
    (forall key c,
       let h2 := (Yaco.__setattr__ fuel (List.length h) key (VScalar c) h').2 in
       dict_get key (cell h2 (List.length h)) = Some (VScalar c) /\
       rep h2 (VYaco self) t F).
Proof.
  intros Hself Hall _ Hdepth.
  pose proof Hself as Hs0.
  apply rep_yaco_inv in Hs0 as (td & F0 & -> & _).
  destruct (init_refines fuel h (VYaco self) (TYaco td) F Hself eq_refl Hdepth)
    as (h' & F' & Hrun & Hrep & Hfr).
  rewrite (tparse_id _ Hall (rep_tnodup _ _ _ _ Hself)) in Hrep.
  pose proof Hfr as (Hlen & Hfresh & Hsame).
  assert (Hkeep : rep h' (VYaco self) (TYaco td) F).
  { eapply frame_keeps; [exact Hfr|exact Hself|set_solver]. }
  assert (Hdj : F ## F').
  { intros a Ha Hb. pose proof (rep_bound _ _ _ _ Hself _ Ha).
    destruct (Hfresh _ Hb); [set_solver|lia]. }
  assert (Hnew : List.length h < List.length h').
  { eapply rep_bound; [exact Hrep|].
    apply rep_yaco_inv in Hrep as (? & ? & _ & -> & _). set_solver. }
  exists h', F'. split_and!; [done|done|done|done| |].
  - intros a Ha. apply Hsame; [done|set_solver].
  - intros key c. rewrite yaco_setattr_scalar. cbn [snd]. split.
    + rewrite cell_put_eq by done. apply dict_get_set_eq.
    + eapply rep_stable; [exact Hkeep|]. intros a Ha.
      unfold put_cell. apply list_lookup_insert_ne. intros <-.
      pose proof (rep_bound _ _ _ _ Hself _ Ha). lia.
Qed.

Lemma X3_copy_is_deep_witness :
  let h : store := [[("c", VYaco 1); ("g", VList [VInt 0; VInt 1])]; [("d", VInt 3)]] in
  let t := TYaco [("c", TYaco [("d", TScalar (SInt 3))]);
                  ("g", TList [TScalar (SInt 0); TScalar (SInt 1)])] in
  let F : gset addr := {[0]} ∪ (({[1]} ∪ (∅ ∪ ∅)) ∪ ((∅ ∪ (∅ ∪ ∅)) ∪ ∅)) in
  rep h (VYaco 0) t F /\
  all_nodes t = true /\
  lists_flat t = true /\
  depth t <= 3 /\
  exists h' F',
    YacoMore.copy 3 0 h = (Ok 2, h') /\
    rep h' (VYaco 2) t F' /\
    rep h' (VYaco 0) t F /\
    F ## F'.
Proof.
  intros h t F.
  assert (H1 : rep h (VYaco 0) t F) by (unfold h, t, F; rep_concrete).
  assert (H2 : all_nodes t = true) by reflexivity.
  assert (H3 : lists_flat t = true) by reflexivity.
  assert (H4 : depth t <= 3) by (vm_compute; lia).
  split_and!; [done|done|done|done|].
  destruct (X3_copy_is_deep 3 h 0 t F H1 H2 H3 H4)
    as (h' & F' & Hrun & Hrep & Hkeep & Hdj & _).
  by exists h', F'.
Defined.

(** ** Item assignment and deletion *)

Lemma setitem_rec_eq n fuel self key value :
  Yaco.setitem_rec n fuel self key value =
  match split_dot key with
  | None => Yaco.__setattr__ fuel self key value
  | Some (k1, k2) =>
      x <- Yaco.__getattr__ self k1 ;;
      match x with
      | VYaco a =>
          match n with
          | O => raise RecursionError
          | S n' => Yaco.setitem_rec n' fuel a k2 value
          end
      | VDict d => Yaco.dict_setitem self k1 (VDict (dict_set k2 value d))
      | _ => raise TypeError
      end
  end.
Proof. by destruct n. Qed.

Lemma getitem_rec_eq n self key :
  Yaco.getitem_rec n self key =
  match split_dot key with
  | None => Yaco.__getattr__ self key
  | Some (k1, k2) =>
      x <- Yaco.__getattr__ self k1 ;;
      match x with
      | VYaco a =>
          match n with
          | O => raise RecursionError
          | S n' => Yaco.getitem_rec n' a k2
          end
      | VDict d =>
          match dict_get k2 d with
          | Some v => ret v
          | None => raise KeyError
          end
      | _ => raise TypeError
      end
  end.
Proof. by destruct n. Qed.

Lemma split_first_length sep s a b :
  split_first sep s = Some (a, b) ->
  String.length s = String.length a + 1 + String.length b.
Proof.
  revert a b. induction s as [|c s IH]; intros a b; simpl; [done|].
  destruct (Ascii.eqb c sep).
  - intros [= <- <-]. simpl. lia.
  - destruct (split_first sep s) as [[k1 k2]|]; [|done].
    intros [= <- <-]. simpl. rewrite (IH k1 k2 eq_refl). lia.
Qed.

Lemma head_key_dotted key : has_dot key = true -> head_key key <> key.
Proof.
  unfold has_dot, has_char, head_key, split_dot.
  destruct (split_first "." key) as [[k1 k2]|] eqn:E; [|done].
  intros _ ->. apply split_first_length in E. lia.
Qed.

Lemma settable_eq n key td :
  settable n key td =
  match split_dot key with
  | None => true
  | Some (k1, k2) =>
      match dict_get k1 td with
      | None => true
      | Some (TYaco sub) =>
          match n with
          | O => false
          | S n' => settable n' k2 sub
          end
      | Some _ => false
      end
  end.
Proof. by destruct n. Qed.

Lemma settable_nil n key : settable n key [] = true.
Proof. rewrite settable_eq. by destruct (split_dot key) as [[k1 k2]|]. Qed.

(** Assigning a scalar to a key of [self]. *)
Lemma setattr_scalar_refines fuel h self td F key c :
  rep h (VYaco self) (TYaco td) F ->
  exists h' F',
    Yaco.__setattr__ fuel self key (VScalar c) h = (Ok tt, h') /\
    Yaco.__getattr__ self key h' = (Ok (VScalar c), h') /\
    rep h' (VYaco self) (TYaco (dict_set key (TScalar c) td)) F' /\
    frame h h' F F' /\
    (forall k, k <> key ->
               dict_get k (cell h' self) = dict_get k (cell h self)).
Proof.
  intros Hself.
  destruct (setitem_refines h h self td F key (VScalar c) (TScalar c) ∅
              Hself (frame_refl h ∅) (rep_scalar h c))
    as (h2 & F' & Hrun & Hrep & Hfr).
  injection Hrun as <-.
  apply rep_yaco_inv in Hself as (? & ? & _ & _ & _ & Hlt & _).
  eexists _, F'. split_and!; [apply yaco_setattr_scalar| |exact Hrep|exact Hfr|].
  - apply getattr_present. rewrite cell_put_eq by done. apply dict_get_set_eq.
  - intros k Hk. rewrite cell_put_eq by done. by apply dict_get_set_ne.
Qed.

(** Item assignment of a scalar along a dotted path, and the read back. *)
Lemma setitem_path fuel c n :
  forall self key h td F,
    rep h (VYaco self) (TYaco td) F ->
    all_nodes_dict td = true ->
    String.length key <= n ->
    (settable n key td = true ->
     exists h' td' F',
       Yaco.setitem_rec n fuel self key (VScalar c) h = (Ok tt, h') /\
       Yaco.getitem_rec n self key h' = (Ok (VScalar c), h') /\
       rep h' (VYaco self) (TYaco td') F' /\
       frame h h' F F' /\
       (forall k, k <> head_key key ->
                  dict_get k (cell h' self) = dict_get k (cell h self))) /\
    (settable n key td = false ->
     Yaco.setitem_rec n fuel self key (VScalar c) h = (Raise TypeError, h)).
Proof.
  induction n as [n IH] using lt_wf_ind.
  intros self key h td F Hself Hall Hlen.
  rewrite setitem_rec_eq, settable_eq. unfold head_key.
  destruct (split_dot key) as [[k1 k2]|] eqn:Es.
  2:{ split; [|done]. intros _.
      destruct (setattr_scalar_refines fuel h self td F key c Hself)
        as (h' & F' & Hrun & Hget & Hrep & Hfr & Hoth).
      exists h', (dict_set key (TScalar c) td), F'. split_and!; try done.
      rewrite getitem_rec_eq, Es. done. }
  pose proof (split_first_length _ _ _ _ Es) as Hlk.
  destruct n as [|n']; [lia|].
  pose proof Hself as Hs0.
  apply rep_yaco_inv in Hs0 as (td0 & F0 & [= <-] & -> & Hnin & Hlt & Hnd & Hd).
  destruct (rep_dict_focus _ _ _ _ k1 Hd) as (Fv & Fr & -> & Hdj & Hget & _).
  destruct (dict_get k1 (cell h self)) as [v|] eqn:Ev.
  - destruct Hget as (t & Ht & Hv). rewrite Ht.
    rewrite (bind_ok _ _ _ _ _ (getattr_present _ _ _ _ Ev)).
    destruct v as [c0|l|d|a].
    + apply rep_scalar_inv in Hv as [-> _]. by split.
    + apply rep_list_shape in Hv as [tl ->]. by split.
    + apply rep_dict_shape in Hv as [tdd ->].
      by pose proof (all_nodes_dict_get _ _ _ Hall Ht).
    + pose proof Hv as Hv0.
      apply rep_yaco_inv in Hv0 as (sub & Fa0 & -> & _).
      pose proof (all_nodes_dict_get _ _ _ Hall Ht) as Hsub.
      destruct (IH n' ltac:(lia) a k2 h sub Fv Hv Hsub ltac:(lia)) as [IHok IHerr].
      split; [|exact IHerr].
      intros Hst. destruct (IHok Hst) as (h' & sub' & Fa' & Hrun & Hread & Hrep & Hfr & _).
      destruct (inplace_refines h h' self td ({[self]} ∪ (Fv ∪ Fr)) k1 a sub sub' Fa'
                  Hself Ev Ht) as (F' & Hrep' & Hfr'); [|exact Hrep|].
      { intros Fo Hr. by destruct (rep_functional _ _ _ _ Hv _ _ Hr) as [_ <-]. }
      assert (Hcell : cell h' self = cell h self).
      { destruct Hfr as (_ & _ & Hsame). unfold cell.
        rewrite Hsame; [done|done|set_solver]. }
      exists h', (dict_set k1 (TYaco sub') td), F'. split_and!; try done.
      * rewrite getitem_rec_eq, Es.
        rewrite (bind_ok _ _ h' (VYaco a) h'); [done|].
        apply getattr_present. by rewrite Hcell.
      * intros k _. by rewrite Hcell.
  - destruct Hget as [Ht ->]. rewrite Ht. split; [|done]. intros _.
    rewrite (bind_ok _ _ _ _ _ (getattr_absent _ _ _ Ev)).
    set (m := List.length h).
    set (h0 := put_cell (h ++ [[]]) self (dict_set k1 (VYaco m) (cell h self))).
    destruct (setitem_refines h (h ++ [[]]) self td ({[self]} ∪ (∅ ∪ Fr)) k1
                (VYaco m) (TYaco []) {[m]} Hself (frame_alloc h) (rep_new h))
      as (h2 & F0' & Hrun0 & Hrep0 & Hfr0).
    unfold Yaco.dict_setitem, modify in Hrun0. rewrite cell_alloc in Hrun0.
    injection Hrun0 as <-. fold h0 in Hrep0, Hfr0.
    assert (Hlt0 : self < List.length (h ++ [[]])) by (rewrite length_app; lia).
    assert (Hm : rep h0 (VYaco m) (TYaco []) {[m]}).
    { eapply rep_stable; [apply rep_new|]. intros a Ha.
      apply elem_of_singleton in Ha. subst a. unfold h0, put_cell.
      apply list_lookup_insert_ne. unfold m. lia. }
    destruct (IH n' ltac:(lia) m k2 h0 [] {[m]} Hm eq_refl ltac:(lia)) as [IHok _].
    destruct (IHok (settable_nil _ _))
      as (h' & sub' & Fm' & Hrun & Hread & Hrep & Hfr & _).
    assert (Hc0 : cell h0 self = dict_set k1 (VYaco m) (cell h self)).
    { unfold h0. by rewrite cell_put_eq. }
    destruct (inplace_refines h0 h' self (dict_set k1 (TYaco []) td) F0' k1 m [] sub' Fm'
                Hrep0) as (F' & Hrep' & Hfr'); [| | |exact Hrep|].
    { rewrite Hc0. apply dict_get_set_eq. }
    { apply dict_get_set_eq. }
    { intros Fo Hr. by destruct (rep_functional _ _ _ _ Hm _ _ Hr) as [_ <-]. }
    assert (Hcell : cell h' self = cell h0 self).
    { destruct Hfr as (_ & _ & Hsame). unfold cell.
      rewrite Hsame; [done| |].
      - unfold h0. rewrite length_put_cell. done.
      - intros Hin. apply elem_of_singleton in Hin. unfold m in Hin. lia. }
    exists h', (dict_set k1 (TYaco sub') (dict_set k1 (TYaco []) td)), F'.
    split_and!; try done.
    + rewrite getitem_rec_eq, Es.
      rewrite (bind_ok _ _ h' (VYaco m) h'); [done|].
      apply getattr_present. rewrite Hcell, Hc0. apply dict_get_set_eq.
    + by eapply frame_trans.
    + intros k Hk. rewrite Hcell, Hc0. by apply dict_get_set_ne.
Qed.

(** X4: item assignment of a scalar under a dotted key.  When no
    proper prefix of the path leads to a scalar or a list, the
    assignment returns normally, creates the objects missing on the
    path, and reading the same key gives the scalar back; the object
    still has no sharing, nothing outside it is touched, and of its own
    keys only the first segment of the path can have changed.
    Otherwise the assignment raises [TypeError] and changes nothing. *)
Theorem X4_setitem_dotted_path fuel h self td F key c :
  rep h (VYaco self) (TYaco td) F ->
  all_nodes (TYaco td) = true ->
  (settable (String.length key) key td = true ->
   exists h' td' F',
     Yaco.__setitem__ fuel self key (VScalar c) h = (Ok tt, h') /\
     Yaco.__getitem__ self key h' = (Ok (VScalar c), h') /\
     rep h' (VYaco self) (TYaco td') F' /\
     frame h h' F F' /\
     (forall k, k <> head_key key ->
                dict_get k (cell h' self) = dict_get k (cell h self))) /\
  (settable (String.length key) key td = false ->
   Yaco.__setitem__ fuel self key (VScalar c) h = (Raise TypeError, h)).
Proof.
  intros Hself Hall.
  exact (setitem_path fuel c (String.length key) self key h td F Hself Hall
           (le_n _)).
Qed.

Lemma X4_setitem_dotted_path_witness :
  let h : store := [[("a", VYaco 1); ("n", VInt 7)]; [("b", VInt 1)]] in
  let td : tdict := [("a", TYaco [("b", TScalar (SInt 1))]); ("n", TScalar (SInt 7))] in
  let F : gset addr := {[0]} ∪ (({[1]} ∪ (∅ ∪ ∅)) ∪ (∅ ∪ ∅)) in
  rep h (VYaco 0) (TYaco td) F /\
  all_nodes (TYaco td) = true /\
  settable 5 "a.c.d" td = true /\
  settable 3 "n.x" td = false /\
  (exists h',
     Yaco.__setitem__ 0 0 "a.c.d" (VInt 4) h = (Ok tt, h') /\
     Yaco.__getitem__ 0 "a.c.d" h' = (Ok (VInt 4), h')) /\
  Yaco.__setitem__ 0 0 "n.x" (VInt 4) h = (Raise TypeError, h).
Proof.
  intros h td F.
  assert (H1 : rep h (VYaco 0) (TYaco td) F) by (unfold h, td, F; rep_concrete).
  assert (H2 : all_nodes (TYaco td) = true) by reflexivity.
  assert (H3 : settable 5 "a.c.d" td = true) by reflexivity.
  assert (H4 : settable 3 "n.x" td = false) by reflexivity.
  destruct (X4_setitem_dotted_path 0 h 0 td F "a.c.d" (SInt 4) H1 H2) as [Hok _].
  destruct (Hok H3) as (h' & td' & F' & Hset & Hget & _).
  destruct (X4_setitem_dotted_path 0 h 0 td F "n.x" (SInt 4) H1 H2) as [_ Herr].
  pose proof (Herr H4) as He.
  split_and!; [done|done|done|done| |done].
  by exists h'.
Defined.

Section dict_del_facts.
Context {V : Type}.
Implicit Types (d : list (string * V)) (k : string) (v : V).

Lemma dict_get_del_ne k k' d :
  k <> k' -> dict_get k' (dict_del k d) = dict_get k' d.
Proof.
  intros Hne. induction d as [|[k0 v0] d IH]; simpl; [done|].
  destruct (String.eqb k k0) eqn:E; simpl.
  - apply String.eqb_eq in E. subst k0.
    destruct (String.eqb k' k) eqn:E'; [|done].
    apply String.eqb_eq in E'. congruence.
  - by rewrite IH.
Qed.

Lemma dict_get_del_eq k d :
  NoDup (dict_keys d) -> dict_get k (dict_del k d) = None.
Proof.
  induction d as [|[k0 v0] d IH]; simpl; [done|].
  intros [Hk Hnd]%NoDup_cons.
  destruct (String.eqb k k0) eqn:E; simpl.
  - apply String.eqb_eq in E. subst k0. by apply dict_get_None_keys.
  - rewrite E. by apply IH.
Qed.

Lemma dict_del_set k v d : dict_get k d = None -> dict_del k (dict_set k v d) = d.
Proof.
  induction d as [|[k0 v0] d IH]; simpl.
  - by rewrite String.eqb_refl.
  - destruct (String.eqb k k0) eqn:E; [done|]. simpl. rewrite E.
    intros H. by rewrite IH.
Qed.
End dict_del_facts.

Lemma put_cell_same h a : a < List.length h -> put_cell h a (cell h a) = h.
Proof.
  intros Hlt. unfold put_cell, cell.
  destruct (lookup_lt_is_Some_2 h a Hlt) as [d Hd]. rewrite Hd. simpl.
  by apply list_insert_id.
Qed.

Lemma put_cell_put_cell h a d d' :
  put_cell (put_cell h a d) a d' = put_cell h a d'.
Proof. apply list_insert_insert_eq. Qed.

(** X5: deleting a key.  A key that is not there raises [KeyError] and
    changes nothing; a key that is there is removed -- [name in self]
    is false afterwards -- while every other key of the object and
    every other object stay as they were; and assigning a scalar to a
    new key and deleting it again gives back the store as it was. *)
Theorem X5_delattr_removes_key h self name :
  self < List.length h ->
  NoDup (dict_keys (cell h self)) ->
  (dict_get name (cell h self) = None ->
   Yaco.__delattr__ self name h = (Raise KeyError, h) /\
   forall fuel c,
     (Yaco.__setattr__ fuel self name (VScalar c) ;;;
      Yaco.__delattr__ self name) h = (Ok tt, h)) /\
  (forall v, dict_get name (cell h self) = Some v ->
     exists h',
       Yaco.__delattr__ self name h = (Ok tt, h') /\
       Yaco.__contains__ self name h' = (Ok false, h') /\
       (forall k, k <> name ->
                  dict_get k (cell h' self) = dict_get k (cell h self)) /\
       (forall a, a <> self -> h' !! a = h !! a)).
Proof.
  intros Hlt Hnd. split.
  - intros Hk. split.
    + unfold Yaco.__delattr__. by rewrite Hk.
    + intros fuel c. unfold bind. rewrite yaco_setattr_scalar.
      unfold Yaco.__delattr__. rewrite cell_put_eq by done.
      rewrite dict_get_set_eq, put_cell_put_cell, dict_del_set by done.
      by rewrite put_cell_same.
  - intros v Hk. eexists. split_and!.
    + unfold Yaco.__delattr__. by rewrite Hk.
    + unfold Yaco.__contains__, gets, dict_has.
      rewrite cell_put_eq by done. by rewrite dict_get_del_eq.
    + intros k Hne. rewrite cell_put_eq by done. by apply dict_get_del_ne.
    + intros a Hne. unfold put_cell. by apply list_lookup_insert_ne.
Qed.

Lemma X5_delattr_removes_key_witness :
  let h : store := [[("a", VInt 1); ("b", VInt 2)]] in
  0 < List.length h /\
  NoDup (dict_keys (cell h 0)) /\
  dict_get "z" (cell h 0) = None /\
  Yaco.__delattr__ 0 "z" h = (Raise KeyError, h) /\
  (Yaco.__setattr__ 0 0 "z" (VInt 3) ;;; Yaco.__delattr__ 0 "z") h = (Ok tt, h) /\
  dict_get "b" (cell h 0) = Some (VInt 2) /\
  exists h',
    Yaco.__delattr__ 0 "b" h = (Ok tt, h') /\
    Yaco.__contains__ 0 "b" h' = (Ok false, h').
Proof.
  intros h.
  assert (H1 : 0 < List.length h) by (simpl; lia).
  assert (H2 : NoDup (dict_keys (cell h 0)))
    by (vm_compute; repeat constructor; set_solver).
  assert (H3 : dict_get "z" (cell h 0) = None) by reflexivity.
  assert (H4 : dict_get "b" (cell h 0) = Some (VInt 2)) by reflexivity.
  destruct (X5_delattr_removes_key h 0 "z" H1 H2) as [Hmiss _].
  destruct (Hmiss H3) as [Herr Hround].
  destruct (X5_delattr_removes_key h 0 "b" H1 H2) as [_ Hthere].
  destruct (Hthere _ H4) as (h' & Hdel & Hin & _).
  pose proof (Hround 0 (SInt 3)) as Hr.
  split_and!; [done|done|done|done|done|done|].
  by exists h'.
Defined.

(** X6: [del self[key]] does not follow dots.  After a scalar was
    assigned under a dotted key that is not itself a key of the object,
    deleting that same key raises [KeyError] and changes nothing:
    [key in self] is false and [self[key]] still reads the scalar. *)
Theorem X6_delitem_ignores_dots fuel h self td F key c :
  rep h (VYaco self) (TYaco td) F ->
  all_nodes (TYaco td) = true ->
  has_dot key = true ->
  dict_get key (cell h self) = None ->
  settable (String.length key) key td = true ->
  exists h',
    Yaco.__setitem__ fuel self key (VScalar c) h = (Ok tt, h') /\
    YacoMore.__delitem__ self key h' = (Raise KeyError, h') /\
    Yaco.__contains__ self key h' = (Ok false, h') /\
    Yaco.__getitem__ self key h' = (Ok (VScalar c), h').
Proof.
  intros Hself Hall Hdot Hkey Hset.
  destruct (setitem_path fuel c (String.length key) self key h td F Hself Hall
              (le_n _)) as [Hok _].
  destruct (Hok Hset) as (h' & td' & F' & Hrun & Hget & _ & _ & Hoth).
  assert (Hk : dict_get key (cell h' self) = None).
  { rewrite Hoth; [done|]. intros Heq. by apply (head_key_dotted key Hdot). }
  exists h'. split_and!; [done| | |done].
  - unfold YacoMore.__delitem__, Yaco.__delattr__. by rewrite Hk.
  - unfold Yaco.__contains__, gets, dict_has. by rewrite Hk.
Qed.

Lemma X6_delitem_ignores_dots_witness :
  let h : store := [[]] in
  let F : gset addr := {[0]} ∪ ∅ in
  rep h (VYaco 0) (TYaco []) F /\
  all_nodes (TYaco []) = true /\
  has_dot "a.b" = true /\
  dict_get "a.b" (cell h 0) = None /\
  settable 3 "a.b" [] = true /\
  exists h',
    Yaco.__setitem__ 0 0 "a.b" (VInt 1) h = (Ok tt, h') /\
    YacoMore.__delitem__ 0 "a.b" h' = (Raise KeyError, h') /\
    Yaco.__contains__ 0 "a.b" h' = (Ok false, h') /\
    Yaco.__getitem__ 0 "a.b" h' = (Ok (VInt 1), h').
Proof.
  intros h F.
  assert (H1 : rep h (VYaco 0) (TYaco []) F) by (unfold h, F; rep_concrete).
  split_and!; [done|done|done|done|done|].
  exact (X6_delitem_ignores_dots 0 h 0 [] F "a.b" (SInt 1) H1 eq_refl eq_refl
           eq_refl eq_refl).
Defined.

(** ** Attribute assignment *)

(** Storing under a key of [self] a value that was there already,
    outside [self]. *)
Lemma setitem_alias h self td F key v' t' Fv' :
  rep h (VYaco self) (TYaco td) F ->
  rep h v' t' Fv' ->
  F ## Fv' ->
  exists h2 F',
    Yaco.dict_setitem self key v' h = (Ok tt, h2) /\
    rep h2 (VYaco self) (TYaco (dict_set key t' td)) F' /\
    cell h2 self = dict_set key v' (cell h self).
Proof.
  intros Hself Hv Hdj.
  apply rep_yaco_inv in Hself
    as (td0 & F0 & [= <-] & -> & Hnin & Hlt & Hnd & Hd).
  destruct (rep_dict_focus _ _ _ _ key Hd) as (Fv & Fr & -> & Hdjr & _ & Hset).
  set (h2 := put_cell h self (dict_set key v' (cell h self))).
  assert (Hc : cell h2 self = dict_set key v' (cell h self))
    by (unfold h2; by rewrite cell_put_eq).
  assert (Hother : forall a, a <> self -> h2 !! a = h !! a).
  { intros a Ha. unfold h2, put_cell. by apply list_lookup_insert_ne. }
  exists h2, ({[self]} ∪ (Fv' ∪ Fr)). split_and!; [done| |done].
  apply rep_yaco.
  - unfold h2. by rewrite length_put_cell.
  - rewrite Hc. by apply NoDup_dict_set.
  - rewrite Hc. apply Hset.
    + eapply rep_stable; [exact Hv|]. intros a Ha. apply Hother.
      intros ->. apply (Hdj self); set_solver.
    + intros a Ha Hb. apply (Hdj a); set_solver.
    + intros a Ha. apply Hother. set_solver.
  - intros [Ha|Ha]%elem_of_union; [|set_solver]. apply (Hdj self); set_solver.
Qed.

Lemma old_value_run h self key :
  Yaco.old_value self key h = (Ok (default VNone (dict_get key (cell h self))), h).
Proof. reflexivity. Qed.

(** X7: attribute assignment.  A mapping assigned to a key that holds
    a [Yaco] is merged into that very object, as by [update]; a [Yaco]
    assigned to any other key is stored as it is, not copied; any other
    value is stored parsed -- a plain mapping as a new [Yaco], a list
    with its mappings turned into [Yaco]s, a scalar as it is.  The
    other keys keep what they had, and the call returns normally. *)
Theorem X7_setattr_merges_or_stores fuel h self td F key value tv Fv :
  rep h (VYaco self) (TYaco td) F ->
  rep h value tv Fv ->
  F ## Fv ->
  depth tv <= fuel ->
  exists h' F' td',
    Yaco.__setattr__ fuel self key value h = (Ok tt, h') /\
    rep h' (VYaco self) (TYaco td') F' /\
    (forall k, k <> key -> dict_get k td' = dict_get k td) /\
    (forall o, is_tdict tv = true ->
       dict_get key (cell h self) = Some (VYaco o) ->
       exists od,
         dict_get key td = Some (TYaco od) /\
         dict_get key td' = Some (TYaco (tupdate tv od)) /\
         dict_get key (cell h' self) = Some (VYaco o)) /\
    (forall z, value = VYaco z ->
       (forall o, dict_get key (cell h self) <> Some (VYaco o)) ->
       dict_get key td' = Some tv /\
       dict_get key (cell h' self) = Some (VYaco z)) /\
    (is_Yaco value = false ->
     (is_tdict tv = true ->
      forall o, dict_get key (cell h self) <> Some (VYaco o)) ->
     dict_get key td' = Some (tparse tv)).
Proof.
  intros Hself Hvalue Hdj Hdepth.
  pose proof (rep_is_dict _ _ _ _ Hvalue) as Hisd.
  pose proof Hself as Hs0.
  apply rep_yaco_inv in Hs0 as (td0 & F0 & [= <-] & HF & Hnin & Hlt & Hnd & Hd).
  unfold Yaco.__setattr__. rewrite (bind_ok _ _ _ _ _ (old_value_run h self key)).
  destruct (is_dict value) eqn:Edict.
  - destruct (dict_get key (cell h self)) as [old|] eqn:Eold.
    + destruct (rep_dict_focus _ _ _ _ key Hd) as (Fo & Fr & HF0 & Hdjo & Hget & _).
      rewrite Eold in Hget. destruct Hget as (told & Htold & Hold).
      assert (Hcase : (exists o, old = VYaco o) \/ (forall o, old <> VYaco o)).
      { destruct old; [right|right|right|left]; try done. by eexists. }
      destruct Hcase as [[o ->]|Hno].
      * pose proof Hold as Hold0.
        apply rep_yaco_inv in Hold0 as (od & Fo0 & -> & _).
        destruct (update_refines fuel h o od Fo value tv Fv Hold Hvalue Hisd)
          as (h1 & F1 & Hrun & Hrep1 & Hfr1); [set_solver|done|].
        destruct (inplace_refines h h1 self td F key o od (tupdate tv od) F1
                    Hself Eold Htold) as (F' & Hrep' & Hfr'); [|exact Hrep1|].
        { intros Fo' Hr. by destruct (rep_functional _ _ _ _ Hold _ _ Hr) as [_ <-]. }
        assert (Hcell : cell h1 self = cell h self).
        { destruct Hfr1 as (_ & _ & Hsame). unfold cell.
          rewrite Hsame; [done|done|set_solver]. }
        exists h1, F', (dict_set key (TYaco (tupdate tv od)) td). simpl.
        split_and!; [done|done| | | |].
        -- intros k Hk. by apply dict_get_set_ne.
        -- intros o' _ [= <-]. exists od. split_and!; [done| |by rewrite Hcell].
           apply dict_get_set_eq.
        -- intros z _ Hn. by destruct (Hn o).
        -- intros _ Hn. by destruct (Hn Hisd o).
      * assert (Hmatch : forall (A : Type) (x y : A),
                  match old with VYaco _ => x | _ => y end = y)
          by (intros A x y; destruct old; try done; by destruct (Hno a)).
        destruct value as [c|l|d|z]; try done.
        -- (* a plain mapping *)
           destruct (init_refines fuel h (VDict d) tv Fv Hvalue Hisd Hdepth)
             as (h1 & F1 & Hrun & Hrep1 & Hfr1).
           destruct (setitem_refines h h1 self td F key _ _ _ Hself Hfr1 Hrep1)
             as (h2 & F' & Hrun2 & Hrep' & Hfr').
           exists h2, F', (dict_set key (tparse tv) td).
           split_and!; [|done| | | |].
           ++ destruct old; try (by destruct (Hno a));
                cbn -[Yaco.__init__ Yaco.dict_setitem]; unfold bind;
                by rewrite Hrun.
           ++ intros k Hk. by apply dict_get_set_ne.
           ++ intros o _ [= ->]. by destruct (Hno o).
           ++ by intros z [=].
           ++ intros _ _. apply dict_get_set_eq.
        -- (* a [Yaco] *)
           destruct (setitem_alias h self td F key (VYaco z) tv Fv Hself Hvalue Hdj)
             as (h2 & F' & Hrun2 & Hrep' & Hcell).
           exists h2, F', (dict_set key tv td).
           split_and!; [|done| | | |].
           ++ destruct old; try (by destruct (Hno a)); simpl; done.
           ++ intros k Hk. by apply dict_get_set_ne.
           ++ intros o _ [= ->]. by destruct (Hno o).
           ++ intros z' [= <-] _. split; [apply dict_get_set_eq|].
              rewrite Hcell. apply dict_get_set_eq.
           ++ by intros [=].
    + (* nothing under the key *)
      simpl.
      destruct value as [c|l|d|z]; try done.
      * destruct (init_refines fuel h (VDict d) tv Fv Hvalue Hisd Hdepth)
          as (h1 & F1 & Hrun & Hrep1 & Hfr1).
        destruct (setitem_refines h h1 self td F key _ _ _ Hself Hfr1 Hrep1)
          as (h2 & F' & Hrun2 & Hrep' & Hfr').
        exists h2, F', (dict_set key (tparse tv) td).
        split_and!; [|done| | | |].
        -- cbn -[Yaco.__init__ Yaco.dict_setitem]. unfold bind. by rewrite Hrun.
        -- intros k Hk. by apply dict_get_set_ne.
        -- by intros o _ [=].
        -- by intros z [=].
        -- intros _ _. apply dict_get_set_eq.
      * destruct (setitem_alias h self td F key (VYaco z) tv Fv Hself Hvalue Hdj)
          as (h2 & F' & Hrun2 & Hrep' & Hcell).
        exists h2, F', (dict_set key tv td).
        split_and!; [done|done| | | |].
        -- intros k Hk. by apply dict_get_set_ne.
        -- by intros o _ [=].
        -- intros z' [= <-] _. split; [apply dict_get_set_eq|].
           rewrite Hcell. apply dict_get_set_eq.
        -- by intros [=].
  - (* not a mapping *)
    assert (Hnd' : is_tdict tv = false) by (by rewrite Hisd).
    destruct value as [c|l|d|z]; try done.
    + apply rep_scalar_inv in Hvalue as [-> ->].
      destruct (setattr_scalar_refines fuel h self td F key c Hself)
        as (h' & F' & Hrun & _ & Hrep & _ & _).
      rewrite yaco_setattr_scalar in Hrun. injection Hrun as <-.
      eexists _, F', (dict_set key (TScalar c) td).
      split_and!; [done|done| | | |].
      * intros k Hk. by apply dict_get_set_ne.
      * by intros o [=].
      * by intros z [=].
      * intros _ _. apply dict_get_set_eq.
    + destruct (rep_list_shape _ _ _ _ Hvalue) as [tl ->].
      destruct (list_parser_refines (Yaco.update fuel) fuel (update_refines fuel)
                  l tl Fv h Hvalue Hdepth) as (l' & h1 & F1 & Hrun & Hrep1 & Hfr1).
      destruct (setitem_refines h h1 self td F key _ _ _ Hself Hfr1 Hrep1)
        as (h2 & F' & Hrun2 & Hrep' & Hfr').
      exists h2, F', (dict_set key (TList (map tparse tl)) td).
      split_and!; [|done| | | |].
      * unfold bind, Yaco._list_parser. by rewrite Hrun.
      * intros k Hk. by apply dict_get_set_ne.
      * by intros o [=].
      * by intros z [=].
      * intros _ _. apply dict_get_set_eq.
Qed.

Lemma X7_setattr_merges_or_stores_witness :
  let h : store := [[("a", VYaco 1)]; [("b", VInt 5)]] in
  let td : tdict := [("a", TYaco [("b", TScalar (SInt 5))])] in
  let F : gset addr := {[0]} ∪ (({[1]} ∪ (∅ ∪ ∅)) ∪ ∅) in
  let value := VDict [("c", VDict [("d", VInt 19)])] in
  rep h (VYaco 0) (TYaco td) F /\
  rep h value (tree_of value) ∅ /\
  F ## ∅ /\
  depth (tree_of value) <= 2 /\
  exists h' F' td',
    Yaco.__setattr__ 2 0 "a" value h = (Ok tt, h') /\
    rep h' (VYaco 0) (TYaco td') F' /\
    dict_get "a" td' =
      Some (TYaco [("b", TScalar (SInt 5));
                   ("c", TYaco [("d", TScalar (SInt 19))])]) /\
    dict_get "a" (cell h' 0) = Some (VYaco 1).
Proof.
  intros h td F value.
  assert (H1 : rep h (VYaco 0) (TYaco td) F) by (unfold h, td, F; rep_concrete).
  assert (H2 : rep h value (tree_of value) ∅) by (by apply rep_plain).
  assert (H3 : F ## ∅) by set_solver.
  assert (H4 : depth (tree_of value) <= 2) by (vm_compute; lia).
  split_and!; [done|done|done|done|].
  destruct (X7_setattr_merges_or_stores 2 h 0 td F "a" value (tree_of value) ∅
              H1 H2 H3 H4) as (h' & F' & td' & Hrun & Hrep & _ & Hmerge & _).
  destruct (Hmerge 1 eq_refl eq_refl) as (od & Hod & Hnew & Hsame).
  injection Hod as <-.
  exists h', F', td'. by split_and!.
Defined.

(** X8: an empty [Yaco] found under a key -- as a read of a missing
    key leaves one -- is replaced by [update] with a new object when
    the data hold a mapping for that key, so the object that was there
    stays empty and is no longer part of [self]; attribute assignment
    of the same mapping fills that very object instead. *)
Theorem X8_update_replaces_empty fuel h self key o d :
  self < List.length h ->
  o < List.length h ->
  dict_get key (cell h self) = Some (VYaco o) ->
  cell h o = [] ->
  plain (VDict d) = true ->
  depth (tree_of (VDict d)) <= fuel ->
  (exists h1,
     Yaco.update (S fuel) self (VDict [(key, VDict d)]) h = (Ok tt, h1) /\
     dict_get key (cell h1 self) = Some (VYaco (List.length h)) /\
     cell h1 o = [] /\
     exists F1, rep h1 (VYaco (List.length h)) (tparse (tree_of (VDict d))) F1) /\
  (exists h2 F2,
     Yaco.__setattr__ fuel self key (VDict d) h = (Ok tt, h2) /\
     dict_get key (cell h2 self) = Some (VYaco o) /\
     rep h2 (VYaco o) (tparse (tree_of (VDict d))) F2).
Proof.
  intros Hself Ho Hkey Hempty Hp Hdepth.
  assert (Hne : self <> o).
  { intros ->. by rewrite Hempty in Hkey. }
  pose proof (rep_plain h _ Hp) as Hd.
  split.
  - destruct (construct_refines (Yaco.update fuel) fuel (update_refines fuel)
                h (VDict d) _ ∅ Hd eq_refl Hdepth)
      as (v & h' & F' & Hrun & Hrep & Hfr).
    assert (Hv : v = VYaco (List.length h)).
    { unfold Yaco.construct, bind, Yaco.new_empty, ret in Hrun.
      destruct (Yaco.update fuel _ _ _) as [[[]|e] hx]; [|done]. congruence. }
    subst v. pose proof Hfr as (Hlen & _ & Hsame).
    assert (Hcs : cell h' self = cell h self).
    { unfold cell. rewrite Hsame; [done|done|apply not_elem_of_empty]. }
    assert (Hco : cell h' o = []).
    { rewrite <- Hempty. unfold cell.
      rewrite Hsame; [done|done|apply not_elem_of_empty]. }
    eexists. split_and!.
    + change (Yaco.update (S fuel) self (VDict [(key, VDict d)]) h)
        with (bind (Yaco.update_entry (Yaco.update fuel) self (key, VDict d))
                (fun _ => ret tt) h).
      unfold Yaco.update_entry, bind, gets. cbn [fst snd is_dict].
      rewrite old_value_run, Hkey.
      change (default VNone (Some (VYaco o))) with (VYaco o).
      cbn [truthy]. rewrite Hempty.
      cbn [nonempty]. rewrite Hrun. reflexivity.
    + rewrite cell_put_eq by lia. apply dict_get_set_eq.
    + rewrite cell_put_ne by done. exact Hco.
    + exists F'. eapply rep_stable; [exact Hrep|]. intros a Ha.
      unfold put_cell. apply list_lookup_insert_ne. intros <-.
      destruct Hfr as (_ & Hfresh & _). destruct (Hfresh _ Ha); [set_solver|lia].
  - assert (Hro : rep h (VYaco o) (TYaco []) ({[o]} ∪ ∅)).
    { apply rep_yaco; [done|by rewrite Hempty; constructor
                       |rewrite Hempty; constructor|apply not_elem_of_empty]. }
    destruct (update_refines fuel h o [] _ (VDict d) _ ∅ Hro Hd eq_refl)
      as (h2 & F2 & Hrun & Hrep & Hfr); [set_solver|done|].
    exists h2, F2. split_and!.
    + unfold Yaco.__setattr__. rewrite (bind_ok _ _ _ _ _ (old_value_run h self key)).
      rewrite Hkey. exact Hrun.
    + destruct Hfr as (_ & _ & Hsame). unfold cell.
      rewrite Hsame; [exact Hkey|done|set_solver].
    + by rewrite tparse_dict.
Qed.

Lemma X8_update_replaces_empty_witness :
  let h : store := [[("a", VYaco 1)]; []] in
  let d := [("b", VInt 5)] in
  0 < List.length h /\
  1 < List.length h /\
  dict_get "a" (cell h 0) = Some (VYaco 1) /\
  cell h 1 = [] /\
  plain (VDict d) = true /\
  depth (tree_of (VDict d)) <= 1 /\
  (exists h1,
     Yaco.update 2 0 (VDict [("a", VDict d)]) h = (Ok tt, h1) /\
     dict_get "a" (cell h1 0) = Some (VYaco 2) /\
     cell h1 1 = []) /\
  (exists h2,
     Yaco.__setattr__ 1 0 "a" (VDict d) h = (Ok tt, h2) /\
     dict_get "a" (cell h2 0) = Some (VYaco 1) /\
     cell h2 1 = [("b", VInt 5)]).
Proof.
  intros h d.
  assert (H1 : 0 < List.length h) by (simpl; lia).
  assert (H2 : 1 < List.length h) by (simpl; lia).
  assert (H3 : dict_get "a" (cell h 0) = Some (VYaco 1)) by reflexivity.
  assert (H4 : cell h 1 = []) by reflexivity.
  assert (H5 : plain (VDict d) = true) by reflexivity.
  assert (H6 : depth (tree_of (VDict d)) <= 1) by (vm_compute; lia).
  destruct (X8_update_replaces_empty 1 h 0 "a" 1 d H1 H2 H3 H4 H5 H6)
    as [(h1 & Hu & Hk1 & He1 & _) (h2 & F2 & Hs & Hk2 & Hr2)].
  split_and!; [done|done|done|done|done|done| |].
  - by exists h1.
  - exists h2. split_and!; [done|done|].
    vm_compute in Hs. by injection Hs as <-.
Defined.

(** ** Files *)

(** X9: [save] does not write the object.  For an object that
    [get_data] goes through, [save] empties the file it was to write
    and raises [ValueError], whatever [doNotSave] names; the objects
    and every other file are as before, and a [load] of the file into
    any object finds nothing to load.  When the file cannot be opened,
    [save] raises [IOError] and changes nothing. *)
Theorem X9_save_empties_the_file fuel w self to_file doNotSave t F :
  rep (heap w) (VYaco self) t F ->
  exportable t = true ->
  depth t <= fuel ->
  (writable (disk w) to_file = true ->
   YacoMore.save fuel self to_file doNotSave w =
     (Raise ValueError, write_file to_file VNone w) /\
   YacoIO.save fuel self to_file w =
     (Raise ValueError, write_file to_file VNone w) /\
   heap (write_file to_file VNone w) = heap w /\
   (forall p, p <> to_file ->
      files (disk (write_file to_file VNone w)) !! p = files (disk w) !! p) /\
   (forall y,
      YacoIO.load (S fuel) y to_file None (write_file to_file VNone w) =
      (Ok tt, write_file to_file VNone w))) /\
  (writable (disk w) to_file = false ->
   YacoMore.save fuel self to_file doNotSave w = (Raise IOError, w) /\
   YacoIO.save fuel self to_file w = (Raise IOError, w)).
Proof.
  intros Hrep Hex Hdepth.
  pose proof (yaco_save_raises fuel w self to_file t F Hrep Hex Hdepth) as Hsave.
  destruct (get_data_refines fuel (heap w) self t F Hrep Hex Hdepth)
    as (d & Hrun & Hd).
  assert (Hmore : YacoMore.save fuel self to_file doNotSave w =
                  YacoIO.save fuel self to_file w).
  { unfold YacoMore.save, YacoIO.save, bind, on_heap. by rewrite Hrun. }
  rewrite Hmore, Hsave. split; intros Hw; rewrite Hw.
  - split_and!; [done|done|done| |].
    + intros p Hp. simpl. by apply lookup_insert_ne.
    + intros y. unfold YacoIO.load, bind, read_yaml, on_heap. simpl.
      rewrite lookup_insert_eq. simpl. unfold bind, gets, ret. simpl. done.
  - done.
Qed.

Lemma X9_save_empties_the_file_witness :
  let w := {| heap := [[("a", VInt 1); ("b", VInt 2)]]; disk := disk example_world |} in
  let t := TYaco [("a", TScalar (SInt 1)); ("b", TScalar (SInt 2))] in
  let F : gset addr := {[0]} ∪ (∅ ∪ (∅ ∪ ∅)) in
  rep (heap w) (VYaco 0) t F /\
  exportable t = true /\
  depth t <= 2 /\
  writable (disk w) "/etc/app.yaml" = true /\
  files (disk w) !! "/etc/app.yaml" = Some (VDict [("a", VInt 18)]) /\
  YacoMore.save 2 0 "/etc/app.yaml" ["a"] w =
    (Raise ValueError, write_file "/etc/app.yaml" VNone w) /\
  files (disk (write_file "/etc/app.yaml" VNone w)) !! "/etc/app.yaml" = Some VNone.
Proof.
  intros w t F.
  assert (H1 : rep (heap w) (VYaco 0) t F) by (unfold w, t, F; simpl heap; rep_concrete).
  assert (H2 : exportable t = true) by reflexivity.
  assert (H3 : depth t <= 2) by (simpl; lia).
  assert (H4 : writable (disk w) "/etc/app.yaml" = true) by reflexivity.
  destruct (X9_save_empties_the_file 2 w 0 "/etc/app.yaml" ["a"] t F H1 H2 H3)
    as [Hyes _].
  destruct (Hyes H4) as (Hrun & _).
  by split_and!.
Defined.

(** X10: [load] at the edges.  A file that is not there raises
    [IOError]; an empty document -- or any other falsy one -- loads as
    nothing; a document that is neither falsy nor a mapping raises
    [AttributeError]; in all three cases the object and the files are
    as before. *)
Theorem X10_load_edge_cases fuel w self from_file leaf :
  leaf = None \/ leaf = Some "" ->
  (files (disk w) !! from_file = None ->
   YacoIO.load fuel self from_file leaf w = (Raise IOError, w)) /\
  (forall doc, files (disk w) !! from_file = Some doc ->
     truthy (heap w) doc = false ->
     YacoIO.load (S fuel) self from_file leaf w = (Ok tt, w)) /\
  (forall doc, files (disk w) !! from_file = Some doc ->
     truthy (heap w) doc = true -> is_dict doc = false ->
     YacoIO.load (S fuel) self from_file leaf w = (Raise AttributeError, w)).
Proof.
  intros Hleaf.
  assert (Hl : YacoIO.load fuel self from_file leaf =
               YacoIO.load fuel self from_file None /\
               YacoIO.load (S fuel) self from_file leaf =
               YacoIO.load (S fuel) self from_file None).
  { by destruct Hleaf as [->| ->]. }
  destruct Hl as [-> ->]. split_and!.
  - intros Hf. unfold YacoIO.load, bind, read_yaml. by rewrite Hf.
  - intros doc Hf Ht. unfold YacoIO.load, bind, read_yaml, on_heap. rewrite Hf.
    simpl. unfold bind, gets. rewrite Ht. simpl. by rewrite set_heap_same.
  - intros doc Hf Ht Hd. unfold YacoIO.load, bind, read_yaml, on_heap. rewrite Hf.
    simpl. unfold bind, gets. rewrite Ht. simpl.
    destruct doc; try done; simpl; by rewrite set_heap_same.
Qed.

Lemma X10_load_edge_cases_witness :
  let w := {| heap := [[("a", VInt 1)]];
              disk := {| files := {[ "/e.yaml" := VNone; "/l.yaml" := VList [VInt 1] ]};
                         dirs := fun _ => false;
                         writable := fun _ => true;
                         packages := fun _ => false;
                         resources := fun _ _ => None;
                         resource_dirs := fun _ _ => None |} |} in
  files (disk w) !! "/none.yaml" = None /\
  YacoIO.load 1 0 "/none.yaml" None w = (Raise IOError, w) /\
  files (disk w) !! "/e.yaml" = Some VNone /\
  truthy (heap w) VNone = false /\
  YacoIO.load 1 0 "/e.yaml" None w = (Ok tt, w) /\
  files (disk w) !! "/l.yaml" = Some (VList [VInt 1]) /\
  truthy (heap w) (VList [VInt 1]) = true /\
  is_dict (VList [VInt 1]) = false /\
  YacoIO.load 1 0 "/l.yaml" None w = (Raise AttributeError, w).
Proof.
  intros w.
  assert (H1 : files (disk w) !! "/none.yaml" = None) by reflexivity.
  assert (H2 : files (disk w) !! "/e.yaml" = Some VNone) by reflexivity.
  assert (H3 : files (disk w) !! "/l.yaml" = Some (VList [VInt 1])) by reflexivity.
  destruct (X10_load_edge_cases 1 w 0 "/none.yaml" None (or_introl eq_refl))
    as (Ha & _ & _).
  destruct (X10_load_edge_cases 0 w 0 "/e.yaml" None (or_introl eq_refl))
    as (_ & Hb & _).
  destruct (X10_load_edge_cases 0 w 0 "/l.yaml" None (or_introl eq_refl))
    as (_ & _ & Hc).
  pose proof (Ha H1) as Ha'. pose proof (Hb _ H2 eq_refl) as Hb'.
  pose proof (Hc _ H3 eq_refl eq_refl) as Hc'.
  by split_and!.
Defined.

(** A private key at the head of an object does not show in its
    export. *)
Lemma texport_private_head k0 v0 td :
  Yaco.is_private k0 = true -> k0 <> "_private" ->
  texport (TYaco ((k0, v0) :: td)) = texport (TYaco td) /\
  exportable (TYaco ((k0, v0) :: td)) = exportable (TYaco td).
Proof.
  intros Hp Hne.
  assert (Hpriv : tpriv ((k0, v0) :: td) = tpriv td).
  { unfold tpriv. cbn [dict_get].
    destruct (String.eqb "_private" k0) eqn:E; [|done].
    apply String.eqb_eq in E. by subst. }
  split.
  - rewrite !texport_yaco, Hpriv. simpl. unfold texport_step at 2. simpl.
    rewrite Hp. by destruct (tkey_in k0 (tpriv td)).
  - cbn [exportable]. rewrite Hpriv. simpl. rewrite Hp.
    by rewrite orb_true_r.
Qed.

(** X12: [YacoFile(filename)].  When the file is not there the
    constructor raises [IOError] (it does not return an empty object);
    the files are as before.  When the file holds clean data the new
    object keeps its file name under the key [_filename] and its export
    is the data of the file -- the file name is private and is not
    exported.  [save] then goes to that same file: it empties it and
    raises [ValueError]. *)
Theorem X12_YacoFile_keeps_its_name fuel w filename :
  (files (disk w) !! filename = None ->
   exists w',
     YacoFile.__init__ fuel filename w = (Raise IOError, w') /\
     disk w' = disk w) /\
  (forall d,
     files (disk w) !! filename = Some (VDict d) ->
     clean (VDict d) = true ->
     depth (tree_of (VDict d)) <= fuel ->
     exists w',
       YacoFile.__init__ fuel filename w = (Ok (List.length (heap w)), w') /\
       dict_get "_filename" (cell (heap w') (List.length (heap w))) =
         Some (VStr filename) /\
       Yaco.get_data fuel (List.length (heap w)) (heap w') = (Ok d, heap w') /\
       (writable (disk w) filename = true ->
        YacoFile.save fuel (List.length (heap w)) w' =
        (Raise ValueError, write_file filename VNone w'))).
Proof.
  set (h := heap w). set (y := List.length h).
  destruct (setattr_scalar_refines fuel (h ++ [[]]) y [] {[y]} "_filename"
              (SStr filename) (rep_new h))
    as (h1 & F1 & Hset & Hname & Hrep1 & Hfr1 & _).
  change (dict_set "_filename" (TScalar (SStr filename)) [])
    with [("_filename", TScalar (SStr filename))] in Hrep1.
  assert (Hstart : YacoFile.__init__ fuel filename w =
                   (YacoFile.load fuel y ;;; ret y) (set_heap w h1)).
  { unfold YacoFile.__init__, bind at 1 2, on_heap at 1 2, Yaco.new_empty.
    cbn [fst snd heap set_heap]. fold h y. rewrite Hset. done. }
  assert (Hfn : forall h', Yaco.__getattr__ y "_filename" h' =
                           (Ok (VStr filename), h') ->
                forall wx, heap wx = h' ->
                YacoFile.filename_of y wx = (Ok filename, wx)).
  { intros h' Hg wx <-. unfold YacoFile.filename_of, bind, on_heap.
    rewrite Hg. cbn [fst snd]. by rewrite set_heap_same. }
  split.
  - intros Hmiss. exists (set_heap w h1). split; [|done].
    rewrite Hstart. unfold bind at 1. unfold YacoFile.load, bind at 1.
    rewrite (Hfn h1 Hname (set_heap w h1) eq_refl).
    unfold YacoIO.load, bind, read_yaml. simpl. by rewrite Hmiss.
  - intros d Hfile Hclean Hdepth.
    destruct (clean_export fuel (VDict d) Hdepth Hclean) as (Hexp & Hex & Hdp).
    assert (Hp : plain (VDict d) = true).
    { rewrite <- Hexp. apply texport_plain. }
    destruct (update_refines fuel h1 y _ F1 (VDict d) (tree_of (VDict d)) ∅
                Hrep1 (rep_plain h1 _ Hp) eq_refl ltac:(set_solver) Hdepth)
      as (h2 & F2 & Hupd & Hrep2 & Hfr2).
    (* the tree of the object *)
    simpl in Hclean. apply andb_prop in Hclean as [Hnd Hcl].
    apply bool_decide_eq_true in Hnd.
    set (td := map (fun kv : string * value => (kv.1, tparse (tree_of kv.2))) d).
    assert (Hnp : Forall (fun kv : string * value =>
                            Yaco.is_private kv.1 = false) d).
    { clear -Hcl. induction d as [|kv r IH]; [constructor|].
      simpl in Hcl. apply andb_prop in Hcl as [H1 H2].
      apply andb_prop in H1 as [H1 _]. apply andb_prop in H1 as [H1 _].
      apply negb_true_iff in H1. constructor; [done|by apply IH]. }
    assert (Htree : tupdate (tree_of (VDict d)) [("_filename", TScalar (SStr filename))]
                    = ("_filename", TScalar (SStr filename)) :: td).
    { change (tree_of (VDict d))
        with (TDict (map (fun kv => (kv.1, tree_of kv.2)) d)).
      rewrite tupdate_fresh.
      - simpl. f_equal. unfold td. rewrite map_map. done.
      - by rewrite (dict_keys_map tree_of).
      - apply Forall_map. eapply Forall_impl; [exact Hnp|].
        intros [k v] Hk. cbn [dict_get fst snd] in *.
        destruct (String.eqb k "_filename") eqn:E; [|done].
        apply String.eqb_eq in E. subst k. done. }
    rewrite Htree in Hrep2.
    assert (Htd : tparse (tree_of (VDict d)) = TYaco td).
    { change (tree_of (VDict d))
        with (TDict (map (fun kv => (kv.1, tree_of kv.2)) d)).
      destruct (tparse_fresh (map (fun kv : string * value =>
                                     (kv.1, tree_of kv.2)) d)) as [-> _].
      - by rewrite (dict_keys_map tree_of).
      - unfold td. by rewrite map_map. }
    rewrite Htd in Hexp, Hex, Hdp.
    destruct (texport_private_head "_filename" (TScalar (SStr filename)) td
                eq_refl ltac:(done)) as [Hte Htx].
    assert (Hd2 : depth (TYaco (("_filename", TScalar (SStr filename)) :: td)) <= fuel).
    { simpl in *. lia. }
    destruct (get_data_refines fuel h2 y _ F2 Hrep2 ltac:(by rewrite Htx) Hd2)
      as (d' & Hgd & Hd').
    rewrite Hte, Hexp in Hd'. injection Hd' as ->.
    assert (Hname2 : dict_get "_filename" (cell h2 y) = Some (VStr filename)).
    { pose proof Hrep2 as Hr.
      apply rep_yaco_inv in Hr as (td2 & G0 & [= <-] & _ & _ & _ & _ & Hcell).
      destruct (rep_dict_get _ _ _ _ "_filename" _ Hcell eq_refl)
        as (v & Fv & Hv & Hrv).
      by apply rep_tscalar_inv in Hrv as ->. }
    set (w2 := set_heap w h2).
    assert (Hload : YacoFile.load fuel y (set_heap w h1) = (Ok tt, w2)).
    { unfold YacoFile.load, bind at 1. rewrite (Hfn h1 Hname (set_heap w h1) eq_refl).
      unfold YacoIO.load, bind, read_yaml, on_heap. simpl. rewrite Hfile.
      simpl. by rewrite Hupd. }
    exists w2. split_and!.
    + rewrite Hstart. unfold bind. by rewrite Hload.
    + exact Hname2.
    + exact Hgd.
    + intros Hw. unfold YacoFile.save, bind.
      rewrite (Hfn h2 (getattr_present _ _ _ _ Hname2) w2 eq_refl).
      rewrite (yaco_save_raises fuel w2 y filename _ F2 Hrep2
                 ltac:(by rewrite Htx) Hd2).
      change (disk w2) with (disk w). by rewrite Hw.
Qed.

Lemma X12_YacoFile_keeps_its_name_witness :
  let d := [("a", VInt 18)] in
  files (disk example_world) !! "/etc/none.yaml" = None /\
  (exists w', YacoFile.__init__ 2 "/etc/none.yaml" example_world = (Raise IOError, w')) /\
  files (disk example_world) !! "/etc/app.yaml" = Some (VDict d) /\
  clean (VDict d) = true /\
  depth (tree_of (VDict d)) <= 2 /\
  exists w',
    YacoFile.__init__ 2 "/etc/app.yaml" example_world = (Ok 0, w') /\
    dict_get "_filename" (cell (heap w') 0) = Some (VStr "/etc/app.yaml") /\
    Yaco.get_data 2 0 (heap w') = (Ok d, heap w') /\
    YacoFile.save 2 0 w' = (Raise ValueError, write_file "/etc/app.yaml" VNone w').
Proof.
  intros d.
  assert (H1 : files (disk example_world) !! "/etc/none.yaml" = None) by reflexivity.
  assert (H2 : files (disk example_world) !! "/etc/app.yaml" = Some (VDict d))
    by reflexivity.
  assert (H3 : clean (VDict d) = true) by (by vm_compute).
  assert (H4 : depth (tree_of (VDict d)) <= 2) by (vm_compute; lia).
  destruct (X12_YacoFile_keeps_its_name 2 example_world "/etc/none.yaml")
    as [Hmiss _].
  destruct (Hmiss H1) as (w1 & Hr1 & _).
  destruct (X12_YacoFile_keeps_its_name 2 example_world "/etc/app.yaml")
    as [_ Hthere].
  destruct (Hthere d H2 H3 H4) as (w2 & Ha & Hb & Hc & Hd).
  split_and!; [done|by exists w1|done|done|done|].
  exists w2. split_and!; [done|done|done|]. by apply Hd.
Defined.

(** ** [PolyYaco.load] *)

Lemma depth_yaco_Forall d m :
  depth (TYaco d) <= S m <-> Forall (fun kv : string * tree => depth kv.2 <= m) d.
Proof.
  split.
  - apply (depth_items (TYaco d) m eq_refl).
  - intros H. by apply depth_items_le.
Qed.

Lemma Forall_dict_set {V} (P : string * V -> Prop) k v d :
  (forall k', P (k', v)) -> Forall P d -> Forall P (dict_set k v d).
Proof.
  intros Hv. induction 1 as [|[k' v'] d H1 H2 IH]; simpl.
  - by constructor.
  - destruct (String.eqb k k'); constructor; done.
Qed.

Lemma Forall_dict_get {V} (P : string * V -> Prop) k v d :
  Forall P d -> dict_get k d = Some v -> exists k', P (k', v).
Proof.
  induction 1 as [|[k' v'] d H1 H2 IH]; simpl; [done|].
  destruct (String.eqb k k'); [|done]. intros [= <-]. by exists k'.
Qed.

(** Parsing and merging do not deepen a tree. *)
Lemma depth_tconv n t :
  depth t <= n ->
  (forall m, depth t <= m -> depth (tparse t) <= m) /\
  (forall self m, depth t <= m -> depth (TYaco self) <= m ->
                  depth (TYaco (tupdate t self)) <= m).
Proof.
  revert t. induction n as [|n IH]; intros t Hd.
  - destruct t; simpl in Hd; try lia. split; [done|]. intros self m _ H. done.
  - assert (Hloop : forall items m,
      Forall (fun kv : string * tree => depth kv.2 <= n) items ->
      Forall (fun kv : string * tree => depth kv.2 <= m) items ->
      forall self, depth (TYaco self) <= S m ->
                   depth (TYaco (tupdate (TDict items) self)) <= S m).
    { induction items as [|[key value] items IHi]; intros m Hn Hm self Hs; [done|].
      apply Forall_cons in Hn as [Hvn Hn]. apply Forall_cons in Hm as [Hvm Hm].
      simpl in Hvn, Hvm. rewrite tupdate_cons. apply IHi; [done|done|].
      destruct (IH _ Hvn) as [Hp Hu].
      apply depth_yaco_Forall. apply depth_yaco_Forall in Hs.
      unfold tstep.
      destruct (is_tdict value), (dict_get key self) as [[| | |[|e od]]|] eqn:E;
        try (apply Forall_dict_set; [intros k'; simpl; by apply Hp|done]).
      apply Forall_dict_set; [|done]. intros k'. simpl.
      destruct m as [|m'].
      { destruct (Forall_dict_get _ _ _ _ Hs E) as [k0 Hk0]. simpl in Hk0. lia. }
      apply Hu; [done|].
      destruct (Forall_dict_get _ _ _ _ Hs E) as [k0 Hk0]. exact Hk0. }
    destruct t as [c|l|d|d].
    + split; [done|]. intros self m _ H. done.
    + split; [|intros self m _ H; done].
      intros m Hm. rewrite tparse_list. destruct m as [|m]; [simpl in Hm; lia|].
      apply depth_list_le. apply Forall_map.
      apply depth_list in Hd. apply depth_list in Hm.
      clear -IH Hd Hm. induction Hd as [|x l Hx Hl IHl]; [constructor|].
      apply Forall_cons in Hm as [Hxm Hlm]. constructor; [|by apply IHl].
      by apply (IH _ Hx).
    + pose proof (depth_items (TDict d) n eq_refl Hd) as Hf. split.
      * intros m Hm. destruct m as [|m]; [simpl in Hm; lia|].
        rewrite tparse_dict by done.
        apply (Hloop d m Hf (depth_items (TDict d) m eq_refl Hm) []).
        simpl. lia.
      * intros self m Hm Hs. destruct m as [|m]; [simpl in Hm; lia|].
        by apply (Hloop d m Hf (depth_items (TDict d) m eq_refl Hm)).
    + pose proof (depth_items (TYaco d) n eq_refl Hd) as Hf. split.
      * intros m Hm. destruct m as [|m]; [simpl in Hm; lia|].
        rewrite tparse_dict by done. rewrite tupdate_yaco.
        apply (Hloop d m Hf (depth_items (TYaco d) m eq_refl Hm) []).
        simpl. lia.
      * intros self m Hm Hs. destruct m as [|m]; [simpl in Hm; lia|].
        rewrite tupdate_yaco.
        by apply (Hloop d m Hf (depth_items (TYaco d) m eq_refl Hm)).
Qed.

Lemma depth_tparse t : depth (tparse t) <= depth t.
Proof. destruct (depth_tconv (depth t) t (le_n _)) as [H _]. by apply H. Qed.

Lemma depth_tupdate t self m :
  depth t <= m -> depth (TYaco self) <= m -> depth (TYaco (tupdate t self)) <= m.
Proof. destruct (depth_tconv (depth t) t (le_n _)) as [_ H]. apply H. Qed.

Lemma init_update_data fuel data h a h' :
  Yaco.__init__ fuel data h = (Ok a, h') ->
  a = List.length h /\
  Yaco.update fuel (List.length h) data (h ++ [[]]) = (Ok tt, h').
Proof.
  unfold Yaco.__init__, bind, Yaco.new_empty, ret.
  destruct data as [c|l|d|z]; try done;
    (destruct (Yaco.update fuel _ _ _) as [[[]|e] hx]; [|done]);
    by intros [= <- <-].
Qed.

(** One file source that is there becomes one new layer. *)
Lemma resolve_file fuel filename s doc :
  file_source fuel (disk (env s)) filename ->
  files (disk (env s)) !! filename = Some doc ->
  exists h' F',
    PolyYaco.resolve fuel filename s =
      (Ok (Some (Layer KYaco (List.length (heap (env s))))), with_heap s h') /\
    rep h' (VYaco (List.length (heap (env s)))) (tparse (tree_of doc)) F' /\
    frame (heap (env s)) h' ∅ F'.
Proof.
  intros (Hpkg & Hdir & Hdoc) Hfile.
  destruct (Hdoc doc Hfile) as (Hp & Hd & Hdepth).
  assert (Htd : is_tdict (tree_of doc) = true) by (by destruct doc).
  destruct (init_refines fuel (heap (env s)) doc (tree_of doc) ∅
              (rep_plain _ _ Hp) Htd Hdepth) as (h' & F' & Hrun & Hrep & Hfr).
  apply init_update_data in Hrun as [_ Hupd].
  exists h', F'. split_and!; [|done|done].
  unfold PolyYaco.resolve. rewrite Hpkg. destruct s as [w i].
  unfold bind, PolyYaco.on_world, PolyYaco.on_store, isdir, isfile, gets.
  cbn [fst snd env this] in Hdir, Hupd |- *. rewrite Hdir. cbn [fst snd env this].
  destruct (bool_decide _) eqn:E.
  2:{ apply bool_decide_eq_false in E. destruct E. by exists doc. }
  unfold bind, PolyYaco.on_world, PolyYaco.on_store, on_heap, Yaco.new_empty,
    YacoIO.load, bind, read_yaml.
  cbn [fst snd env this heap set_heap disk].
  cbn [fst snd env this heap set_heap disk] in Hfile. rewrite Hfile.
  unfold on_heap. cbn [fst snd env this heap set_heap disk].
  rewrite Hupd. reflexivity.
Qed.

Lemma file_source_missing fuel fs filename :
  file_source fuel fs filename -> files fs !! filename = None ->
  missing fs filename = true.
Proof.
  intros (Hpkg & Hdir & _) Hf. unfold missing. rewrite Hpkg, Hdir, Hf. done.
Qed.

Lemma layer_rep_frame fuel h h' F' ls ts :
  frame h h' ∅ F' ->
  Forall2 (layer_rep fuel h) ls ts -> Forall2 (layer_rep fuel h') ls ts.
Proof.
  intros Hfr Hl. eapply Forall2_impl; [exact Hl|].
  intros l t (Fl & Hr & Hd). exists Fl. split; [|done].
  eapply frame_keeps; [exact Hfr|exact Hr|set_solver].
Qed.

(** The loop of [load] over file sources: the sources that are there
    become new layers, in order, each unfolding to its document
    parsed; the layers that were there stay as they were. *)
Lemma load_sources_refines fuel names :
  forall s ts,
    Forall (file_source fuel (disk (env s))) names ->
    Forall2 (layer_rep fuel (heap (env s))) (_PolyYaco_yacs (this s)) ts ->
    exists s' new,
      PolyYaco.load_sources fuel names s = (Ok tt, s') /\
      _PolyYaco_filenames (this s') =
        _PolyYaco_filenames (this s) ++ map fst (source_docs (disk (env s)) names) /\
      _PolyYaco_yacs (this s') = _PolyYaco_yacs (this s) ++ new /\
      Forall (fun l => cls l = KYaco) new /\
      Forall2 (layer_rep fuel (heap (env s'))) (_PolyYaco_yacs (this s'))
        (ts ++ map (fun fd => tparse (tree_of fd.2))
                   (source_docs (disk (env s)) names)) /\
      _PolyYaco_base (this s') = _PolyYaco_base (this s) /\
      _PolyYaco_rawfiles (this s') = _PolyYaco_rawfiles (this s) /\
      _PolyYaco_dirty (this s') = _PolyYaco_dirty (this s) /\
      _PolyYaco_merged (this s') = _PolyYaco_merged (this s) /\
      disk (env s') = disk (env s) /\
      (forall a, a < List.length (heap (env s)) ->
                 heap (env s') !! a = heap (env s) !! a).
Proof.
  induction names as [|f names IH]; intros s ts Hsrc Hl.
  - exists s, []. simpl. rewrite !app_nil_r. by split_and!.
  - apply Forall_cons in Hsrc as [Hf Hsrc].
    unfold PolyYaco.load_sources in *. rewrite for_each_cons_run.
    unfold source_docs. cbn [omap list_omap].
    destruct (files (disk (env s)) !! f) as [doc|] eqn:Efile.
    + destruct (resolve_file fuel f s doc Hf Efile) as (h' & F' & Hres & Hrep & Hfr).
      unfold bind at 1. rewrite Hres.
      unfold PolyYaco.set_this, modify.
      set (s1 := {| env := env (with_heap s h');
                    this := PolyYaco.append_layer f
                              (Layer KYaco (List.length (heap (env s))))
                              (this (with_heap s h')) |}).
      destruct (IH s1 (ts ++ [tparse (tree_of doc)])) as (s' & new & Hrun & Hfn
          & Hy & Hcls & Hreps & Hb & Hrf & Hdt & Hmg & Hdisk & Hsame).
      { exact Hsrc. }
      { simpl. apply Forall2_app.
        - eapply layer_rep_frame; [exact Hfr|exact Hl].
        - constructor; [|constructor]. exists F'. split; [exact Hrep|].
          destruct Hf as (_ & _ & Hdoc). destruct (Hdoc doc Efile) as (_ & _ & Hdp).
          etrans; [apply depth_tparse|done]. }
      exists s', (Layer KYaco (List.length (heap (env s))) :: new).
      split_and!; try done.
      * rewrite Hfn. simpl. by rewrite <- app_assoc.
      * rewrite Hy. simpl. by rewrite <- app_assoc.
      * by constructor.
      * simpl in Hreps. by rewrite <- app_assoc in Hreps.
      * intros a Ha. rewrite Hsame.
        -- simpl. destruct Hfr as (_ & _ & Hs). apply Hs; [done|set_solver].
        -- simpl. destruct Hfr as (Hlen & _). lia.
    + unfold bind at 1.
      rewrite (resolve_missing fuel f s (file_source_missing _ _ _ Hf Efile)).
      apply (IH s ts Hsrc Hl).
Qed.

(** The first part of [load]: the flag is set, the stack holds the
    base layer or nothing, the cache is dropped. *)
Lemma load_base_refines fuel s :
  base_ok fuel (_PolyYaco_base (this s)) ->
  exists s1,
    PolyYaco.load_base fuel s = (Ok tt, s1) /\
    _PolyYaco_filenames (this s1) =
      match _PolyYaco_base (this s) with Some _ => ["_base"] | None => [] end /\
    Forall2 (layer_rep fuel (heap (env s1))) (_PolyYaco_yacs (this s1))
      match _PolyYaco_base (this s) with
      | Some b => [tparse (tree_of b)]
      | None => []
      end /\
    Forall (fun l => cls l = KYaco) (_PolyYaco_yacs (this s1)) /\
    _PolyYaco_base (this s1) = _PolyYaco_base (this s) /\
    _PolyYaco_rawfiles (this s1) = _PolyYaco_rawfiles (this s) /\
    _PolyYaco_dirty (this s1) = true /\
    _PolyYaco_merged (this s1) = None /\
    disk (env s1) = disk (env s) /\
    (forall a, a < List.length (heap (env s)) ->
               heap (env s1) !! a = heap (env s) !! a).
Proof.
  intros Hb. unfold PolyYaco.load_base, bind, gets, PolyYaco.set_this, modify.
  cbn [fst snd env this PolyYaco.set_dirty PolyYaco.clear_layers
       PolyYaco.set_merged _PolyYaco_base].
  destruct (_PolyYaco_base (this s)) as [b|] eqn:Eb.
  - destruct Hb as (Hp & Hd & Hdepth).
    assert (Htd : is_tdict (tree_of b) = true) by (by destruct b).
    destruct (init_refines fuel (heap (env s)) b (tree_of b) ∅
                (rep_plain _ _ Hp) Htd Hdepth) as (h' & F' & Hrun & Hrep & Hfr).
    unfold PolyYaco.on_store, PolyYaco.on_world, on_heap.
    cbn [fst snd env this]. rewrite Hrun. cbn [fst snd env this].
    eexists. split; [reflexivity|]. cbn.
    split_and!; try done.
    + constructor; [|constructor]. exists F'. split; [exact Hrep|].
      etrans; [apply depth_tparse|done].
    + by repeat constructor.
    + intros a Ha. destruct Hfr as (_ & _ & Hs). apply Hs; [done|set_solver].
  - eexists. split; [reflexivity|]. cbn. by split_and!.
Qed.

(** [load] from a base and file sources. *)
Lemma load_refines fuel s :
  base_ok fuel (_PolyYaco_base (this s)) ->
  Forall (file_source fuel (disk (env s))) (_PolyYaco_rawfiles (this s)) ->
  exists s',
    PolyYaco.load fuel s = (Ok tt, s') /\
    _PolyYaco_filenames (this s') =
      expected_names (_PolyYaco_base (this s)) (disk (env s))
                     (_PolyYaco_rawfiles (this s)) /\
    Forall2 (layer_rep fuel (heap (env s'))) (_PolyYaco_yacs (this s'))
      (expected_trees (_PolyYaco_base (this s)) (disk (env s))
                      (_PolyYaco_rawfiles (this s))) /\
    Forall (fun l => cls l = KYaco) (_PolyYaco_yacs (this s')) /\
    _PolyYaco_base (this s') = _PolyYaco_base (this s) /\
    _PolyYaco_rawfiles (this s') = _PolyYaco_rawfiles (this s) /\
    _PolyYaco_dirty (this s') = true /\
    _PolyYaco_merged (this s') = None /\
    disk (env s') = disk (env s) /\
    (forall a, a < List.length (heap (env s)) ->
               heap (env s') !! a = heap (env s) !! a).
Proof.
  intros Hb Hsrc.
  destruct (load_base_refines fuel s Hb)
    as (s1 & Hrun1 & Hfn1 & Hl1 & Hc1 & Hb1 & Hr1 & Hd1 & Hm1 & Hk1 & Hs1).
  destruct (load_sources_refines fuel (_PolyYaco_rawfiles (this s)) s1 _
              ltac:(by rewrite Hk1) Hl1)
    as (s' & new & Hrun & Hfn & Hy & Hcls & Hreps & Hb2 & Hr2 & Hd2 & Hm2 & Hk2 & Hs2).
  exists s'. unfold PolyYaco.load, bind, gets. rewrite Hrun1, Hr1, Hrun.
  unfold expected_names, expected_trees. rewrite Hk1 in *.
  split_and!; try congruence.
  - rewrite Hy. apply Forall_app. by split.
  - intros a Ha. rewrite Hs2; [by apply Hs1|].
    assert (List.length (heap (env s)) <= List.length (heap (env s1))); [|lia].
    destruct (decide (List.length (heap (env s)) <= List.length (heap (env s1))))
      as [|Hn]; [done|]. exfalso.
    assert (Hlt : List.length (heap (env s1)) < List.length (heap (env s))) by lia.
    pose proof (Hs1 _ Hlt) as Hx. rewrite lookup_ge_None_2 in Hx by lia.
    symmetry in Hx. apply lookup_ge_None in Hx. lia.
Qed.

(** X13: [load] from a base, whose lists hold no mapping, and from
    sources that are files.  It returns normally and leaves one layer
    for the base, when one was given, and one for each source that is
    there, in the order of the source list; each layer is a new object
    that unfolds to its document parsed, and its name is the reserved
    [_base] or the file name.  The flag is set, the cache is dropped,
    no file is written and no object that was there is touched: what
    was loaded or written before plays no part. *)
Theorem X13_load_builds_layers fuel s :
  base_ok fuel (_PolyYaco_base (this s)) ->
  base_lists_flat (_PolyYaco_base (this s)) ->
  Forall (file_source fuel (disk (env s))) (_PolyYaco_rawfiles (this s)) ->
  exists s',
    PolyYaco.load fuel s = (Ok tt, s') /\
    _PolyYaco_filenames (this s') =
      expected_names (_PolyYaco_base (this s)) (disk (env s))
                     (_PolyYaco_rawfiles (this s)) /\
    Forall2 (layer_rep fuel (heap (env s'))) (_PolyYaco_yacs (this s'))
      (expected_trees (_PolyYaco_base (this s)) (disk (env s))
                      (_PolyYaco_rawfiles (this s))) /\
    _PolyYaco_dirty (this s') = true /\
    _PolyYaco_merged (this s') = None /\
    disk (env s') = disk (env s) /\
    (forall a, a < List.length (heap (env s)) ->
               heap (env s') !! a = heap (env s) !! a).
Proof.
  intros Hb _ Hsrc.
  destruct (load_refines fuel s Hb Hsrc)
    as (s' & Hrun & Hfn & Hl & _ & _ & _ & Hd & Hm & Hk & Hs).
  exists s'. by split_and!.
Qed.

Lemma example_sources :
  base_ok 3 (Some (VDict [("a", VInt 1); ("b", VInt 2)])) /\
  Forall (file_source 3 (disk example_world)) ["/etc/none.yaml"; "/etc/app.yaml"].
Proof.
  split; [split_and!; [done|done|vm_compute; lia]|].
  apply Forall_cons; split; [|apply Forall_cons; split; [|constructor]].
  - split_and!; [done|done|]. intros doc Hdoc. vm_compute in Hdoc. done.
  - split_and!; [done|done|]. intros doc Hdoc. vm_compute in Hdoc.
    injection Hdoc as <-. split_and!; [done|done|vm_compute; lia].
Qed.

Lemma X13_load_builds_layers_witness :
  let s := {| env := example_world;
              this := {| _PolyYaco_base := Some (VDict [("a", VInt 1); ("b", VInt 2)]);
                         _PolyYaco_rawfiles := ["/etc/none.yaml"; "/etc/app.yaml"];
                         _PolyYaco_filenames := ["stale"];
                         _PolyYaco_yacs := [Layer KYaco 7];
                         _PolyYaco_dirty := false;
                         _PolyYaco_merged := Some 9 |} |} in
  base_ok 3 (_PolyYaco_base (this s)) /\
  base_lists_flat (_PolyYaco_base (this s)) /\
  Forall (file_source 3 (disk (env s))) (_PolyYaco_rawfiles (this s)) /\
  exists s',
    PolyYaco.load 3 s = (Ok tt, s') /\
    _PolyYaco_filenames (this s') = ["_base"; "/etc/app.yaml"] /\
    Forall2 (layer_rep 3 (heap (env s'))) (_PolyYaco_yacs (this s'))
      [TYaco [("a", TScalar (SInt 1)); ("b", TScalar (SInt 2))];
       TYaco [("a", TScalar (SInt 18))]].
Proof.
  intros s. destruct example_sources as [H1 H2].
  assert (H0 : base_lists_flat (_PolyYaco_base (this s))) by reflexivity.
  split_and!; [exact H1|exact H0|exact H2|].
  destruct (X13_load_builds_layers 3 s H1 H0 H2) as (s' & Hrun & Hfn & Hl & _).
  exists s'. split_and!; [exact Hrun|exact Hfn|exact Hl].
Defined.

(** X14: from construction to the merged view.  A [PolyYaco] built
    over a base and file sources merges, on the first read, the base
    and then the documents of the sources that are there, in the order
    of the source list; a key read through it gives the scalar that
    this merge holds. *)
Theorem X14_constructed_view_is_fold fuel files base w :
  base_ok fuel base ->
  Forall (file_source fuel (disk w)) files ->
  exists s y s' F',
    PolyYaco.__init__ fuel files base w = (Ok tt, s) /\
    PolyYaco.merge fuel s = (Ok (Some y), s') /\
    rep (heap (env s')) (VYaco y)
        (TYaco (tmerge (expected_trees base (disk w) files))) F' /\
    (forall k c,
       PolyYaco.reserved k = false ->
       dict_get k (tmerge (expected_trees base (disk w) files)) =
         Some (TScalar c) ->
       (PolyYaco.__getattr__ fuel k s).1 = Ok (VScalar c)).
Proof.
  intros Hb Hsrc. unfold PolyYaco.__init__.
  set (s0 := {| env := w; this := _ |}).
  destruct (load_refines fuel s0 Hb Hsrc)
    as (s & Hrun & Hfn & Hl & _ & _ & _ & Hd & Hm & Hk & Hs).
  destruct (merge_refines fuel s _ Hd Hl) as (h' & F' & Hmerge & Hrep & Hfr).
  eexists s, _, _, F'. split_and!; [exact Hrun|exact Hmerge|exact Hrep|].
  intros k c Hres Hget.
  unfold PolyYaco.__getattr__. rewrite Hres. unfold bind. rewrite Hmerge.
  apply rep_yaco_inv in Hrep as (td & F0 & [= <-] & _ & _ & _ & _ & Hcell).
  destruct (rep_dict_get _ _ _ _ _ _ Hcell Hget) as (v & Fv & Hv & Hrv).
  apply rep_tscalar_inv in Hrv as ->.
  rewrite on_store_run. simpl.
  by rewrite (getattr_present _ _ _ _ Hv).
Qed.

Lemma X14_constructed_view_is_fold_witness :
  let base := Some (VDict [("a", VInt 1); ("b", VInt 2)]) in
  let files := ["/etc/none.yaml"; "/etc/app.yaml"] in
  base_ok 3 base /\
  Forall (file_source 3 (disk example_world)) files /\
  exists s,
    PolyYaco.__init__ 3 files base example_world = (Ok tt, s) /\
    (PolyYaco.__getattr__ 3 "a" s).1 = Ok (VInt 18) /\
    (PolyYaco.__getattr__ 3 "b" s).1 = Ok (VInt 2).
Proof.
  intros base files. destruct example_sources as [H1 H2].
  split_and!; [exact H1|exact H2|].
  destruct (X14_constructed_view_is_fold 3 files base example_world H1 H2)
    as (s & y & s' & F' & Hrun & _ & _ & Hget).
  exists s. split_and!; [exact Hrun| |].
  - by apply (Hget "a" (SInt 18)).
  - by apply (Hget "b" (SInt 2)).
Defined.

(** With no base and no source that is there, [load] leaves no layer. *)
Lemma load_nothing fuel s :
  _PolyYaco_base (this s) = None ->
  Forall (fun f => missing (disk (env s)) f = true) (_PolyYaco_rawfiles (this s)) ->
  PolyYaco.load fuel s =
  (Ok tt, {| env := env s;
             this := PolyYaco.set_merged None
                       (PolyYaco.clear_layers
                          (PolyYaco.set_dirty true (this s))) |}).
Proof.
  intros Hbase Hall. rewrite load_skips_missing.
  unfold PolyYaco.load_base, bind, gets, PolyYaco.set_this, modify. simpl.
  rewrite Hbase. simpl.
  assert (Hnil : filter (fun f => missing (disk (env s)) f = false)
                   (_PolyYaco_rawfiles (this s)) = []).
  { induction Hall as [|f l Hf Hl IH]; [done|].
    rewrite filter_cons. destruct (decide _) as [Hd|Hd]; [congruence|done]. }
  rewrite Hnil. done.
Qed.

(** X15: a [PolyYaco] without a base, none of whose sources is there,
    has no layer after [load]; it can still be read -- every key is
    absent and [get] gives the default -- but an assignment to any of
    its keys raises [AttributeError], and so does [save]. *)
Theorem X15_no_layer_no_write fuel s :
  _PolyYaco_base (this s) = None ->
  Forall (fun f => missing (disk (env s)) f = true) (_PolyYaco_rawfiles (this s)) ->
  exists s',
    PolyYaco.load fuel s = (Ok tt, s') /\
    _PolyYaco_yacs (this s') = [] /\
    (forall key value, PolyYaco.reserved key = false ->
       (PolyYaco.__setattr__ fuel key value s').1 = Raise AttributeError) /\
    (PolyYaco.save fuel s').1 = Raise AttributeError /\
    (forall key default, PolyYaco.reserved key = false ->
       (PolyYaco.__contains__ fuel key s').1 = Ok false /\
       (PolyYaco.get fuel key default s').1 = Ok default).
Proof.
  intros Hbase Hall. eexists. split; [by apply load_nothing|].
  split_and!.
  - done.
  - intros key value Hres. unfold PolyYaco.__setattr__. by rewrite Hres.
  - done.
  - intros key default Hres.
    set (s' := {| env := env s; this := _ |}).
    assert (Hm : PolyYaco.merge fuel s' =
                 (Ok (Some (List.length (heap (env s)))),
                  {| env := set_heap (env s) (heap (env s) ++ [[]]);
                     this := PolyYaco.set_dirty false
                               (PolyYaco.set_merged
                                  (Some (List.length (heap (env s)))) (this s')) |}))
      by (by rewrite merge_dirty).
    assert (Hcell : dict_get key
                      (cell (heap (env s) ++ [[]]) (List.length (heap (env s)))) = None).
    { rewrite cell_alloc. unfold cell. by rewrite lookup_ge_None_2. }
    split.
    + unfold PolyYaco.__contains__, bind. rewrite Hm, on_store_run. simpl.
      unfold dict_has. by rewrite Hcell.
    + unfold PolyYaco.get, PolyYaco.__getattr__. rewrite Hres. unfold bind.
      rewrite Hm, on_store_run. cbn [fst snd env heap set_heap].
      rewrite (getattr_absent _ _ _ Hcell). cbn [fst snd].
      unfold PolyYaco.eq_empty_dict. rewrite with_heap_heap.
      rewrite cell_put_ne by (rewrite length_app; simpl; lia).
      rewrite cell_alloc. unfold cell at 1.
      rewrite lookup_ge_None_2 by (rewrite length_app; simpl; lia). done.
Qed.

Lemma X15_no_layer_no_write_witness :
  let s := {| env := example_world;
              this := {| _PolyYaco_base := None;
                         _PolyYaco_rawfiles := ["/etc/none.yaml"; "~/.config/none/"];
                         _PolyYaco_filenames := [];
                         _PolyYaco_yacs := [];
                         _PolyYaco_dirty := false;
                         _PolyYaco_merged := None |} |} in
  _PolyYaco_base (this s) = None /\
  Forall (fun f => missing (disk (env s)) f = true) (_PolyYaco_rawfiles (this s)) /\
  exists s',
    PolyYaco.load 3 s = (Ok tt, s') /\
    (PolyYaco.__setattr__ 3 "a" (VInt 1) s').1 = Raise AttributeError /\
    (PolyYaco.save 3 s').1 = Raise AttributeError /\
    (PolyYaco.get 3 "a" (VInt 77) s').1 = Ok (VInt 77).
Proof.
  intros s.
  assert (H1 : _PolyYaco_base (this s) = None) by reflexivity.
  assert (H2 : Forall (fun f => missing (disk (env s)) f = true)
                 (_PolyYaco_rawfiles (this s))) by (by repeat constructor).
  split_and!; [done|done|].
  destruct (X15_no_layer_no_write 3 s H1 H2) as (s' & Hrun & _ & Hw & Hs & Hg).
  exists s'. split_and!; [done|by apply Hw|done|by apply Hg].
Defined.

(** ** Reads and writes through a [PolyYaco] *)

(** X16: a scalar assigned through the [PolyYaco] goes to the last
    layer and nowhere else: that layer holds it under the key, every
    lower layer unfolds as before, no object but the last layer's own
    is touched, no file is written, and of the instance only the flag
    changes.  This holds also when the last layer is the base. *)
Theorem X16_write_goes_to_top_layer fuel s lower top cfn ts ttop key c :
  PolyYaco.reserved key = false ->
  _PolyYaco_yacs (this s) = lower ++ [top] ->
  last (_PolyYaco_filenames (this s)) = Some cfn ->
  Forall2 (layer_rep fuel (heap (env s))) lower ts ->
  layer_rep fuel (heap (env s)) top (TYaco ttop) ->
  Forall (fun l => forall t Fl,
            rep (heap (env s)) (VYaco (obj l)) t Fl -> obj top ∉ Fl) lower ->
  exists s',
    PolyYaco.__setattr__ fuel key (VScalar c) s = (Ok tt, s') /\
    layer_rep fuel (heap (env s')) top (TYaco (dict_set key (TScalar c) ttop)) /\
    Forall2 (layer_rep fuel (heap (env s'))) lower ts /\
    (forall a, a <> obj top -> heap (env s') !! a = heap (env s) !! a) /\
    disk (env s') = disk (env s) /\
    this s' = PolyYaco.set_dirty true (this s).
Proof.
  intros Hres Hyacs Hcfn Hlower Htop Hsep.
  assert (Hlast : last (_PolyYaco_yacs (this s)) = Some top)
    by (rewrite Hyacs; apply last_snoc).
  eexists. split; [by apply (poly_setattr_scalar fuel key c s top cfn)|].
  pose proof (layers_after_write fuel (heap (env s)) lower top ts ttop key c
                Hlower Htop Hsep) as Hall.
  apply Forall2_app_inv in Hall as [Hl Ht];
    [|by apply Forall2_length in Hlower].
  apply Forall2_cons_1 in Ht as [Ht _].
  cbn [env this heap set_heap disk]. split_and!; try done.
  intros a Ha. unfold put_cell. by apply list_lookup_insert_ne.
Qed.

Lemma X16_write_goes_to_top_layer_witness :
  let s := example_state in
  PolyYaco.reserved "b" = false /\
  _PolyYaco_yacs (this s) = [Layer KYaco 0] ++ [Layer KYaco 1] /\
  last (_PolyYaco_filenames (this s)) = Some "/etc/app.yaml" /\
  exists s',
    PolyYaco.__setattr__ 3 "b" (VInt 5) s = (Ok tt, s') /\
    layer_rep 3 (heap (env s')) (Layer KYaco 1)
      (TYaco [("a", TScalar (SInt 18)); ("b", TScalar (SInt 5))]) /\
    Forall2 (layer_rep 3 (heap (env s'))) [Layer KYaco 0]
      [TYaco [("a", TScalar (SInt 1)); ("b", TScalar (SInt 2))]] /\
    disk (env s') = disk (env s).
Proof.
  intros s.
  assert (H1 : PolyYaco.reserved "b" = false) by reflexivity.
  assert (H2 : _PolyYaco_yacs (this s) = [Layer KYaco 0] ++ [Layer KYaco 1])
    by reflexivity.
  assert (H3 : last (_PolyYaco_filenames (this s)) = Some "/etc/app.yaml")
    by reflexivity.
  assert (H0 : rep (heap (env s)) (VYaco 0)
                 (TYaco [("a", TScalar (SInt 1)); ("b", TScalar (SInt 2))])
                 ({[0]} ∪ (∅ ∪ (∅ ∪ ∅))))
    by (vm_compute heap; rep_concrete).
  assert (H4 : Forall2 (layer_rep 3 (heap (env s))) [Layer KYaco 0]
                 [TYaco [("a", TScalar (SInt 1)); ("b", TScalar (SInt 2))]]).
  { repeat constructor. eexists. split; [exact H0|simpl; lia]. }
  assert (H5 : layer_rep 3 (heap (env s)) (Layer KYaco 1)
                 (TYaco [("a", TScalar (SInt 18))])).
  { eexists. split; [simpl obj; vm_compute heap; rep_concrete|simpl; lia]. }
  assert (H6 : Forall (fun l => forall t Fl,
                 rep (heap (env s)) (VYaco (obj l)) t Fl ->
                 obj (Layer KYaco 1) ∉ Fl) [Layer KYaco 0]).
  { repeat constructor. intros t Fl Hr.
    destruct (rep_functional _ _ _ _ H0 _ _ Hr) as [_ <-]. set_solver. }
  split_and!; [done|done|done|].
  destruct (X16_write_goes_to_top_layer 3 s [Layer KYaco 0] (Layer KYaco 1)
              "/etc/app.yaml" _ _ "b" (SInt 5) H1 H2 H3 H4 H5 H6)
    as (s' & Hrun & Ht & Hl & _ & Hd & _).
  exists s'. by split_and!.
Defined.

Lemma dict_has_set {V} k key (v : V) d :
  dict_has k (dict_set key v d) = String.eqb k key || dict_has k d.
Proof.
  unfold dict_has. destruct (String.eqb k key) eqn:E.
  - apply String.eqb_eq in E. subst. by rewrite dict_get_set_eq.
  - apply String.eqb_neq in E. rewrite dict_get_set_ne by done. done.
Qed.

Lemma tupdate_has k t self :
  dict_has k (tupdate t self) = dict_has k self || dict_has k (titems t).
Proof.
  destruct (is_tdict t) eqn:Ed.
  2:{ rewrite tupdate_not_dict by done. destruct t; try done;
        by rewrite orb_false_r. }
  rewrite (tupdate_items _ _ Ed). generalize (titems t). clear t Ed.
  intros items. revert self.
  induction items as [|[key value] items IH]; intros self.
  - by rewrite tupdate_nil, orb_false_r.
  - rewrite tupdate_cons, IH.
    assert (Hs : dict_has k (tstep key value self) =
                 String.eqb k key || dict_has k self).
    { unfold tstep.
      destruct (is_tdict value), (dict_get key self) as [[| | |[|e od]]|];
        apply dict_has_set. }
    rewrite Hs. unfold dict_has at 4. simpl.
    destruct (String.eqb k key); simpl.
    + by rewrite orb_true_r.
    + done.
Qed.

Lemma tmerge_has k ts :
  dict_has k (tmerge ts) = existsb (fun t => dict_has k (titems t)) ts.
Proof.
  unfold tmerge.
  assert (H : forall acc,
    dict_has k (fold_left (fun acc t => tupdate t acc) ts acc) =
    dict_has k acc || existsb (fun t => dict_has k (titems t)) ts).
  { induction ts as [|t ts IH]; intros acc; simpl.
    - by rewrite orb_false_r.
    - by rewrite IH, tupdate_has, orb_assoc. }
  by rewrite H.
Qed.

(** X17: on a newly computed merge, [key in cfg] -- and [has_key] --
    is true exactly when some layer has the key. *)
Theorem X17_has_key_some_layer fuel s ts key :
  _PolyYaco_dirty (this s) = true ->
  Forall2 (layer_rep fuel (heap (env s))) (_PolyYaco_yacs (this s)) ts ->
  (PolyYaco.has_key fuel key s).1 =
    Ok (existsb (fun t => dict_has key (titems t)) ts) /\
  (PolyYaco.__contains__ fuel key s).1 =
    Ok (existsb (fun t => dict_has key (titems t)) ts).
Proof.
  intros Hd Hl.
  destruct (merge_refines fuel s ts Hd Hl) as (h' & F' & Hrun & Hrep & _).
  assert (H : (PolyYaco.__contains__ fuel key s).1 =
              Ok (existsb (fun t => dict_has key (titems t)) ts)).
  { unfold PolyYaco.__contains__, bind. rewrite Hrun, on_store_run. simpl.
    apply rep_yaco_inv in Hrep as (td & F0 & [= <-] & _ & _ & _ & _ & Hcell).
    f_equal. rewrite <- tmerge_has. apply dict_has_keys.
    symmetry. by eapply rep_dict_keys. }
  by split.
Qed.

Lemma X17_has_key_some_layer_witness :
  let ts := [TYaco [("a", TScalar (SInt 1)); ("b", TScalar (SInt 2))];
             TYaco [("a", TScalar (SInt 18))]] in
  _PolyYaco_dirty (this example_state) = true /\
  Forall2 (layer_rep 3 (heap (env example_state)))
          (_PolyYaco_yacs (this example_state)) ts /\
  (PolyYaco.has_key 3 "b" example_state).1 = Ok true /\
  (PolyYaco.has_key 3 "qqq" example_state).1 = Ok false.
Proof.
  intros ts.
  assert (H1 : Forall2 (layer_rep 3 (heap (env example_state)))
                 (_PolyYaco_yacs (this example_state)) ts).
  { vm_compute heap. vm_compute _PolyYaco_yacs.
    repeat constructor; (eexists; split; [simpl obj; rep_concrete|simpl; lia]). }
  destruct (X17_has_key_some_layer 3 example_state ts "b" eq_refl H1) as [Hb _].
  destruct (X17_has_key_some_layer 3 example_state ts "qqq" eq_refl H1) as [Hq _].
  by split_and!.
Defined.

Lemma rep_yaco_empty h a F : rep h (VYaco a) (TYaco []) F -> cell h a = [].
Proof.
  intros H. apply rep_yaco_inv in H as (td & F0 & [= <-] & _ & _ & _ & _ & Hc).
  pose proof (rep_dict_nonempty _ _ _ _ Hc) as Hn.
  by destruct (cell h a).
Qed.

(** X18: [get] on a newly computed merge.  It returns the default when
    no layer has the key and when the merge holds an empty [Yaco]
    under it; in every other case it returns what the merge holds --
    a scalar also when it is falsy, a list also when it is empty. *)
Theorem X18_get_default_only_for_empty fuel s ts key default :
  PolyYaco.reserved key = false ->
  _PolyYaco_dirty (this s) = true ->
  Forall2 (layer_rep fuel (heap (env s))) (_PolyYaco_yacs (this s)) ts ->
  match dict_get key (tmerge ts) with
  | None | Some (TYaco []) => (PolyYaco.get fuel key default s).1 = Ok default
  | Some t =>
      exists v s' Fv,
        PolyYaco.get fuel key default s = (Ok v, s') /\
        rep (heap (env s')) v t Fv
  end.
Proof.
  intros Hres Hd Hl.
  destruct (merge_refines fuel s ts Hd Hl) as (h' & F' & Hrun & Hrep & _).
  assert (Hall : all_nodes_dict (tmerge ts) = true).
  { unfold tmerge. generalize (@nil (string * tree)) (eq_refl : all_nodes_dict [] = true).
    induction ts as [|t ts' IH] in |- *; intros acc Hacc; [done|].
    simpl. apply IH. by apply tupdate_all_nodes. }
  pose proof Hrep as Hrep0.
  apply rep_yaco_inv in Hrep0 as (td & F0 & [= <-] & _ & _ & Hlt & _ & Hcell).
  unfold PolyYaco.get, PolyYaco.__getattr__. rewrite Hres. unfold bind.
  rewrite Hrun, on_store_run. cbn [fst snd env heap set_heap].
  destruct (dict_get key (tmerge ts)) as [t|] eqn:Et.
  - destruct (rep_dict_get _ _ _ _ _ _ Hcell Et) as (v & Fv & Hv & Hrv).
    rewrite (getattr_present _ _ _ _ Hv). cbn [fst snd]. rewrite with_heap_heap.
    pose proof (all_nodes_dict_get _ _ _ Hall Et) as Hnode.
    destruct t as [c|tl|d|[|e od]]; try done.
    + apply rep_tscalar_inv in Hrv as Hv'. subst v. simpl.
      eexists _, _, Fv. split; [reflexivity|]. by rewrite with_heap_heap.
    + pose proof Hrv as Hrv0. inversion Hrv0; subst; simpl;
        (eexists _, _, _; split; [reflexivity|]; by rewrite with_heap_heap).
    + destruct (rep_tyaco_inv _ _ _ _ Hrv) as [a ->]. simpl.
      by rewrite (rep_yaco_empty _ _ _ Hrv).
    + destruct (rep_tyaco_inv _ _ _ _ Hrv) as [a ->]. simpl.
      pose proof Hrv as Hrv0.
      apply rep_yaco_inv in Hrv0 as (td' & G0 & [= <-] & _ & _ & _ & _ & Hc).
      rewrite <- (rep_dict_nonempty _ _ _ _ Hc). simpl.
      eexists _, _, Fv. split; [reflexivity|]. by rewrite with_heap_heap.
  - assert (Hnone : dict_get key (cell h' (List.length (heap (env s)))) = None).
    { apply dict_get_None_keys. rewrite <- (rep_dict_keys _ _ _ _ Hcell).
      by apply dict_get_None_keys. }
    rewrite (getattr_absent _ _ _ Hnone). cbn [fst snd].
    unfold PolyYaco.eq_empty_dict. rewrite with_heap_heap.
    rewrite cell_put_ne by lia. rewrite cell_alloc. unfold cell at 1.
    by rewrite lookup_ge_None_2.
Qed.

Lemma X18_get_default_only_for_empty_witness :
  let s := {| env := {| heap := [[("e", VYaco 1); ("z", VInt 0)]; []];
                        disk := disk example_world |};
              this := {| _PolyYaco_base := None;
                         _PolyYaco_rawfiles := ["/etc/app.yaml"];
                         _PolyYaco_filenames := ["/etc/app.yaml"];
                         _PolyYaco_yacs := [Layer KYaco 0];
                         _PolyYaco_dirty := true;
                         _PolyYaco_merged := None |} |} in
  let ts := [TYaco [("e", TYaco []); ("z", TScalar (SInt 0))]] in
  PolyYaco.reserved "e" = false /\
  _PolyYaco_dirty (this s) = true /\
  Forall2 (layer_rep 3 (heap (env s))) (_PolyYaco_yacs (this s)) ts /\
  (PolyYaco.get 3 "e" (VInt 77) s).1 = Ok (VInt 77) /\
  (PolyYaco.get 3 "q" (VInt 77) s).1 = Ok (VInt 77) /\
  exists v s' Fv,
    PolyYaco.get 3 "z" (VInt 77) s = (Ok v, s') /\
    rep (heap (env s')) v (TScalar (SInt 0)) Fv.
Proof.
  intros s ts.
  assert (H1 : Forall2 (layer_rep 3 (heap (env s))) (_PolyYaco_yacs (this s)) ts).
  { repeat constructor. exists ({[0]} ∪ (({[1]} ∪ ∅) ∪ (∅ ∪ ∅))).
    split; [simpl obj; simpl heap; rep_concrete|simpl; lia]. }
  pose proof (X18_get_default_only_for_empty 3 s ts "e" (VInt 77)
                eq_refl eq_refl H1) as He.
  pose proof (X18_get_default_only_for_empty 3 s ts "q" (VInt 77)
                eq_refl eq_refl H1) as Hq.
  pose proof (X18_get_default_only_for_empty 3 s ts "z" (VInt 77)
                eq_refl eq_refl H1) as Hz.
  split_and!; [done|done|exact H1|exact He|exact Hq|exact Hz].
Defined.



(** X21: bundled-resource locators that [load] does not get through.
    A locator without a slash after the package name raises
    [ValueError]; a locator with a pattern whose path is no resource
    directory raises [YacoNotADirectory] -- or [ImportError], when the
    package itself cannot be imported.  In both cases the loop over
    the source list ends there, with the state as it was before that
    entry: the sources after it are not read. *)
Theorem X21_pkg_locator_errors fuel s rest :
  (forall name,
     has_char "/"%char name = false ->
     PolyYaco.load_sources fuel (String.append "pkg://" name :: rest) s =
     (Raise ValueError, s)) /\
  (forall pkg loc path pattern,
     has_char "/"%char pkg = false ->
     has_char "*"%char loc = true ->
     YacoIO.rsplit_slash loc = Some (path, pattern) ->
     resource_dirs (disk (env s)) pkg path = None ->
     PolyYaco.load_sources fuel
       (String.append "pkg://" (String.append pkg (String "/"%char loc)) :: rest) s =
     (Raise (if packages (disk (env s)) pkg then YacoNotADirectory else ImportError),
      s)).
Proof.
  split.
  - intros name Hname. unfold PolyYaco.load_sources.
    rewrite for_each_cons_run. unfold bind.
    by rewrite (resolve_pkg_noslash fuel name s Hname).
  - intros pkg loc path pattern Hpkg Hstar Hsplit Hdir.
    apply load_sources_pkg_raise; [done|].
    destruct (packages (disk (env s)) pkg) eqn:Hp.
    + by eapply YacoPkg_no_directory.
    + by apply YacoPkg_unimportable.
Qed.

Lemma X21_pkg_locator_errors_witness :
  let s := {| env := example_world;
              this := {| _PolyYaco_base := None;
                         _PolyYaco_rawfiles := [];
                         _PolyYaco_filenames := [];
                         _PolyYaco_yacs := [];
                         _PolyYaco_dirty := true;
                         _PolyYaco_merged := None |} |} in
  has_char "/"%char "Yaco" = false /\
  PolyYaco.load_sources 3 ["pkg://Yaco"; "/etc/app.yaml"] s = (Raise ValueError, s) /\
  has_char "*"%char "etc/*.config" = true /\
  YacoIO.rsplit_slash "etc/*.config" = Some ("etc", "*.config") /\
  resource_dirs (disk (env s)) "Yaco" "etc" = None /\
  PolyYaco.load_sources 3 ["pkg://Yaco/etc/*.config"; "/etc/app.yaml"] s =
    (Raise YacoNotADirectory, s) /\
  resource_dirs (disk (env s)) "nowhere" "etc" = None /\
  PolyYaco.load_sources 3 ["pkg://nowhere/etc/*.config"; "/etc/app.yaml"] s =
    (Raise ImportError, s).
Proof.
  intros s.
  destruct (X21_pkg_locator_errors 3 s ["/etc/app.yaml"]) as [Hv Hd].
  pose proof (Hv "Yaco" eq_refl) as H1.
  pose proof (Hd "Yaco" "etc/*.config" "etc" "*.config" eq_refl eq_refl eq_refl
                eq_refl) as H2.
  pose proof (Hd "nowhere" "etc/*.config" "etc" "*.config" eq_refl eq_refl eq_refl
                eq_refl) as H3.
  by split_and!.
Defined.

(** ** [simple] *)

Lemma map_each_pure {A B} (f : A -> M store B) h l l' :
  Forall2 (fun x y => f x h = (Ok y, h)) l l' ->
  map_each l f h = (Ok l', h).
Proof.
  induction 1 as [|x y l l' Hx Hl IH]; [done|].
  rewrite map_each_cons. unfold bind. rewrite Hx.
  fold (@map_each store A B). by rewrite IH.
Qed.

Lemma rep_list_Forall2 h l tl F :
  rep h (VList l) (TList tl) F ->
  Forall2 (fun v t => exists Fv, rep h v t Fv) l tl.
Proof.
  revert tl F. induction l as [|x l IH]; intros tl F H.
  - apply rep_list_nil_inv in H as [[= ->] _]. constructor.
  - apply rep_list_cons_inv in H
      as (tx & tl' & F1 & F2 & [= ->] & _ & _ & Hx & Hl).
    constructor; [by exists F1|by eapply IH].
Qed.

Lemma rep_dict_Forall2 h d td F :
  rep h (VDict d) (TDict td) F ->
  Forall2 (fun kv kt => kv.1 = kt.1 /\ exists Fv, rep h kv.2 kt.2 Fv) d td.
Proof.
  revert td F. induction d as [|[k v] d IH]; intros td F H.
  - apply rep_dict_nil_inv in H as [[= ->] _]. constructor.
  - apply rep_dict_cons_inv in H
      as (tv & td' & F1 & F2 & [= ->] & _ & _ & Hv & Hd).
    constructor; [split; [done|by exists F1]|by eapply IH].
Qed.

Lemma fold_dict_set_fresh {V} (l acc : list (string * V)) :
  NoDup (dict_keys (acc ++ l)) ->
  fold_left (fun acc kv => dict_set kv.1 kv.2 acc) l acc = acc ++ l.
Proof.
  revert acc. induction l as [|[k v] l IH]; intros acc Hnd.
  - by rewrite app_nil_r.
  - simpl. rewrite dict_set_absent.
    + rewrite IH; [by rewrite <- app_assoc|]. by rewrite <- app_assoc.
    + apply dict_get_None_keys. unfold dict_keys in *. rewrite map_app in Hnd.
      apply NoDup_app in Hnd as (_ & Hdj & _). intros Hin.
      apply (Hdj k Hin). simpl. left.
Qed.

Lemma tsimple_yaco d :
  NoDup (dict_keys d) ->
  tsimple (TYaco d) = VDict (map (fun kv => (kv.1, tsimple kv.2)) d).
Proof.
  intros Hnd. simpl. f_equal. apply fold_dict_set_fresh. simpl.
  by rewrite (dict_keys_map tsimple).
Qed.

Lemma returnSimple_unfold f item :
  Yaco._returnSimple (S f) item =
  match item with
  | VStr _ | VBool _ | VInt _ => ret item
  | VList l => l' <- map_each l (Yaco._returnSimple f) ;; ret (VList l')
  | VDict d =>
      d' <- map_each d (fun kv =>
              v <- Yaco._returnSimple f kv.2 ;; ret (kv.1, v)) ;;
      ret (VDict (fold_left (fun acc kv => dict_set kv.1 kv.2 acc) d' []))
  | VYaco a =>
      keys <- gets (fun h => dict_keys (cell h a)) ;;
      d' <- map_each keys (fun k =>
              x <- Yaco.__getitem__ a k ;;
              v <- Yaco._returnSimple f x ;; ret (k, v)) ;;
      ret (VDict (fold_left (fun acc kv => dict_set kv.1 kv.2 acc) d' []))
  | VNone => ret (VStr "None")
  end.
Proof. reflexivity. Qed.

(** [_returnSimple] on a value without sharing, without plain [dict]s
    and without dotted keys: it returns [tsimple] of the tree and
    leaves the store as it was. *)
Lemma returnSimple_refines fuel :
  forall h v t F,
    rep h v t F ->
    all_nodes t = true -> nodots t = true -> depth t < fuel ->
    Yaco._returnSimple fuel v h = (Ok (tsimple t), h).
Proof.
  induction fuel as [|f IH]; intros h v t F Hrep Hall Hnd Hdepth; [lia|].
  rewrite returnSimple_unfold.
  destruct v as [c|l|d|a].
  - apply rep_scalar_inv in Hrep as [-> _]. by destruct c.
  - destruct (rep_list_shape _ _ _ _ Hrep) as [tl ->].
    pose proof (rep_list_Forall2 _ _ _ _ Hrep) as Hl.
    assert (Hdl : Forall (fun x => depth x < f) tl).
    { destruct f as [|f']; [simpl in Hdepth; lia|].
      eapply Forall_impl; [apply (depth_list tl f'); lia|].
      intros x Hx. simpl in Hx. lia. }
    assert (Hel : Forall2 (fun x y => Yaco._returnSimple f x h = (Ok y, h))
                    l (map tsimple tl)).
    { simpl in Hall, Hnd. clear Hrep Hdepth.
      induction Hl as [|x tx l tl (Fx & Hx) Hl IHl]; [constructor|].
      simpl in Hall, Hnd. apply andb_prop in Hall as [Ha1 Ha2].
      apply andb_prop in Hnd as [Hn1 Hn2]. apply Forall_cons in Hdl as [Hd1 Hd2].
      constructor; [|by apply IHl].
      eapply IH; [exact Hx|done|done|done]. }
    unfold bind. by rewrite (map_each_pure _ _ _ _ Hel).
  - apply rep_dict_shape in Hrep as [tdd ->]. done.
  - pose proof Hrep as Hrep0.
    apply rep_yaco_inv in Hrep0 as (td & F0 & -> & _ & _ & _ & Hnodup & Hcell).
    pose proof (rep_dict_Forall2 _ _ _ _ Hcell) as Hent.
    pose proof (dict_get_entries _ Hnodup) as Hget.
    assert (Hkeys : NoDup (dict_keys td)) by (by rewrite (rep_dict_keys _ _ _ _ Hcell)).
    rewrite (tsimple_yaco _ Hkeys).
    assert (Hdl : Forall (fun kv : string * tree => depth kv.2 < f) td).
    { destruct f as [|f']; [simpl in Hdepth; lia|].
      eapply Forall_impl; [apply (depth_items (TYaco td) f' eq_refl); lia|].
      intros x Hx. simpl in Hx. lia. }
    assert (Haux : forall entries tentries,
      Forall2 (fun kv kt => kv.1 = kt.1 /\ exists Fv, rep h kv.2 kt.2 Fv)
              entries tentries ->
      Forall (fun kv => dict_get kv.1 (cell h a) = Some kv.2) entries ->
      forallb (fun kv => all_nodes kv.2) tentries = true ->
      forallb (fun kv => negb (has_dot kv.1) && nodots kv.2) tentries = true ->
      Forall (fun kv : string * tree => depth kv.2 < f) tentries ->
      Forall2 (fun k y =>
                 (x <- Yaco.__getitem__ a k ;;
                  v <- Yaco._returnSimple f x ;; ret (k, v)) h = (Ok y, h))
              (dict_keys entries)
              (map (fun kv => (kv.1, tsimple kv.2)) tentries)).
    { induction 1 as [|[k v] [k' t'] d td' (Hk & Fv & Hv) Hl IHl];
        intros Hg Ha Hn Hd; [constructor|].
      simpl in Hk. subst k'. simpl in Hv.
      simpl in Ha, Hn. apply andb_prop in Ha as [Ha1 Ha2].
      apply andb_prop in Hn as [Hn1 Hn2]. apply andb_prop in Hn1 as [Hdot Hn1].
      apply negb_true_iff in Hdot.
      apply Forall_cons in Hd as [Hd1 Hd2]. apply Forall_cons in Hg as [Hg1 Hg2].
      simpl in Hd1, Hg1. simpl. constructor; [|by apply IHl].
      unfold bind. rewrite (getitem_nodot _ _ Hdot).
      rewrite (getattr_present _ _ _ _ Hg1).
      by rewrite (IH h v t' Fv Hv Ha1 Hn1 Hd1). }
    pose proof (Haux (cell h a) td Hent Hget Hall Hnd Hdl) as Hel.
    unfold bind, gets. rewrite (map_each_pure _ _ _ _ Hel). unfold ret.
    rewrite fold_dict_set_fresh; [done|]. simpl.
    by rewrite (dict_keys_map tsimple).
Qed.

Lemma tsimple_plain t : plain (tsimple t) = true.
Proof.
  remember (depth t) as n eqn:Hn. assert (Hd : depth t <= n) by lia.
  clear Hn. revert t Hd. induction n as [|n IH]; intros t Hd.
  - destruct t as [[]| | |]; simpl in Hd; try lia; done.
  - assert (Hmap : forall d,
      Forall (fun kv : string * tree => depth kv.2 <= n) d ->
      plain (VDict (fold_left (fun acc kv => dict_set kv.1 kv.2 acc)
                      (map (fun kv => (kv.1, tsimple kv.2)) d) [])) = true).
    { intros d Hf. simpl.
      assert (Hinit : forallb (fun kv : string * value => plain kv.2) [] = true)
        by done.
      revert Hinit. generalize (@nil (string * value)).
      induction Hf as [|kv r Hkv Hr IHr]; intros acc Hacc; [exact Hacc|].
      simpl. apply IHr. apply forallb_dict_set; [|exact Hacc]. simpl. by apply IH. }
    destruct t as [c|l|d|d].
    + by destruct c.
    + apply depth_list in Hd. simpl.
      induction Hd as [|x l Hx Hl IHl]; [done|]. simpl. by rewrite IH, IHl.
    + apply Hmap. by apply (depth_items (TDict d) n eq_refl).
    + apply Hmap. by apply (depth_items (TYaco d) n eq_refl).
Qed.

(** X22: [simple] of an object without sharing whose keys hold no dot
    returns a plain structure -- no [Yaco] in it at any depth -- and
    leaves the store as it was.  Unlike [get_data] it keeps every key
    of every mapping, the private ones too, and it turns [None] into
    the text ["None"]. *)
Theorem X22_simple_keeps_every_key fuel h self td F :
  rep h (VYaco self) (TYaco td) F ->
  all_nodes (TYaco td) = true ->
  nodots (TYaco td) = true ->
  depth (TYaco td) < fuel ->
  Yaco.simple fuel self h =
    (Ok (VDict (map (fun kv => (kv.1, tsimple kv.2)) td)), h) /\
  plain (VDict (map (fun kv => (kv.1, tsimple kv.2)) td)) = true /\
  dict_keys (map (fun kv => (kv.1, tsimple kv.2)) td) = dict_keys (cell h self).
Proof.
  intros Hrep Hall Hnd Hdepth.
  assert (Hkeys : NoDup (dict_keys td)).
  { apply rep_tnodup in Hrep. simpl in Hrep.
    apply andb_prop in Hrep as [Hn _]. by apply bool_decide_eq_true in Hn. }
  pose proof (returnSimple_refines fuel h _ _ _ Hrep Hall Hnd Hdepth) as Hrun.
  rewrite (tsimple_yaco _ Hkeys) in Hrun. split_and!.
  - exact Hrun.
  - rewrite <- (tsimple_yaco _ Hkeys). apply tsimple_plain.
  - rewrite (dict_keys_map tsimple).
    apply rep_yaco_inv in Hrep as (td0 & F0 & [= <-] & _ & _ & _ & _ & Hcell).
    by eapply rep_dict_keys.
Qed.

Lemma X22_simple_keeps_every_key_witness :
  let h : store := [[("a", VNone); ("_c", VInt 3); ("y", VYaco 1)]; [("z", VInt 1)]] in
  let td : tdict := [("a", TScalar SNone); ("_c", TScalar (SInt 3));
                     ("y", TYaco [("z", TScalar (SInt 1))])] in
  let F : gset addr := {[0]} ∪ (∅ ∪ (∅ ∪ (({[1]} ∪ (∅ ∪ ∅)) ∪ ∅))) in
  rep h (VYaco 0) (TYaco td) F /\
  all_nodes (TYaco td) = true /\
  nodots (TYaco td) = true /\
  depth (TYaco td) < 3 /\
  Yaco.simple 3 0 h =
    (Ok (VDict [("a", VStr "None"); ("_c", VInt 3); ("y", VDict [("z", VInt 1)])]), h).
Proof.
  intros h td F.
  assert (H1 : rep h (VYaco 0) (TYaco td) F) by (unfold h, td, F; rep_concrete).
  assert (H2 : all_nodes (TYaco td) = true) by reflexivity.
  assert (H3 : nodots (TYaco td) = true) by reflexivity.
  assert (H4 : depth (TYaco td) < 3) by (simpl; lia).
  split_and!; [done|done|done|done|].
  by destruct (X22_simple_keeps_every_key 3 h 0 td F H1 H2 H3 H4) as [Hrun _].
Defined.

(** ** Repeated merges, a broken exclusion list and [PolyYaco.simple] *)

Lemma tstep_tmerged key value self :
  tstep key value self = dict_set key (tmerged value (dict_get key self)) self.
Proof.
  unfold tstep, tmerged.
  by destruct (is_tdict value), (dict_get key self) as [[| | |[|e od]]|].
Qed.

(** Data whose every entry is already merged into [self] changes
    nothing. *)
Lemma tupdate_absorbed items self :
  Forall (fun kv : string * tree =>
            exists x, dict_get kv.1 self = Some x /\
                      tmerged kv.2 (Some x) = x) items ->
  tupdate (TDict items) self = self.
Proof.
  induction 1 as [|[k v] items (x & Hx & Hm) Hf IH]; [done|].
  simpl in *. rewrite tupdate_cons, tstep_tmerged, Hx, Hm.
  by rewrite (dict_set_same _ _ _ Hx).
Qed.

Lemma tmerged_shape v old :
  is_tdict v = true -> exists Z, tmerged v old = TYaco (tupdate v Z).
Proof.
  intros Hd. unfold tmerged. rewrite Hd.
  destruct old as [[| | |[|e od]]|];
    try (exists []; by apply tparse_dict).
  by exists (e :: od).
Qed.

Lemma tmerged_not_dict v old : is_tdict v = false -> tmerged v old = tparse v.
Proof. intros Hd. unfold tmerged. by rewrite Hd. Qed.

(** Merging the same data a second time changes nothing. *)
Lemma tupdate_idem n :
  forall dt, depth dt <= n -> keys_once dt = true -> is_tdict dt = true ->
  forall self, tupdate dt (tupdate dt self) = tupdate dt self.
Proof.
  induction n as [|n IH]; intros dt Hd Hk Hdict self.
  - pose proof (depth_dict_pos _ Hdict). lia.
  - rewrite !(tupdate_items dt) by done.
    pose proof (depth_items dt n Hdict Hd) as Hdep.
    assert (Hko : NoDup (dict_keys (titems dt)) /\
                  forallb (fun kv => keys_once kv.2) (titems dt) = true).
    { destruct dt; try done; simpl in *; apply andb_prop in Hk as [H1 H2];
        by apply bool_decide_eq_true in H1. }
    destruct Hko as [Hnd Hkv]. clear Hd Hk Hdict.
    set (items := titems dt) in *.
    apply tupdate_absorbed.
    pose proof (dict_get_entries items Hnd) as Hent.
    assert (Haux : forall entries,
      Forall (fun kv => dict_get kv.1 items = Some kv.2) entries ->
      Forall (fun kv : string * tree => depth kv.2 <= n) entries ->
      forallb (fun kv => keys_once kv.2) entries = true ->
      Forall (fun kv : string * tree =>
                exists x, dict_get kv.1 (tupdate (TDict items) self) = Some x /\
                          tmerged kv.2 (Some x) = x) entries).
    { induction entries as [|[k v] r IHr]; intros He Hdp Hks; [constructor|].
      apply Forall_cons in He as [He1 He2]. apply Forall_cons in Hdp as [Hd1 Hd2].
      simpl in Hks. apply andb_prop in Hks as [Hk1 Hk2].
      constructor; [|by apply IHr]. simpl in *.
      exists (tmerged v (dict_get k self)). split; [by apply tupdate_get|].
      destruct (is_tdict v) eqn:Ev.
      - destruct (tmerged_shape v (dict_get k self) Ev) as [Z ->].
        rewrite tmerged_yaco by done. by rewrite (IH v Hd1 Hk1 Ev).
      - by rewrite !tmerged_not_dict. }
    by apply Haux.
Qed.

(** X23: [update] is idempotent.  Merging the same data into an
    object a second time returns normally and leaves the object
    unfolding to the same tree as after the first time.  The data hold
    no mapping inside a list: [_list_parser] would rewrite such a list
    in place, so the second call would not see the same data. *)
Theorem X23_update_idempotent fuel h self td F data dt Fd :
  rep h (VYaco self) (TYaco td) F ->
  rep h data dt Fd ->
  is_tdict dt = true ->
  lists_flat dt = true ->
  F ## Fd ->
  depth dt <= fuel ->
  keys_once dt = true ->
  exists h1 h2 F1 F2,
    Yaco.update fuel self data h = (Ok tt, h1) /\
    rep h1 (VYaco self) (TYaco (tupdate dt td)) F1 /\
    Yaco.update fuel self data h1 = (Ok tt, h2) /\
    rep h2 (VYaco self) (TYaco (tupdate dt td)) F2.
Proof.
  intros Hself Hdata Hdict _ Hdj Hdepth Hko.
  destruct (update_refines fuel h self td F data dt Fd Hself Hdata Hdict Hdj Hdepth)
    as (h1 & F1 & Hrun1 & Hrep1 & Hfr1).
  destruct (update_refines fuel h1 self _ F1 data dt Fd Hrep1) as
    (h2 & F2 & Hrun2 & Hrep2 & Hfr2); [| | | |].
  - eapply frame_keeps; [exact Hfr1|exact Hdata|done].
  - done.
  - eapply frame_disjoint; [exact Hfr1|done|].
    intros a Ha. by eapply rep_bound.
  - done.
  - rewrite (tupdate_idem fuel dt Hdepth Hko Hdict) in Hrep2.
    by exists h1, h2, F1, F2.
Qed.

Lemma X23_update_idempotent_witness :
  let h : store := [[("c", VYaco 1); ("a", VInt 1)]; [("d", VInt 3)]] in
  let td : tdict := [("c", TYaco [("d", TScalar (SInt 3))]); ("a", TScalar (SInt 1))] in
  let F : gset addr := {[0]} ∪ (({[1]} ∪ (∅ ∪ ∅)) ∪ (∅ ∪ ∅)) in
  let data := VDict [("c", VDict [("e", VInt 4)]); ("g", VList [VInt 6; VInt 7])] in
  rep h (VYaco 0) (TYaco td) F /\
  rep h data (tree_of data) ∅ /\
  is_tdict (tree_of data) = true /\
  lists_flat (tree_of data) = true /\
  F ## ∅ /\
  depth (tree_of data) <= 3 /\
  keys_once (tree_of data) = true /\
  exists h1 h2 F1 F2,
    Yaco.update 3 0 data h = (Ok tt, h1) /\
    Yaco.update 3 0 data h1 = (Ok tt, h2) /\
    rep h1 (VYaco 0) (TYaco (tupdate (tree_of data) td)) F1 /\
    rep h2 (VYaco 0) (TYaco (tupdate (tree_of data) td)) F2.
Proof.
  intros h td F data.
  assert (H1 : rep h (VYaco 0) (TYaco td) F) by (unfold h, td, F; rep_concrete).
  assert (H2 : rep h data (tree_of data) ∅) by (by apply rep_plain).
  assert (H3 : is_tdict (tree_of data) = true) by reflexivity.
  assert (Hl : lists_flat (tree_of data) = true) by reflexivity.
  assert (H4 : F ## ∅) by set_solver.
  assert (H5 : depth (tree_of data) <= 3) by (vm_compute; lia).
  assert (H6 : keys_once (tree_of data) = true) by (by vm_compute).
  split_and!; [done|done|done|done|done|done|done|].
  destruct (X23_update_idempotent 3 h 0 td F data (tree_of data) ∅
              H1 H2 H3 Hl H4 H5 H6) as (h1 & h2 & F1 & F2 & Ha & Hb & Hc & Hd).
  by exists h1, h2, F1, F2.
Defined.

(** X24: [get_data] of an object whose exclusion list is a number, a
    boolean or [None] raises [TypeError] and changes nothing; so do
    [dump] and [save], with or without [doNotSave], which write no
    file. *)
Theorem X24_private_not_iterable fuel w self c to_file doNotSave :
  dict_get "_private" (cell (heap w) self) = Some (VScalar c) ->
  (forall s, c <> SStr s) ->
  Yaco.get_data (S fuel) self (heap w) = (Raise TypeError, heap w) /\
  YacoMore.dump (S fuel) self w = (Raise TypeError, w) /\
  YacoIO.save (S fuel) self to_file w = (Raise TypeError, w) /\
  YacoMore.save (S fuel) self to_file doNotSave w = (Raise TypeError, w).
Proof.
  intros Hp Hc.
  assert (Hgd : Yaco.get_data (S fuel) self (heap w) = (Raise TypeError, heap w)).
  { rewrite get_data_unfold. unfold bind, gets. rewrite Hp.
    destruct (cell (heap w) self) as [|[k v] d] eqn:Ec; [done|].
    cbn [default dict_keys map fst snd]. rewrite fold_each_cons.
    unfold bind, get_data_entry, bind, Yaco.key_in.
    destruct c; try done. by destruct (Hc s). }
  split_and!; [done| | |].
  - unfold YacoMore.dump, bind, on_heap. rewrite Hgd. simpl.
    by rewrite set_heap_same.
  - unfold YacoIO.save, bind, on_heap. rewrite Hgd. simpl.
    by rewrite set_heap_same.
  - unfold YacoMore.save, bind, on_heap. rewrite Hgd. simpl.
    by rewrite set_heap_same.
Qed.

Lemma X24_private_not_iterable_witness :
  let w := {| heap := [[("a", VInt 1); ("_private", VInt 5)]];
              disk := disk example_world |} in
  dict_get "_private" (cell (heap w) 0) = Some (VInt 5) /\
  (forall s, SInt 5 <> SStr s) /\
  Yaco.get_data 2 0 (heap w) = (Raise TypeError, heap w) /\
  YacoIO.save 2 0 "/tmp/out.yaml" w = (Raise TypeError, w).
Proof.
  intros w.
  assert (H1 : dict_get "_private" (cell (heap w) 0) = Some (VInt 5)) by reflexivity.
  assert (H2 : forall s, SInt 5 <> SStr s) by done.
  destruct (X24_private_not_iterable 1 w 0 (SInt 5) "/tmp/out.yaml" [] H1 H2)
    as (Ha & _ & Hb & _).
  by split_and!.
Defined.

Lemma nodots_dict_set k v d :
  has_dot k = false -> nodots v = true ->
  nodots (TYaco d) = true -> nodots (TYaco (dict_set k v d)) = true.
Proof.
  intros Hk Hv. induction d as [|[k' v'] d IH]; simpl.
  - intros _. by rewrite Hk, Hv.
  - intros H. apply andb_prop in H as [H1 H2].
    destruct (String.eqb k k'); simpl.
    + apply andb_prop in H1 as [H0 _]. by rewrite H0, Hv, H2.
    + rewrite H1. by apply IH.
Qed.

Lemma nodots_dict_get k v d :
  nodots (TYaco d) = true -> dict_get k d = Some v -> nodots v = true.
Proof.
  induction d as [|[k' v'] d IH]; simpl; [done|].
  intros H. apply andb_prop in H as [H1 H2]. apply andb_prop in H1 as [_ H1].
  destruct (String.eqb k k'); [by intros [= <-]|by apply IH].
Qed.

(** Parsing and merging bring no dotted key in. *)
Lemma nodots_tconv n t :
  depth t <= n -> nodots t = true ->
  nodots (tparse t) = true /\
  (forall self, nodots (TYaco self) = true ->
                nodots (TYaco (tupdate t self)) = true).
Proof.
  revert t. induction n as [|n IH]; intros t Hd Hnd.
  - destruct t; simpl in Hd; try lia. by split.
  - assert (Hloop : forall items,
      Forall (fun kv : string * tree => depth kv.2 <= n) items ->
      nodots (TDict items) = true ->
      forall self, nodots (TYaco self) = true ->
                   nodots (TYaco (tupdate (TDict items) self)) = true).
    { induction items as [|[key value] items IHi]; intros Hn Hi self Hs; [done|].
      apply Forall_cons in Hn as [Hvn Hn]. simpl in Hvn, Hi.
      apply andb_prop in Hi as [Hkv Hi]. apply andb_prop in Hkv as [Hk Hv].
      apply negb_true_iff in Hk.
      rewrite tupdate_cons. apply IHi; [done|done|].
      destruct (IH _ Hvn Hv) as [Hp Hu]. unfold tstep.
      destruct (is_tdict value), (dict_get key self) as [[| | |[|e od]]|] eqn:E;
        try (by apply nodots_dict_set).
      apply nodots_dict_set; [done| |done].
      apply Hu. by apply (nodots_dict_get key _ self). }
    destruct t as [c|l|d|d].
    + by split.
    + split; [|done]. rewrite tparse_list.
      apply depth_list in Hd. simpl in Hnd |- *.
      clear -IH Hd Hnd. induction Hd as [|x l Hx Hl IHl]; [done|].
      simpl in *. apply andb_prop in Hnd as [H1 H2].
      rewrite (proj1 (IH _ Hx H1)). by apply IHl.
    + pose proof (depth_items (TDict d) n eq_refl Hd) as Hf. split.
      * rewrite tparse_dict by done. by apply Hloop.
      * intros self Hs. by apply Hloop.
    + pose proof (depth_items (TYaco d) n eq_refl Hd) as Hf. split.
      * rewrite tparse_dict by done. rewrite tupdate_yaco. by apply Hloop.
      * intros self Hs. rewrite tupdate_yaco. by apply Hloop.
Qed.

Lemma tmerge_invariants fuel ts :
  1 < fuel ->
  Forall (fun t => nodots t = true /\ depth t < fuel) ts ->
  all_nodes (TYaco (tmerge ts)) = true /\
  nodots (TYaco (tmerge ts)) = true /\
  depth (TYaco (tmerge ts)) < fuel.
Proof.
  intros Hfuel Hts. unfold tmerge.
  assert (Hinit : all_nodes (TYaco []) = true /\ nodots (TYaco []) = true /\
                  depth (TYaco []) < fuel) by (simpl; split_and!; [done|done|lia]).
  revert Hinit. generalize (@nil (string * tree)).
  induction Hts as [|t ts [Hnd Hd] Hts IH]; intros acc (Ha & Hn & Hdp); [done|].
  simpl. apply IH. split_and!.
  - by apply (tupdate_all_nodes t acc).
  - by apply (nodots_tconv (depth t) t (le_n _) Hnd).
  - destruct fuel as [|m]; [lia|].
    apply Nat.lt_succ_r. apply depth_tupdate; lia.
Qed.

(** X25: [PolyYaco.simple] of a freshly loaded object returns the plain
    form of the merged view: a structure without any [Yaco], holding
    every key of the merge of the layers, the private ones too.  The
    layers are left as they were. *)
Theorem X25_poly_simple_is_merged_view fuel s ts :
  _PolyYaco_dirty (this s) = true ->
  Forall2 (layer_rep fuel (heap (env s))) (_PolyYaco_yacs (this s)) ts ->
  Forall (fun t => nodots t = true /\ depth t < fuel) ts ->
  1 < fuel ->
  exists s',
    PolyYaco.simple fuel s =
      (Ok (VDict (map (fun kv => (kv.1, tsimple kv.2)) (tmerge ts))), s') /\
    plain (VDict (map (fun kv => (kv.1, tsimple kv.2)) (tmerge ts))) = true /\
    _PolyYaco_yacs (this s') = _PolyYaco_yacs (this s) /\
    Forall2 (layer_rep fuel (heap (env s'))) (_PolyYaco_yacs (this s')) ts.
Proof.
  intros Hdirty Hl Hts Hfuel.
  destruct (merge_refines fuel s ts Hdirty Hl) as (h' & F' & Hrun & Hrep & Hfr).
  destruct (tmerge_invariants fuel ts Hfuel Hts) as (Hall & Hnd & Hdp).
  assert (Hkeys : NoDup (dict_keys (tmerge ts))).
  { pose proof (rep_tnodup _ _ _ _ Hrep) as Hn. simpl in Hn.
    apply andb_prop in Hn as [Hn _]. by apply bool_decide_eq_true in Hn. }
  pose proof (returnSimple_refines fuel h' _ _ _ Hrep Hall Hnd Hdp) as Hs.
  rewrite (tsimple_yaco _ Hkeys) in Hs.
  eexists. split_and!.
  - unfold PolyYaco.simple, bind. rewrite Hrun.
    rewrite on_store_run. unfold Yaco.simple.
    cbn [fst snd env this heap set_heap]. rewrite Hs. reflexivity.
  - rewrite <- (tsimple_yaco _ Hkeys). apply tsimple_plain.
  - done.
  - cbn [env this heap set_heap PolyYaco.set_dirty PolyYaco.set_merged _PolyYaco_yacs].
    eapply Forall2_impl; [exact Hl|].
    intros l t (Fl & Hr & Hd). exists Fl. split; [|done].
    eapply frame_keeps; [exact Hfr|exact Hr|set_solver].
Qed.

Lemma X25_poly_simple_is_merged_view_witness :
  let ts := [TYaco [("a", TScalar (SInt 1)); ("b", TScalar (SInt 2))];
             TYaco [("a", TScalar (SInt 18))]] in
  _PolyYaco_dirty (this example_state) = true /\
  Forall2 (layer_rep 3 (heap (env example_state)))
          (_PolyYaco_yacs (this example_state)) ts /\
  Forall (fun t => nodots t = true /\ depth t < 3) ts /\
  1 < 3 /\
  (PolyYaco.simple 3 example_state).1 = Ok (VDict [("a", VInt 18); ("b", VInt 2)]).
Proof.
  intros ts.
  assert (H1 : Forall2 (layer_rep 3 (heap (env example_state)))
                 (_PolyYaco_yacs (this example_state)) ts).
  { vm_compute heap. vm_compute _PolyYaco_yacs.
    repeat constructor; (eexists; split; [simpl obj; rep_concrete|simpl; lia]). }
  assert (H2 : Forall (fun t => nodots t = true /\ depth t < 3) ts).
  { repeat constructor; simpl; lia. }
  assert (H3 : 1 < 3) by lia.
  destruct (X25_poly_simple_is_merged_view 3 example_state ts eq_refl H1 H2 H3)
    as (s' & Hrun & _).
  split_and!; [done|done|done|done|].
  by rewrite Hrun.
Defined.
